(** * Garmin health dashboard: the export parser and the correlation engine

    A shallow embedding of [src/services/dataParser/garminParser.ts] and of
    [src/services/analytics/correlationAnalysis.ts], with the properties
    that the specification states about them.

    JavaScript numbers are IEEE 754 binary64 values: they are modelled by
    Rocq's primitive floats, whose arithmetic is the same.  Values read
    from JSON are modelled by the type [value].  Operations that can throw
    return a [completion].  The builtins whose results ECMAScript leaves to
    the implementation (Math.pow, Date.parse, localeCompare, the
    conversions of strings and objects to numbers) are fields of a record
    [JSEngine], over which the model is parametric. *)

From Stdlib Require Import List String Ascii ZArith Bool Lia Floats.
From Stdlib Require Import Sorted Permutation DecimalString OrderedTypeEx.
Import ListNotations.

Set Warnings "-inexact-float,-register-all".
Open Scope string_scope.
Open Scope list_scope.

(** ** JavaScript values *)

Inductive value : Type :=
| VUndefined
| VNull
| VBool (b : bool)
| VNum (n : float)
| VStr (s : string)
| VArr (items : list value)
| VObj (props : list (string * value)).

Inductive error : Type := TypeError | RangeError.

Inductive completion (A : Type) : Type :=
| Normal (a : A)
| Throw (e : error).

Arguments Normal {A} a.
Arguments Throw {A} e.

Definition bind {A B : Type} (c : completion A) (k : A -> completion B)
  : completion B :=
  match c with
  | Normal a => k a
  | Throw e => Throw e
  end.

Declare Scope js_scope.
Delimit Scope js_scope with js.
Notation "x <- c ;; k" := (bind c (fun x => k))
  (at level 61, c at next level, right associativity) : js_scope.
Open Scope js_scope.

Definition returns {A : Type} (c : completion A) : Prop :=
  exists a, c = Normal a.

(** [v] used as a condition: ToBoolean. *)
Definition truthy (v : value) : bool :=
  match v with
  | VUndefined | VNull => false
  | VBool b => b
  | VNum n => negb (PrimFloat.eqb n 0 || PrimFloat.is_nan n)
  | VStr s => negb (String.eqb s "")
  | VArr _ | VObj _ => true
  end.

(** [typeof v === 'object'] *)
Definition typeof_object (v : value) : bool :=
  match v with
  | VNull | VArr _ | VObj _ => true
  | _ => false
  end.

Definition is_undefined (v : value) : bool :=
  match v with VUndefined => true | _ => false end.

Definition nullish (v : value) : bool :=
  match v with VUndefined | VNull => true | _ => false end.

Fixpoint lookup (k : string) (ps : list (string * value)) : value :=
  match ps with
  | [] => VUndefined
  | (k', v) :: ps' => if String.eqb k k' then v else lookup k ps'
  end.

(** [v.k] for a key [k] that no prototype defines (every key this program
    reads is one): a TypeError on [undefined] and [null], the own property
    of an object, [undefined] on arrays and primitives. *)
Definition get (v : value) (k : string) : completion value :=
  match v with
  | VUndefined | VNull => Throw TypeError
  | VObj ps => Normal (lookup k ps)
  | _ => Normal VUndefined
  end.

(** [v?.k] *)
Definition opt_get (v : value) (k : string) : completion value :=
  if nullish v then Normal VUndefined else get v k.

(** [a || b], the second operand evaluated only when needed. *)
Definition js_or (a : value) (b : completion value) : completion value :=
  if truthy a then Normal a else b.

(** [{...obj, k: v}] on an object value: [k] keeps its place when [obj]
    has it and is added last otherwise. *)
Fixpoint set_prop (k : string) (v : value) (ps : list (string * value))
  : list (string * value) :=
  match ps with
  | [] => [(k, v)]
  | (k', v') :: ps' =>
      if String.eqb k k' then (k, v) :: ps' else (k', v') :: set_prop k v ps'
  end.

Fixpoint indexed (i : nat) (l : list value) : list (string * value) :=
  match l with
  | [] => []
  | x :: l' => (NilEmpty.string_of_uint (Nat.to_uint i), x) :: indexed (S i) l'
  end.

(** The own enumerable properties that [{...v}] copies. *)
Definition own_props (v : value) : list (string * value) :=
  match v with
  | VObj ps => ps
  | VArr items => indexed 0 items
  | _ => []
  end.

(** [arr.filter(p)] with a callback that can throw. *)
Fixpoint filterM (p : value -> completion bool) (l : list value)
  : completion (list value) :=
  match l with
  | [] => Normal []
  | x :: l' =>
      b <- p x ;;
      r <- filterM p l' ;;
      Normal (if b then x :: r else r)
  end.

(** [arr.map(f)] with a callback that can throw. *)
Fixpoint mapM {A B : Type} (f : A -> completion B) (l : list A)
  : completion (list B) :=
  match l with
  | [] => Normal []
  | x :: l' =>
      y <- f x ;;
      r <- mapM f l' ;;
      Normal (y :: r)
  end.

(** ** Strings: the filename tests *)

Definition lower_ascii (c : ascii) : ascii :=
  let n := nat_of_ascii c in
  if (65 <=? n)%nat && (n <=? 90)%nat then ascii_of_nat (n + 32) else c.

(** [s.toLowerCase()], on filenames made of ASCII characters. *)
Fixpoint toLowerCase (s : string) : string :=
  match s with
  | EmptyString => EmptyString
  | String c s' => String (lower_ascii c) (toLowerCase s')
  end.

(** [s.includes(p)] *)
Fixpoint includes (s p : string) : bool :=
  String.prefix p s ||
  match s with
  | EmptyString => false
  | String _ s' => includes s' p
  end.

(** [s.endsWith(p)] *)
Fixpoint endsWith (s p : string) : bool :=
  String.eqb s p ||
  match s with
  | EmptyString => false
  | String _ s' => endsWith s' p
  end.

(** ** The builtins left to the JavaScript engine *)

Record JSEngine : Type := {
  (** [Math.pow(b, e)] *)
  Math_pow : float -> float -> float;
  (** [Date.parse(s)] as a time value in milliseconds; [None] is NaN. *)
  Date_parse : string -> option Z;
  (** the time value of [new Date(v)] for an array or an object [v]:
      ToPrimitive, which can throw, and then Date.parse. *)
  Date_of_object : value -> completion (option Z);
  (** [new Date(t).toISOString()] for a valid time value [t]. *)
  Date_toISOString : Z -> string;
  (** [Number(s)] for a string. *)
  StringToNumber : string -> float;
  (** [Number(v)] for an array or an object, which can throw. *)
  ToNumber_of_object : value -> completion float;
  (** the sign of [a.localeCompare(b)]. *)
  localeCompare : string -> string -> Z
}.

(** ** Dates *)

(** TimeClip(ToIntegerOrInfinity(n)) for a number: the integral part of a
    finite [n] of magnitude at most 8.64e15, NaN otherwise. *)
Definition TimeClip (n : float) : option Z :=
  match Prim2SF n with
  | S754_zero _ => Some 0%Z
  | S754_finite s m e =>
      let a := (if 0 <=? e then Z.pos m * 2 ^ e else Z.pos m / 2 ^ (- e))%Z in
      if (8640000000000000 <? a)%Z then None
      else Some (if s then (- a)%Z else a)
  | _ => None
  end.

Section Engine.

Context (E : JSEngine).

(** The time value of [new Date(v)]; [None] is the invalid date. *)
Definition new_Date (v : value) : completion (option Z) :=
  match v with
  | VUndefined => Normal None
  | VNull => Normal (Some 0%Z)
  | VBool b => Normal (Some (if b then 1 else 0)%Z)
  | VNum n => Normal (TimeClip n)
  | VStr s => Normal (Date_parse E s)
  | VArr _ | VObj _ => Date_of_object E v
  end.

(** [new Date(v).toISOString()]: a RangeError on the invalid date. *)
Definition Date_ISO (v : value) : completion value :=
  t <- new_Date v ;;
  match t with
  | Some ms => Normal (VStr (Date_toISOString E ms))
  | None => Throw RangeError
  end.

(** ** Record extractors (garminParser.ts, current revision) *)

(** [item && typeof item === 'object'] *)
Definition object_shaped (item : value) : bool :=
  truthy item && typeof_object item.

(** The loop of parseSleepData over the wrapper property names. *)
Fixpoint first_array_prop (data : value) (names : list string)
  : completion (option (list value)) :=
  match names with
  | [] => Normal None
  | prop :: names' =>
      v <- get data prop ;;
      match v with
      | VArr items => Normal (Some items)
      | _ => first_array_prop data names'
      end
  end.

Definition parseSleepData (data : value) : completion (list value) :=
  match data with
  | VArr items => filterM (fun item => Normal (object_shaped item)) items
  | _ =>
      if object_shaped data then
        r <- first_array_prop data ["sleepData"; "data"; "records"; "items"] ;;
        match r with
        | Some items => filterM (fun item => Normal (object_shaped item)) items
        | None => Normal []
        end
      else Normal []
  end.

(** [list.find((agg) => agg.type === 'TOTAL')] *)
Fixpoint find_total (l : list value) : completion value :=
  match l with
  | [] => Normal VUndefined
  | agg :: l' =>
      t <- get agg "type" ;;
      match t with
      | VStr s => if String.eqb s "TOTAL" then Normal agg else find_total l'
      | _ => find_total l'
      end
  end.

(** [data.allDayStress?.aggregatorList?.find(...)?.k]: a value that is not
    an array has no callable [find], and the call is a TypeError. *)
Definition stress_total (data : value) (k : string) : completion value :=
  s <- get data "allDayStress" ;;
  l <- opt_get s "aggregatorList" ;;
  match l with
  | VUndefined | VNull => Normal VUndefined
  | VArr aggs => agg <- find_total aggs ;; opt_get agg k
  | _ => Throw TypeError
  end.

(** The right-hand sides that occur in the object literals of the
    extractors, over the source object of the literal. *)
Inductive field_expr : Type :=
| Prop_ (k : string)                (* src.k *)
| PropOr (k1 k2 : string)           (* src.k1 || src.k2 *)
| IsoOr (k1 k2 : string)            (* new Date(src.k1 || src.k2).toISOString() *)
| PropOrIso (k1 k2 : string)        (* src.k1 || new Date(src.k2).toISOString() *)
| StressTotal (k : string).         (* src.allDayStress?...find(...)?.k *)

Definition eval_field (src : value) (f : field_expr) : completion value :=
  match f with
  | Prop_ k => get src k
  | PropOr k1 k2 => a <- get src k1 ;; js_or a (get src k2)
  | IsoOr k1 k2 => a <- get src k1 ;; v <- js_or a (get src k2) ;; Date_ISO v
  | PropOrIso k1 k2 =>
      a <- get src k1 ;; js_or a (c <- get src k2 ;; Date_ISO c)
  | StressTotal k => stress_total src k
  end.

(** An object literal: its fields are evaluated in order. *)
Definition object_literal (src : value) (fields : list (string * field_expr))
  : completion value :=
  ps <- mapM (fun kf => v <- eval_field src (snd kf) ;; Normal (fst kf, v))
             fields ;;
  Normal (VObj ps).

Definition copy (k : string) : string * field_expr := (k, Prop_ k).

Definition wellness_fields : list (string * field_expr) :=
  [ copy "userProfilePK"; copy "calendarDate"; copy "totalSteps";
    copy "totalKilocalories"; copy "bmrKilocalories";
    copy "wellnessKilocalories"; copy "activeKilocalories";
    copy "floorsAscended"; copy "floorsDescended";
    copy "floorsAscendedInMeters"; copy "floorsDescendedInMeters";
    copy "minHeartRate"; copy "maxHeartRate"; copy "restingHeartRate";
    copy "lastSevenDaysAvgRestingHeartRate"; copy "source";
    ("averageStressLevel", StressTotal "averageStressLevel");
    ("maxStressLevel", StressTotal "maxStressLevel");
    ("stressDuration", StressTotal "stressDuration");
    ("restStressDuration", StressTotal "restDuration");
    ("activityStressDuration", StressTotal "activityDuration");
    ("uncategorizedStressDuration", StressTotal "uncategorizedDuration");
    ("totalStressDuration", StressTotal "totalDuration");
    ("lowStressDuration", StressTotal "lowDuration");
    ("mediumStressDuration", StressTotal "mediumDuration");
    ("highStressDuration", StressTotal "highDuration");
    copy "stressPercentage"; copy "restStressPercentage";
    copy "activityStressPercentage"; copy "uncategorizedStressPercentage";
    copy "lowStressPercentage"; copy "mediumStressPercentage";
    copy "highStressPercentage"; copy "stressQualifier";
    copy "measurableAwakeDuration"; copy "measurableAsleepDuration";
    copy "lastSyncTimestampGMT"; copy "allDayStress"; copy "bodyBattery" ].

(** [null] is [None]. *)
Definition parseWellnessData (data : value) : completion (option value) :=
  if object_shaped data then
    d <- get data "calendarDate" ;;
    if truthy d then
      w <- object_literal data wellness_fields ;;
      Normal (Some w)
    else Normal None
  else Normal None.

Definition hydration_fields : list (string * field_expr) :=
  [ copy "calendarDate"; copy "valueInML";
    ("timestampGMT", PropOrIso "timestampGMT" "calendarDate") ].

(** [item && typeof item === 'object' && item.valueInML !== undefined] *)
Definition has_volume (item : value) : completion bool :=
  if object_shaped item then
    v <- get item "valueInML" ;;
    Normal (negb (is_undefined v))
  else Normal false.

Definition parseHydrationData (data : value) : completion (list value) :=
  match data with
  | VArr items =>
      kept <- filterM has_volume items ;;
      mapM (fun item => object_literal item hydration_fields) kept
  | _ => Normal []
  end.

Definition activity_fields : list (string * field_expr) :=
  [ ("activityType", PropOr "activityType" "sportType");
    ("startTimeGMT", IsoOr "startTimeGmt" "beginTimestamp");
    ("startTimeLocal", IsoOr "startTimeLocal" "beginTimestamp");
    ("activityName", PropOr "name" "activityType");
    copy "distance"; copy "duration"; copy "elapsedDuration";
    copy "movingDuration"; copy "elevationGain"; copy "elevationLoss";
    ("averageSpeed", Prop_ "avgSpeed"); copy "maxSpeed"; copy "calories";
    copy "bmrCalories"; ("averageHR", Prop_ "avgHr"); ("maxHR", Prop_ "maxHr");
    ("averageRunCadence", Prop_ "avgRunCadence"); copy "maxRunCadence";
    ("averageBikeCadence", Prop_ "avgBikeCadence"); copy "maxBikeCadence";
    copy "strokes"; copy "avgStrokes"; copy "poolLength";
    copy "unitOfPoolLength"; copy "locationName"; copy "avgPower";
    copy "maxPower"; copy "minPower"; copy "normPower";
    copy "trainingStressScore"; copy "intensityFactor";
    copy "avgVerticalSpeed"; copy "lapCount"; copy "endLatitude";
    copy "endLongitude"; copy "startLatitude"; copy "startLongitude" ].

(** [item && typeof item === 'object' && item.activityType && item.startTimeGMT] *)
Definition is_activity (item : value) : completion bool :=
  if object_shaped item then
    t <- get item "activityType" ;;
    if truthy t then
      s <- get item "startTimeGMT" ;;
      Normal (truthy s)
    else Normal false
  else Normal false.

(** The body of [data.forEach(item => ...)] on the summarized export: the
    activities that one wrapper adds. *)
Definition export_activities (item : value) : completion (list value) :=
  l <- get item "summarizedActivitiesExport" ;;
  match l with
  | VArr acts => mapM (fun activity => object_literal activity activity_fields) acts
  | _ => Normal []
  end.

Fixpoint flattenM (f : value -> completion (list value)) (l : list value)
  : completion (list value) :=
  match l with
  | [] => Normal []
  | x :: l' =>
      a <- f x ;;
      r <- flattenM f l' ;;
      Normal (a ++ r)
  end.

Definition parseActivities (data : value) : completion (list value) :=
  match data with
  | VArr [] => filterM is_activity []
  | VArr (first :: rest) =>
      e <- get first "summarizedActivitiesExport" ;;
      if truthy e then flattenM export_activities (first :: rest)
      else filterM is_activity (first :: rest)
  | _ =>
      if object_shaped data then
        r <- first_array_prop data
               ["summarizedActivities"; "activities"; "data"; "records"] ;;
        match r with
        | Some items => filterM is_activity items
        | None => Normal []
        end
      else Normal []
  end.

Definition parseMetricsData (data : value) : completion (option value) :=
  if object_shaped data then
    c <- get data "calendarDate" ;;
    d <- js_or c (get data "metricsDate") ;;
    if truthy d then
      c' <- get data "calendarDate" ;;
      d' <- js_or c' (get data "metricsDate") ;;
      Normal (Some (VObj (set_prop "calendarDate" d' (own_props data))))
    else
      match data with
      | VArr (first :: _) =>
          c0 <- get first "calendarDate" ;;
          Normal (if truthy c0 then Some first else None)
      | _ => Normal None
      end
  else Normal None.

End Engine.

(** ** The export aggregator (parseGarminData) *)

Record GarminDataExport : Type := {
  sleepData : list value;
  wellnessData : list value;
  hydrationData : list value;
  activities : list value;
  metricsData : list value
}.

Definition empty_export : GarminDataExport :=
  {| sleepData := []; wellnessData := []; hydrationData := [];
     activities := []; metricsData := [] |}.

(** What reading an archive entry as text and [JSON.parse] of the text
    give: the read fails, the text is not JSON, or a value. *)
Inductive payload : Type :=
| Unreadable
| NotJSON
| Parsed (data : value).

Record entry : Type := {
  name : string;
  dir : bool;
  content : payload
}.

(** The branches of the if-chain on the filename. *)
Inductive category : Type :=
| Sleep | Wellness | Hydration | Activities | Metrics | UnknownJson | Ignored.

Definition classify (filename : string) : category :=
  if includes (toLowerCase filename) "sleep" && endsWith filename ".json"
  then Sleep
  else if includes filename "UDSFile_" then Wellness
  else if includes (toLowerCase filename) "hydration" then Hydration
  else if includes (toLowerCase filename) "summarizedactivities"
          || includes filename "_summarizedActivities" then Activities
  else if includes filename "MetricsMaxMetData_" then Metrics
  else if endsWith filename ".json" then UnknownJson
  else Ignored.

Section Aggregator.

Context (E : JSEngine).

(** [data.forEach(record => { const w = parseWellnessData(record);
    if (w) result.wellnessData.push(w) })]: the records pushed before a
    throw stay in the collection. *)
Fixpoint push_wellness (records : list value) (acc : list value)
  : list value * completion unit :=
  match records with
  | [] => (acc, Normal tt)
  | record :: records' =>
      match parseWellnessData E record with
      | Throw e => (acc, Throw e)
      | Normal None => push_wellness records' acc
      | Normal (Some w) => push_wellness records' (acc ++ [w])
      end
  end.

(** The body of the [try] once the text is parsed: the export after it,
    and whether it threw. *)
Definition absorb (r : GarminDataExport) (filename : string) (data : value)
  : GarminDataExport * completion unit :=
  match classify filename with
  | Sleep =>
      match parseSleepData data with
      | Normal l =>
          ({| sleepData := sleepData r ++ l; wellnessData := wellnessData r;
              hydrationData := hydrationData r; activities := activities r;
              metricsData := metricsData r |}, Normal tt)
      | Throw e => (r, Throw e)
      end
  | Wellness =>
      match data with
      | VArr records =>
          let (w, c) := push_wellness records (wellnessData r) in
          ({| sleepData := sleepData r; wellnessData := w;
              hydrationData := hydrationData r; activities := activities r;
              metricsData := metricsData r |}, c)
      | _ => (r, Normal tt)
      end
  | Hydration =>
      match parseHydrationData E data with
      | Normal l =>
          ({| sleepData := sleepData r; wellnessData := wellnessData r;
              hydrationData := hydrationData r ++ l; activities := activities r;
              metricsData := metricsData r |}, Normal tt)
      | Throw e => (r, Throw e)
      end
  | Activities =>
      match parseActivities E data with
      | Normal l =>
          ({| sleepData := sleepData r; wellnessData := wellnessData r;
              hydrationData := hydrationData r; activities := activities r ++ l;
              metricsData := metricsData r |}, Normal tt)
      | Throw e => (r, Throw e)
      end
  | Metrics =>
      if object_shaped data then
        match parseMetricsData data with
        | Normal (Some m) =>
            ({| sleepData := sleepData r; wellnessData := wellnessData r;
                hydrationData := hydrationData r; activities := activities r;
                metricsData := metricsData r ++ [m] |}, Normal tt)
        | Normal None => (r, Normal tt)
        | Throw e => (r, Throw e)
        end
      else (r, Normal tt)
  | UnknownJson | Ignored => (r, Normal tt)
  end.

(** The state of the loop: the export, [processedFiles], and the values
    passed to [onProgress] so far, oldest first. *)
Record state : Type := {
  result : GarminDataExport;
  processedFiles : nat;
  progress : list float
}.

Definition float_of_nat (n : nat) : float :=
  PrimFloat.of_uint63 (Uint63.of_Z (Z.of_nat n)).

(** [processedFiles++; onProgress(processedFiles / files.length)] *)
Definition count (total : nat) (r : GarminDataExport) (st : state) : state :=
  {| result := r;
     processedFiles := S (processedFiles st);
     progress := progress st ++
       [PrimFloat.div (float_of_nat (S (processedFiles st))) (float_of_nat total)] |}.

(** One iteration of [for (const filename of files)]; [total] is
    [files.length].  A directory and a text that is not JSON [continue];
    every throw inside the [try] is caught. *)
Definition step (total : nat) (st : state) (f : entry) : state :=
  if dir f then st
  else
    match content f with
    | Unreadable => count total (result st) st
    | NotJSON => st
    | Parsed data => count total (fst (absorb (result st) (name f) data)) st
    end.

(** The comparator [(a, b) => new Date(a.k).getTime() - new Date(b.k).getTime()];
    [None] is NaN. *)
Definition by_date (k : string) (a b : value) : completion (option Z) :=
  fa <- get a k ;;
  ta <- new_Date E fa ;;
  fb <- get b k ;;
  tb <- new_Date E fb ;;
  Normal (match ta, tb with
          | Some x, Some y => Some (x - y)%Z
          | _, _ => None
          end).

End Aggregator.

(** [arr.sort(cmp)]: a stable sort, as ECMAScript requires, written as an
    insertion sort.  A comparator result that is NaN counts as 0.  With a
    comparator that is not consistent the order is left to the engine and
    this is one of the allowed results. *)
Section Sort.

Context {A : Type} (cmp : A -> A -> completion (option Z)).

Definition after (c : option Z) : bool :=
  match c with
  | Some z => (0 <? z)%Z
  | None => false
  end.

Fixpoint insert (x : A) (l : list A) : completion (list A) :=
  match l with
  | [] => Normal [x]
  | y :: l' =>
      c <- cmp x y ;;
      if after c then (r <- insert x l' ;; Normal (y :: r))
      else Normal (x :: y :: l')
  end.

Fixpoint sort (l : list A) : completion (list A) :=
  match l with
  | [] => Normal []
  | x :: l' => s <- sort l' ;; insert x s
  end.

End Sort.

Section Aggregate.

Context (E : JSEngine).

(** The five sorts after the loop; [activityKey] is the property that the
    comparator of the activities reads. *)
Definition sort_export (activityKey : string) (r : GarminDataExport)
  : completion GarminDataExport :=
  s <- sort (by_date E "sleepStartTimestampGMT") (sleepData r) ;;
  w <- sort (by_date E "calendarDate") (wellnessData r) ;;
  h <- sort (by_date E "calendarDate") (hydrationData r) ;;
  a <- sort (by_date E activityKey) (activities r) ;;
  m <- sort (by_date E "calendarDate") (metricsData r) ;;
  Normal {| sleepData := s; wellnessData := w; hydrationData := h;
            activities := a; metricsData := m |}.

Definition initial : state :=
  {| result := empty_export; processedFiles := 0; progress := [] |}.

(** [parseGarminData(zip, onProgress)]: the promise's outcome and the
    values passed to [onProgress].  The activities are compared on
    [startTimeGmt], as the source writes it. *)
Definition parseGarminData (files : list entry)
  : completion GarminDataExport * list float :=
  let st := fold_left (step E (List.length files)) files initial in
  (sort_export "startTimeGmt" (result st), progress st).

End Aggregate.

(** ** Earlier revisions of the parser

    [Rev2] is the first text of garminParser.ts, [Rev1] the oldest text
    of the file. *)

Module Rev2.

Definition classify (filename : string) : category :=
  if includes (toLowerCase filename) "sleep" && endsWith filename ".json"
  then Sleep
  else if includes filename "UDSFile_" || includes (toLowerCase filename) "uds"
  then Wellness
  else if includes (toLowerCase filename) "hydration" then Hydration
  else if includes (toLowerCase filename) "activities"
          || includes (toLowerCase filename) "summarized" then Activities
  else if includes filename "MetricsMaxMetData_"
          || includes (toLowerCase filename) "metrics" then Metrics
  else if endsWith filename ".json" then UnknownJson
  else Ignored.

(** parseWellnessData and parseMetricsData: the payload itself. *)
Definition parseDated (data : value) : completion (option value) :=
  if object_shaped data then
    d <- get data "calendarDate" ;;
    Normal (if truthy d then Some data else None)
  else Normal None.

Definition parseHydrationData (data : value) : completion (list value) :=
  match data with
  | VArr items => filterM has_volume items
  | _ => Normal []
  end.

Definition parseActivities (data : value) : completion (list value) :=
  match data with
  | VArr items => filterM is_activity items
  | _ =>
      if object_shaped data then
        r <- first_array_prop data
               ["summarizedActivities"; "activities"; "data"; "records"] ;;
        match r with
        | Some items => filterM is_activity items
        | None => Normal []
        end
      else Normal []
  end.

Definition absorb (r : GarminDataExport) (filename : string) (data : value)
  : GarminDataExport * completion unit :=
  match classify filename with
  | Sleep =>
      match parseSleepData data with
      | Normal l =>
          ({| sleepData := sleepData r ++ l; wellnessData := wellnessData r;
              hydrationData := hydrationData r; activities := activities r;
              metricsData := metricsData r |}, Normal tt)
      | Throw e => (r, Throw e)
      end
  | Wellness =>
      match parseDated data with
      | Normal (Some w) =>
          ({| sleepData := sleepData r; wellnessData := wellnessData r ++ [w];
              hydrationData := hydrationData r; activities := activities r;
              metricsData := metricsData r |}, Normal tt)
      | Normal None => (r, Normal tt)
      | Throw e => (r, Throw e)
      end
  | Hydration =>
      match parseHydrationData data with
      | Normal l =>
          ({| sleepData := sleepData r; wellnessData := wellnessData r;
              hydrationData := hydrationData r ++ l; activities := activities r;
              metricsData := metricsData r |}, Normal tt)
      | Throw e => (r, Throw e)
      end
  | Activities =>
      match parseActivities data with
      | Normal l =>
          ({| sleepData := sleepData r; wellnessData := wellnessData r;
              hydrationData := hydrationData r; activities := activities r ++ l;
              metricsData := metricsData r |}, Normal tt)
      | Throw e => (r, Throw e)
      end
  | Metrics =>
      match parseDated data with
      | Normal (Some m) =>
          ({| sleepData := sleepData r; wellnessData := wellnessData r;
              hydrationData := hydrationData r; activities := activities r;
              metricsData := metricsData r ++ [m] |}, Normal tt)
      | Normal None => (r, Normal tt)
      | Throw e => (r, Throw e)
      end
  | UnknownJson | Ignored => (r, Normal tt)
  end.

Definition step (total : nat) (st : state) (f : entry) : state :=
  if dir f then st
  else
    match content f with
    | Unreadable => count total (result st) st
    | NotJSON => st
    | Parsed data => count total (fst (absorb (result st) (name f) data)) st
    end.

Definition parseGarminData (E : JSEngine) (files : list entry)
  : completion GarminDataExport * list float :=
  let st := fold_left (step (List.length files)) files initial in
  (sort_export E "startTimeGMT" (result st), progress st).

End Rev2.

Module Rev1.

Definition classify (filename : string) : category :=
  if includes filename "sleepData.json" then Sleep
  else if includes filename "UDSFile_" then Wellness
  else if includes filename "HydrationLogFile_" then Hydration
  else if includes filename "summarizedActivities.json" then Activities
  else if includes filename "MetricsMaxMetData_" then Metrics
  else Ignored.

Definition parseSleepData (data : value) : completion (list value) :=
  match data with
  | VArr items => filterM (fun item => Normal (object_shaped item)) items
  | _ => Normal []
  end.

Definition parseActivities (data : value) : completion (list value) :=
  match data with
  | VArr items => filterM is_activity items
  | _ => Normal []
  end.

(** The sleep and the activity collections are assigned, not extended. *)
Definition absorb (r : GarminDataExport) (filename : string) (data : value)
  : GarminDataExport * completion unit :=
  match classify filename with
  | Sleep =>
      match parseSleepData data with
      | Normal l =>
          ({| sleepData := l; wellnessData := wellnessData r;
              hydrationData := hydrationData r; activities := activities r;
              metricsData := metricsData r |}, Normal tt)
      | Throw e => (r, Throw e)
      end
  | Wellness =>
      match Rev2.parseDated data with
      | Normal (Some w) =>
          ({| sleepData := sleepData r; wellnessData := wellnessData r ++ [w];
              hydrationData := hydrationData r; activities := activities r;
              metricsData := metricsData r |}, Normal tt)
      | Normal None => (r, Normal tt)
      | Throw e => (r, Throw e)
      end
  | Hydration =>
      match Rev2.parseHydrationData data with
      | Normal l =>
          ({| sleepData := sleepData r; wellnessData := wellnessData r;
              hydrationData := hydrationData r ++ l; activities := activities r;
              metricsData := metricsData r |}, Normal tt)
      | Throw e => (r, Throw e)
      end
  | Activities =>
      match parseActivities data with
      | Normal l =>
          ({| sleepData := sleepData r; wellnessData := wellnessData r;
              hydrationData := hydrationData r; activities := l;
              metricsData := metricsData r |}, Normal tt)
      | Throw e => (r, Throw e)
      end
  | Metrics =>
      match Rev2.parseDated data with
      | Normal (Some m) =>
          ({| sleepData := sleepData r; wellnessData := wellnessData r;
              hydrationData := hydrationData r; activities := activities r;
              metricsData := metricsData r ++ [m] |}, Normal tt)
      | Normal None => (r, Normal tt)
      | Throw e => (r, Throw e)
      end
  | UnknownJson | Ignored => (r, Normal tt)
  end.

(** [JSON.parse] is inside the one [try]: a text that is not JSON is
    caught like any other failure and counted. *)
Definition step (total : nat) (st : state) (f : entry) : state :=
  if dir f then st
  else
    match content f with
    | Unreadable | NotJSON => count total (result st) st
    | Parsed data => count total (fst (absorb (result st) (name f) data)) st
    end.

Definition parseGarminData (E : JSEngine) (files : list entry)
  : completion GarminDataExport * list float :=
  let st := fold_left (step (List.length files)) files initial in
  (sort_export E "startTimeGMT" (result st), progress st).

End Rev1.

(** ** The correlation engine (correlationAnalysis.ts) *)

Open Scope float_scope.

Definition Math_PI : float := 0x1.921fb54442d18p+1.

(** [Math.max(a, b)]: NaN when an argument is NaN, and +0 above -0. *)
Definition Math_max (a b : float) : float :=
  if PrimFloat.is_nan a || PrimFloat.is_nan b then PrimFloat.nan
  else if a <? b then b
  else if b <? a then a
  else if PrimFloat.get_sign a then b else a.

(** [Math.min(a, b)]: NaN when an argument is NaN, and -0 below +0. *)
Definition Math_min (a b : float) : float :=
  if PrimFloat.is_nan a || PrimFloat.is_nan b then PrimFloat.nan
  else if a <? b then a
  else if b <? a then b
  else if PrimFloat.get_sign a then a else b.

Record CorrResult : Type := { r : float; pValue : float }.

(** [{ r: 0, pValue: 1 }] *)
Definition fails_soft : CorrResult := {| r := 0; pValue := 1 |}.

(** [l[i]] read as a number: a missing element is [undefined], which
    arithmetic turns into NaN. *)
Definition at_index (l : list float) (i : nat) : float :=
  nth i l PrimFloat.nan.

(** [l.reduce((total, v, i) => f(total, v, i), init)] *)
Fixpoint reduce_from {A : Type} (f : A -> float -> nat -> A) (i : nat)
    (l : list float) (total : A) : A :=
  match l with
  | [] => total
  | v :: l' => reduce_from f (S i) l' (f total v i)
  end.

Definition reduce {A : Type} (f : A -> float -> nat -> A) (l : list float)
    (init : A) : A :=
  reduce_from f 0 l init.

(** The square root of the product of the two variance terms. *)
Definition denominator (x y : list float) : float :=
  let n := float_of_nat (List.length x) in
  let sumX := reduce (fun a b _ => a + b) x 0 in
  let sumY := reduce (fun a b _ => a + b) y 0 in
  let sumX2 := reduce (fun total xi _ => total + xi * xi) x 0 in
  let sumY2 := reduce (fun total yi _ => total + yi * yi) y 0 in
  PrimFloat.sqrt ((n * sumX2 - sumX * sumX) * (n * sumY2 - sumY * sumY)).

Definition numerator (x y : list float) : float :=
  let n := float_of_nat (List.length x) in
  let sumX := reduce (fun a b _ => a + b) x 0 in
  let sumY := reduce (fun a b _ => a + b) y 0 in
  let sumXY := reduce (fun total xi i => total + xi * at_index y i) x 0 in
  n * sumXY - sumX * sumY.

Section Correlation.

Context (E : JSEngine).

Definition approximatePValue (t df : float) : float :=
  let beta := PrimFloat.sqrt (Math_PI * df)
              * Math_pow E (1 + t * t / df) (- (df + 1) / 2) in
  let beta := beta / PrimFloat.sqrt df in
  Math_min 1 (Math_max 0 (2 * beta)).

Definition calculateCorrelation (x y : list float) : CorrResult :=
  if negb (List.length x =? List.length y)%nat || (List.length x <? 3)%nat
  then fails_soft
  else
    let n := float_of_nat (List.length x) in
    if denominator x y =? 0 then fails_soft
    else
      let r := numerator x y / denominator x y in
      let t := r * PrimFloat.sqrt ((n - 2) / (1 - r * r)) in
      let df := n - 2 in
      {| r := r; pValue := approximatePValue (PrimFloat.abs t) df |}.

(** [l[i]] for an index that can be negative: [None] is [undefined]. *)
Definition element (l : list float) (i : Z) : option float :=
  if (i <? 0)%Z then None else nth_error l (Z.to_nat i).

(** The pairs pushed by [for (let i = lagDays; i < dates.length; i++)];
    the [k]-th iteration has [i = lagDays + k]. *)
Definition laggedPairs (x y : list float) (dates : list string) (lagDays : Z)
  : list (float * float) :=
  flat_map
    (fun k =>
       let i := (lagDays + Z.of_nat k)%Z in
       match element x (i - lagDays), element y i with
       | Some a, Some b => [(a, b)]
       | _, _ => []
       end)
    (seq 0 (Z.to_nat (Z.of_nat (List.length dates) - lagDays))).

Definition calculateLaggedCorrelation (x y : list float) (dates : list string)
    (lagDays : Z) : CorrResult :=
  let pairs := laggedPairs x y dates lagDays in
  if (List.length pairs <? 3)%nat then fails_soft
  else calculateCorrelation (map fst pairs) (map snd pairs).

(** A data point: its [date] and its other properties. *)
Record DataPoint : Type := {
  date : string;
  fields : list (string * value)
}.

(** [d[key]], for a key that no prototype defines. *)
Definition metric (d : DataPoint) (key : string) : value :=
  if String.eqb key "date" then VStr (date d) else lookup key (fields d).

(** [Number(v)] *)
Definition Number_ (v : value) : completion float :=
  match v with
  | VUndefined => Normal PrimFloat.nan
  | VNull => Normal 0
  | VBool b => Normal (if b then 1 else 0)
  | VNum n => Normal n
  | VStr s => Normal (StringToNumber E s)
  | VArr _ | VObj _ => ToNumber_of_object E v
  end.

(** An entry of [dateMap]: [None] is a property that was never written. *)
Record slot : Type := { value1 : option float; value2 : option float }.

Definition empty_slot : slot := {| value1 := None; value2 := None |}.

(** [if (!dateMap.has(date)) dateMap.set(date, {}); f(dateMap.get(date))]
    on the entries of the map in insertion order. *)
Fixpoint update (key : string) (f : slot -> slot) (m : list (string * slot))
  : list (string * slot) :=
  match m with
  | [] => [(key, f empty_slot)]
  | (k, s) :: m' =>
      if String.eqb k key then (k, f s) :: m' else (k, s) :: update key f m'
  end.

Definition set_value1 (n : float) (s : slot) : slot :=
  {| value1 := Some n; value2 := value2 s |}.

Definition set_value2 (n : float) (s : slot) : slot :=
  {| value1 := value1 s; value2 := Some n |}.

(** [data.forEach(d => { ... })] for one of the two series. *)
Fixpoint fill (set : float -> slot -> slot) (key : string)
    (data : list DataPoint) (m : list (string * slot))
  : completion (list (string * slot)) :=
  match data with
  | [] => Normal m
  | d :: data' =>
      let v := metric d key in
      if nullish v then fill set key data' m
      else
        n <- Number_ v ;;
        fill set key data' (update (date d) (set n) m)
  end.

(** The entries that have both values, as the three arrays. *)
Fixpoint aligned (m : list (string * slot))
  : list float * list float * list string :=
  match m with
  | [] => ([], [], [])
  | (k, s) :: m' =>
      let '(x, y, dates) := aligned m' in
      match value1 s, value2 s with
      | Some a, Some b => (a :: x, b :: y, k :: dates)
      | _, _ => (x, y, dates)
      end
  end.

Definition alignDataForCorrelation (data1 data2 : list DataPoint)
    (metric1Key metric2Key : string)
  : completion (list float * list float * list string) :=
  m1 <- fill set_value1 metric1Key data1 [] ;;
  m2 <- fill set_value2 metric2Key data2 m1 ;;
  sorted <- sort (fun a b => Normal (Some (localeCompare E (fst a) (fst b)))) m2 ;;
  Normal (aligned sorted).

End Correlation.

Close Scope float_scope.

(** ** A reference engine

    An implementation of the builtins, to run the model on concrete
    archives and series.  [Math.pow] follows ECMAScript on NaN and on a
    zero exponent and computes integer and half-integer powers by
    multiplication and square root.  [Date.parse] reads the date-only and
    the UTC date-time forms of the ISO format, which are also the strings
    that [toISOString] makes, and answers NaN on every other string.
    [Number] reads decimal digits.  [localeCompare] is a collation that
    ignores case at first. *)

Module Ref.

Definition digit (c : ascii) : option Z :=
  let n := nat_of_ascii c in
  if (48 <=? n)%nat && (n <=? 57)%nat then Some (Z.of_nat (n - 48)) else None.

Fixpoint number_from (acc : Z) (s : string) : option Z :=
  match s with
  | EmptyString => Some acc
  | String c s' =>
      match digit c with
      | Some d => number_from (acc * 10 + d)%Z s'
      | None => None
      end
  end.

(** A non-empty run of decimal digits. *)
Definition number (s : string) : option Z :=
  match s with
  | EmptyString => None
  | _ => number_from 0 s
  end.

Definition leap (y : Z) : bool :=
  ((y mod 4 =? 0) && negb (y mod 100 =? 0) || (y mod 400 =? 0))%Z.

Definition days_in_month (y m : Z) : Z :=
  (if m =? 2 then (if leap y then 29 else 28)
   else if (m =? 4) || (m =? 6) || (m =? 9) || (m =? 11) then 30 else 31)%Z.

(** Days from 1970-01-01 to the civil date [y]-[m]-[d]. *)
Definition days_from_civil (y m d : Z) : Z :=
  (let y := if m <=? 2 then y - 1 else y in
   let era := y / 400 in
   let yoe := y - era * 400 in
   let doy := (153 * (if 2 <? m then m - 3 else m + 9) + 2) / 5 + d - 1 in
   let doe := yoe * 365 + yoe / 4 - yoe / 100 + doy in
   era * 146097 + doe - 719468)%Z.

(** The civil date of a day number. *)
Definition civil_from_days (z : Z) : Z * Z * Z :=
  (let z := z + 719468 in
   let era := z / 146097 in
   let doe := z - era * 146097 in
   let yoe := (doe - doe / 1460 + doe / 36524 - doe / 146096) / 365 in
   let doy := doe - (365 * yoe + yoe / 4 - yoe / 100) in
   let mp := (5 * doy + 2) / 153 in
   let d := doy - (153 * mp + 2) / 5 + 1 in
   let m := if mp <? 10 then mp + 3 else mp - 9 in
   ((if m <=? 2 then yoe + era * 400 + 1 else yoe + era * 400), m, d))%Z.

Definition date_part (s : string) : option Z :=
  match number (substring 0 4 s), number (substring 5 2 s),
        number (substring 8 2 s) with
  | Some y, Some m, Some d =>
      if String.eqb (substring 4 1 s) "-" && String.eqb (substring 7 1 s) "-"
         && (1 <=? m)%Z && (m <=? 12)%Z && (1 <=? d)%Z
         && (d <=? days_in_month y m)%Z
      then Some (days_from_civil y m d * 86400000)%Z
      else None
  | _, _, _ => None
  end.

Definition time_part (s : string) : option Z :=
  match number (substring 11 2 s), number (substring 14 2 s),
        number (substring 17 2 s), number (substring 20 3 s) with
  | Some h, Some mi, Some sec, Some ms =>
      if String.eqb (substring 10 1 s) "T" && String.eqb (substring 13 1 s) ":"
         && String.eqb (substring 16 1 s) ":" && String.eqb (substring 19 1 s) "."
         && String.eqb (substring 23 1 s) "Z"
         && (h <=? 23)%Z && (mi <=? 59)%Z && (sec <=? 59)%Z
      then Some (h * 3600000 + mi * 60000 + sec * 1000 + ms)%Z
      else None
  | _, _, _, _ => None
  end.

(** [YYYY-MM-DD] and [YYYY-MM-DDTHH:mm:ss.sssZ]. *)
Definition Date_parse (s : string) : option Z :=
  if (String.length s =? 10)%nat then date_part s
  else if (String.length s =? 24)%nat then
    match date_part s, time_part s with
    | Some d, Some t => Some (d + t)%Z
    | _, _ => None
    end
  else None.

Definition digit_char (d : Z) : ascii := ascii_of_nat (48 + Z.to_nat d).

(** The last [width] decimal digits of [n]. *)
Fixpoint padded (width : nat) (n : Z) (tail : string) : string :=
  match width with
  | O => tail
  | S w => padded w (n / 10)%Z (String (digit_char (n mod 10)%Z) tail)
  end.

Definition year_string (y : Z) : string :=
  if (0 <=? y)%Z && (y <=? 9999)%Z then padded 4 y ""
  else if (y <? 0)%Z then String "-" (padded 6 (- y) "")
  else String "+" (padded 6 y "").

Definition Date_toISOString (t : Z) : string :=
  let '(y, m, d) := civil_from_days (t / 86400000) in
  let ms := (t mod 86400000)%Z in
  (year_string y ++ "-" ++ padded 2 m "" ++ "-" ++ padded 2 d "" ++ "T"
   ++ padded 2 (ms / 3600000) "" ++ ":" ++ padded 2 (ms / 60000 mod 60) ""
   ++ ":" ++ padded 2 (ms / 1000 mod 60) "" ++ "."
   ++ padded 3 (ms mod 1000) "" ++ "Z")%string.

(** An object read from JSON converts to the string [[object Object]],
    which is not a date, unless an own [toString], which cannot be a
    function, hides the inherited one: then the conversion throws.  An
    array of one string converts to that string; the other arrays are
    answered with NaN. *)
Definition Date_of_object (v : value) : completion (option Z) :=
  match v with
  | VObj ps =>
      if is_undefined (lookup "toString" ps) then Normal None
      else Throw TypeError
  | VArr [VStr s] => Normal (Date_parse s)
  | _ => Normal None
  end.

Definition float_of_Z (z : Z) : float := PrimFloat.of_uint63 (Uint63.of_Z z).

Definition StringToNumber (s : string) : float :=
  match s with
  | EmptyString => PrimFloat.zero
  | _ =>
      match number s with
      | Some z => if (z <? 2 ^ 53)%Z then float_of_Z z else PrimFloat.nan
      | None => PrimFloat.nan
      end
  end.

Definition ToNumber_of_object (v : value) : completion float :=
  match v with
  | VObj ps =>
      if is_undefined (lookup "toString" ps) then Normal PrimFloat.nan
      else Throw TypeError
  | VArr [] => Normal PrimFloat.zero
  | VArr [VStr s] => Normal (StringToNumber s)
  | VArr [VNum n] => Normal n
  | _ => Normal PrimFloat.nan
  end.

Definition sign (c : comparison) : Z :=
  match c with
  | Lt => (-1)%Z
  | Eq => 0%Z
  | Gt => 1%Z
  end.

(** Letters are compared without regard to case first, and lower case
    goes before upper case on a tie, as in the collations of the engines;
    on strings of digits and hyphens this is the order of code units. *)
Definition localeCompare (a b : string) : Z :=
  match String.compare (toLowerCase a) (toLowerCase b) with
  | Eq => sign (String.compare b a)
  | c => sign c
  end.

Fixpoint power (b : float) (k : nat) : float :=
  match k with
  | O => PrimFloat.one
  | S k' => PrimFloat.mul b (power b k')
  end.

(** [2 * e] when it is an integer. *)
Definition half_steps (e : float) : option Z :=
  match Prim2SF (PrimFloat.mul e PrimFloat.two) with
  | S754_zero _ => Some 0%Z
  | S754_finite s m ex =>
      if (0 <=? ex)%Z then Some (if s then - (Z.pos m * 2 ^ ex) else Z.pos m * 2 ^ ex)%Z
      else if (Z.pos m mod 2 ^ (- ex) =? 0)%Z
      then Some (if s then - (Z.pos m / 2 ^ (- ex)) else Z.pos m / 2 ^ (- ex))%Z
      else None
  | _ => None
  end.

Definition Math_pow (b e : float) : float :=
  if PrimFloat.is_nan e then PrimFloat.nan
  else if PrimFloat.is_zero e then PrimFloat.one
  else if PrimFloat.is_nan b then PrimFloat.nan
  else
    match half_steps e with
    | Some k =>
        let p := PrimFloat.mul (power b (Z.to_nat (Z.abs k / 2)))
                   (if Z.odd k then PrimFloat.sqrt b else PrimFloat.one) in
        if (k <? 0)%Z then PrimFloat.div PrimFloat.one p else p
    | None => PrimFloat.nan
    end.

Definition engine : JSEngine :=
  Build_JSEngine Math_pow Date_parse Date_of_object Date_toISOString
    StringToNumber ToNumber_of_object localeCompare.

End Ref.

(** ** What ECMAScript requires of the builtins *)

(** Number::exponentiate: a NaN base with an exponent that is not zero
    gives NaN. *)
Definition pow_of_NaN (E : JSEngine) : Prop :=
  forall e : float,
    PrimFloat.is_zero e = false -> Math_pow E PrimFloat.nan e = PrimFloat.nan.

(** ** The shapes and the properties that the statements speak of *)

Definition is_primitive (v : value) : bool :=
  match v with
  | VArr _ | VObj _ => false
  | _ => true
  end.

(** [v.k] is read without a throw and is true as a condition. *)
Definition has_truthy (k : string) (v : value) : Prop :=
  exists f, get v k = Normal f /\ truthy f = true.

(** [v.k] is neither [undefined] nor [null]. *)
Definition has_value (k : string) (v : value) : Prop :=
  exists f, get v k = Normal f /\ nullish f = false.

(** [v.k] is not [undefined]. *)
Definition has_defined (k : string) (v : value) : Prop :=
  exists f, get v k = Normal f /\ is_undefined f = false.

(** [v.k] is a primitive value: a date made from it does not throw. *)
Definition has_primitive (k : string) (v : value) : Prop :=
  exists f, get v k = Normal f /\ is_primitive f = true.

(** [v.k] is not null and parses as a date. *)
Definition dated (E : JSEngine) (k : string) (v : value) : Prop :=
  exists f t,
    get v k = Normal f /\ nullish f = false /\ new_Date E f = Normal (Some t).

(** The time value of the date made from [v.k]. *)
Definition time_of (E : JSEngine) (k : string) (v : value) (t : Z) : Prop :=
  exists f, get v k = Normal f /\ new_Date E f = Normal (Some t).

(** The date of [a] under [k] is not after the date of [b]. *)
Definition not_later (E : JSEngine) (k : string) (a b : value) : Prop :=
  exists ta tb, time_of E k a ta /\ time_of E k b tb /\ (ta <= tb)%Z.

(** Every stored record has a non-null, date-parseable temporal field. *)
Definition all_dated (E : JSEngine) (r : GarminDataExport) : Prop :=
  Forall (dated E "sleepStartTimestampGMT") (sleepData r)
  /\ Forall (dated E "calendarDate") (wellnessData r)
  /\ Forall (dated E "calendarDate") (hydrationData r)
  /\ Forall (dated E "startTimeGMT") (activities r)
  /\ Forall (dated E "calendarDate") (metricsData r).

(** What the extractors do check of the records that they keep. *)
Definition checked (r : GarminDataExport) : Prop :=
  Forall (fun v => object_shaped v = true) (sleepData r)
  /\ Forall (has_truthy "calendarDate") (wellnessData r)
  /\ Forall (has_defined "valueInML") (hydrationData r)
  /\ Forall (has_value "startTimeGMT") (activities r)
  /\ Forall (has_truthy "calendarDate") (metricsData r).

(** A per-day object that carries a calendar date. *)
Definition carries_date (v : value) : bool :=
  match v with
  | VObj ps => truthy (lookup "calendarDate" ps)
  | _ => false
  end.

(** [v.allDayStress.aggregatorList], [undefined] when a step is missing. *)
Definition aggregator_list (v : value) : value :=
  match v with
  | VObj ps =>
      match lookup "allDayStress" ps with
      | VObj qs => lookup "aggregatorList" qs
      | _ => VUndefined
      end
  | _ => VUndefined
  end.

(** The stress aggregates of a day, when present, are a list without
    [null] entries, as the type WellnessData declares them. *)
Definition stress_shaped (v : value) : bool :=
  match aggregator_list v with
  | VUndefined | VNull => true
  | VArr aggs => forallb (fun a => negb (nullish a)) aggs
  | _ => false
  end.

(** [a] is before [b] in the order of code units. *)
Definition lex_lt (a b : string) : Prop := String.compare a b = Lt.

(** On the strings [ds], [localeCompare] puts [a] after [b] exactly when
    the code units do: so it is for zero-padded ISO dates. *)
Definition collates_as_code_units (E : JSEngine) (ds : list string) : Prop :=
  forall a b, In a ds -> In b ds ->
    (0 <? localeCompare E a b)%Z
    = match String.compare a b with Gt => true | _ => false end.

(** The series [data] has a point of date [d] whose value under [key] is
    neither [undefined] nor [null]. *)
Definition defined_on (key : string) (data : list DataPoint) (d : string)
  : Prop :=
  exists p, In p data /\ date p = d /\ nullish (metric p key) = false.

(** ** Sample archives and series *)

Definition point (d : string) (key : string) (v : value) : DataPoint :=
  {| date := d; fields := [(key, v)] |}.


Definition file (n : string) (data : value) : entry :=
  {| name := n; dir := false; content := Parsed data |}.

Definition corrupt (n : string) : entry :=
  {| name := n; dir := false; content := NotJSON |}.

(** Two activities of a summarized export, the later one first. *)
Definition run_on_jan_2 : value :=
  VObj [("activityType", VStr "running");
        ("startTimeGmt", VNum 1704153600000);
        ("startTimeLocal", VNum 1704157200000);
        ("duration", VNum 1800000)].

Definition ride_on_jan_1 : value :=
  VObj [("activityType", VStr "cycling");
        ("startTimeGmt", VNum 1704067200000);
        ("startTimeLocal", VNum 1704070800000);
        ("duration", VNum 3600000)].

Definition activities_archive : list entry :=
  [file "DI_CONNECT/DI-Connect-Fitness/jo_0_summarizedActivities.json"
     (VArr [VObj [("summarizedActivitiesExport",
                   VArr [run_on_jan_2; ride_on_jan_1])]])].

(** A sleep record without a start time, a wellness day whose calendar
    date is not a date, and a hydration record without a calendar date. *)
Definition undated_archive : list entry :=
  [file "DI_CONNECT/DI-Connect-Wellness/2024_sleepData.json"
     (VArr [VObj [("deepSleepSeconds", VNum 5400)]]);
   file "DI_CONNECT/DI-Connect-Aggregator/UDSFile_2024.json"
     (VArr [VObj [("calendarDate", VStr "n/a"); ("totalSteps", VNum 9000)]]);
   file "DI_CONNECT/DI-Connect-Aggregator/HydrationLogFile_2024.json"
     (VArr [VObj [("valueInML", VNum 250);
                  ("timestampGMT", VStr "2024-01-01T08:00:00.000Z")]])].

(** ** Ranking of correlations (correlationAnalysis.ts) *)

Module Ranked.

Record CorrelationResult : Type := {
  metric1 : string;
  metric2 : string;
  correlation : float;
  pValue : float;
  sampleSize : float
}.

End Ranked.

(** What the sort makes of the number that a comparator returns: NaN,
    or the sign. *)
Definition comparator_result (v : float) : option Z :=
  if PrimFloat.is_nan v then None
  else if PrimFloat.ltb 0 v then Some 1%Z
  else if PrimFloat.ltb v 0 then Some (-1)%Z
  else Some 0%Z.

(** [Math.abs(c.correlation) >= threshold && c.pValue <= pValueThreshold] *)
Definition strong_enough (threshold pValueThreshold : float)
    (c : Ranked.CorrelationResult) : bool :=
  PrimFloat.leb threshold (PrimFloat.abs (Ranked.correlation c))
  && PrimFloat.leb (Ranked.pValue c) pValueThreshold.

Definition findStrongestCorrelations
    (correlations : list Ranked.CorrelationResult)
    (threshold pValueThreshold : float)
  : completion (list Ranked.CorrelationResult) :=
  sort (fun a b =>
          Normal (comparator_result
                    (PrimFloat.sub (PrimFloat.abs (Ranked.correlation b))
                                   (PrimFloat.abs (Ranked.correlation a)))))
       (filter (strong_enough threshold pValueThreshold) correlations).

(** ** The upload (FileUpload.tsx, processZipFile) *)

(** Why [setError] is called: [zip.loadAsync] failed, parseGarminData
    threw, or the export holds no record. *)
Inductive failure : Type :=
| LoadFailed
| ParseThrew (e : error)
| NoData.

(** What processZipFile does with the archive: the argument of
    [onDataLoaded] when it is called, the failure when [setError] is
    called, and the values given to [setUploadProgress], in order. *)
Record upload : Type := {
  loaded : option GarminDataExport;
  failed : option failure;
  uploadProgress : list float
}.

Definition totalRecords (r : GarminDataExport) : nat :=
  List.length (sleepData r) + List.length (wellnessData r)
  + List.length (activities r) + List.length (hydrationData r)
  + List.length (metricsData r).

(** [archive] is what [zip.loadAsync(file)] gives; [None] when it throws. *)
Definition processZipFile (E : JSEngine) (archive : option (list entry))
  : upload :=
  match archive with
  | None =>
      {| loaded := None; failed := Some LoadFailed;
         uploadProgress := [PrimFloat.zero] |}
  | Some files =>
      let shown :=
        [0; 20]%float
        ++ map (fun p => PrimFloat.add 20 (PrimFloat.mul p 0.8))
               (snd (parseGarminData E files)) in
      match fst (parseGarminData E files) with
      | Throw e =>
          {| loaded := None; failed := Some (ParseThrew e);
             uploadProgress := shown |}
      | Normal r =>
          if (totalRecords r =? 0)%nat
          then {| loaded := None; failed := Some NoData;
                  uploadProgress := shown |}
          else {| loaded := Some r; failed := None;
                  uploadProgress := shown ++ [100%float] |}
      end
  end.

(** ** Further shapes *)

(** [v.k] on a value that is neither [undefined] nor [null]. *)
Definition prop (v : value) (k : string) : value :=
  match v with
  | VObj ps => lookup k ps
  | _ => VUndefined
  end.

(** An element that the filter of parseHydrationData keeps. *)
Definition keeps_volume (item : value) : bool :=
  match item with
  | VObj ps => negb (is_undefined (lookup "valueInML" ps))
  | _ => false
  end.

(** The activities nested in one wrapper of a summarized export. *)
Definition export_list (item : value) : list value :=
  match prop item "summarizedActivitiesExport" with
  | VArr acts => acts
  | _ => []
  end.

(** An entry that adds nothing to the export: a directory, a text that
    cannot be read or is not JSON, or a name that no branch takes. *)
Definition unrecognised (f : entry) : bool :=
  dir f
  || match content f with
     | Parsed _ =>
         match classify (name f) with
         | UnknownJson | Ignored => true
         | _ => false
         end
     | _ => true
     end.

(** An entry after which [onProgress] is called. *)
Definition counted (f : entry) : bool :=
  negb (dir f)
  && match content f with
     | NotJSON => false
     | _ => true
     end.

(** The records that the loop has gathered, of every collection. *)
Definition records (r : GarminDataExport) : list value :=
  sleepData r ++ wellnessData r ++ hydrationData r ++ activities r
  ++ metricsData r.

(** The record keys of the whole-day stress aggregate and the keys of
    the aggregate that they are read from. *)
Definition stress_keys : list (string * string) :=
  [("averageStressLevel", "averageStressLevel");
   ("maxStressLevel", "maxStressLevel");
   ("stressDuration", "stressDuration");
   ("restStressDuration", "restDuration");
   ("activityStressDuration", "activityDuration");
   ("uncategorizedStressDuration", "uncategorizedDuration");
   ("totalStressDuration", "totalDuration");
   ("lowStressDuration", "lowDuration");
   ("mediumStressDuration", "mediumDuration");
   ("highStressDuration", "highDuration")].

(** An aggregate that [find] passes over: not [null], and not tagged
    TOTAL. *)
Definition passed_over (agg : value) : bool :=
  negb (nullish agg)
  && match prop agg "type" with
     | VStr s => negb (String.eqb s "TOTAL")
     | _ => true
     end.

(** The point [p] carries a value under [key]. *)
Definition carries (key : string) (p : DataPoint) : bool :=
  negb (nullish (metric p key)).

(** [v.k] is truthy, or it is the string that toISOString made of a
    valid date. *)
Definition has_time (E : JSEngine) (k : string) (v : value) : Prop :=
  exists f,
    get v k = Normal f
    /\ (truthy f = true \/ exists t, f = VStr (Date_toISOString E t)).

(** What holds of every stored record, collection by collection. *)
Definition vetted (E : JSEngine) (r : GarminDataExport) : Prop :=
  Forall (fun v => object_shaped v = true) (sleepData r)
  /\ Forall (has_truthy "calendarDate") (wellnessData r)
  /\ Forall (fun v => has_defined "valueInML" v /\ has_time E "timestampGMT" v)
            (hydrationData r)
  /\ Forall (has_time E "startTimeGMT") (activities r)
  /\ Forall (has_truthy "calendarDate") (metricsData r).

(** The gathered records, each with the property that the comparator of
    its collection reads. *)
Definition compared (r : GarminDataExport) : list (string * value) :=
  map (pair "sleepStartTimestampGMT") (sleepData r)
  ++ map (pair "calendarDate") (wellnessData r)
  ++ map (pair "calendarDate") (hydrationData r)
  ++ map (pair "startTimeGmt") (activities r)
  ++ map (pair "calendarDate") (metricsData r).

(** An element that the filter of parseActivities keeps. *)
Definition listed_activity (item : value) : bool :=
  object_shaped item
  && truthy (prop item "activityType")
  && truthy (prop item "startTimeGMT").

(** [a] is the number made of the value under [key] of the last point of
    [data] on the date [d] that carries one. *)
Definition last_value (E : JSEngine) (key : string) (data : list DataPoint)
    (d : string) (a : float) : Prop :=
  exists pre p post,
    data = pre ++ p :: post /\ date p = d /\ carries key p = true
    /\ Number_ E (metric p key) = Normal a
    /\ Forall (fun q => date q = d -> carries key q = false) post.

Example ref_iso_roundtrip :
  Ref.Date_parse (Ref.Date_toISOString 1704153600123) = Some 1704153600123%Z
  /\ Ref.Date_toISOString 1704153600123 = "2024-01-02T00:00:00.123Z"
  /\ Ref.Date_parse "2024-02-29" = Some 1709164800000%Z
  /\ Ref.Date_parse "2023-02-29" = None
  /\ Ref.Date_toISOString (-1) = "1969-12-31T23:59:59.999Z".
Proof. repeat split; vm_compute; reflexivity. Qed.

(** * Properties *)

Lemma Ref_pow_of_NaN : pow_of_NaN Ref.engine.
Proof.
  intros e H. simpl. unfold Ref.Math_pow. rewrite H.
  destruct (PrimFloat.is_nan e); reflexivity.
Qed.

(** ** Completions *)

Lemma bind_Normal {A B : Type} (c : completion A) (k : A -> completion B) b :
  bind c k = Normal b -> exists a, c = Normal a /\ k a = Normal b.
Proof.
  destruct c as [a|e]; simpl; intros H; [eauto | discriminate].
Qed.

Ltac inv_bind H :=
  let a := fresh "a" in
  let Ha := fresh "Ha" in
  apply bind_Normal in H; destruct H as (a & Ha & H).

Tactic Notation "invert_bind" hyp(H) "as" ident(a) ident(Ha) :=
  apply bind_Normal in H; destruct H as (a & Ha & H).

Lemma filterM_pure (p : value -> bool) l :
  filterM (fun x => Normal (p x)) l = Normal (filter p l).
Proof.
  induction l as [|x l IH]; simpl; [reflexivity|].
  rewrite IH. reflexivity.
Qed.

Lemma filterM_Normal p l kept :
  filterM p l = Normal kept ->
  Forall (fun x => p x = Normal true) kept /\ incl kept l.
Proof.
  revert kept. induction l as [|x l IH]; simpl; intros kept H.
  - injection H as <-. split; [constructor | apply incl_refl].
  - inv_bind H. inv_bind H. injection H as <-.
    destruct (IH _ Ha0) as [F I]. destruct a.
    + split; [constructor; assumption|].
      intros z [<-|Hz]; [left; reflexivity | right; auto].
    + split; [assumption | apply incl_tl; assumption].
Qed.

Lemma mapM_Normal {A B : Type} (f : A -> completion B) l out :
  mapM f l = Normal out -> Forall2 (fun a b => f a = Normal b) l out.
Proof.
  revert out. induction l as [|x l IH]; simpl; intros out H.
  - injection H as <-. constructor.
  - inv_bind H. inv_bind H. injection H as <-. constructor; auto.
Qed.

(** ** Filenames *)

Lemma prefix_lower p s :
  String.prefix p s = true ->
  String.prefix (toLowerCase p) (toLowerCase s) = true.
Proof.
  revert s. induction p as [|c p IH]; intros s H; [destruct s; reflexivity|].
  destruct s as [|d s]; simpl in *; [discriminate|].
  destruct (Ascii.ascii_dec c d) as [->|]; [|discriminate].
  destruct (Ascii.ascii_dec (lower_ascii d) (lower_ascii d)); [auto | congruence].
Qed.

Lemma includes_lower s p :
  includes s p = true -> includes (toLowerCase s) (toLowerCase p) = true.
Proof.
  induction s as [|c s IH]; intros H.
  - destruct p; [reflexivity | discriminate].
  - change (String.prefix p (String c s) || includes s p = true) in H.
    change (String.prefix (toLowerCase p) (toLowerCase (String c s))
            || includes (toLowerCase s) (toLowerCase p) = true).
    apply orb_true_iff in H. apply orb_true_iff. destruct H as [H|H].
    + left. apply prefix_lower. assumption.
    + right. auto.
Qed.

Lemma prefix_tail c p s :
  String.prefix (String c p) s = true ->
  match s with EmptyString => False | String _ s' => String.prefix p s' = true end.
Proof.
  destruct s as [|d s]; simpl; [discriminate|].
  destruct (Ascii.ascii_dec c d); [auto | discriminate].
Qed.

Lemma prefix_includes p s :
  String.prefix p s = true -> includes s p = true.
Proof.
  intros H. destruct s; cbn [includes]; rewrite H; reflexivity.
Qed.

Lemma includes_tail c p s :
  includes s (String c p) = true -> includes s p = true.
Proof.
  induction s as [|d s IH]; intros H.
  - discriminate.
  - change (String.prefix (String c p) (String d s) || includes s (String c p) = true) in H.
    change (String.prefix p (String d s) || includes s p = true).
    apply orb_true_iff in H. apply orb_true_iff. right. destruct H as [H|H].
    + apply prefix_tail in H. apply prefix_includes. assumption.
    + auto.
Qed.

(** The second test of the activities branch adds nothing to the first. *)
Lemma activities_test a :
  includes (toLowerCase a) "summarizedactivities"
  || includes a "_summarizedActivities"
  = includes (toLowerCase a) "summarizedactivities".
Proof.
  destruct (includes a "_summarizedActivities") eqn:H.
  - apply includes_tail in H. apply includes_lower in H.
    change (toLowerCase "summarizedActivities") with "summarizedactivities" in H.
    rewrite H. reflexivity.
  - apply orb_false_r.
Qed.

(** First match wins: a name is a sleep file exactly when it passes the
    first test, whatever the later tests say. *)
Lemma classify_Sleep f :
  classify f = Sleep <->
  includes (toLowerCase f) "sleep" && endsWith f ".json" = true.
Proof.
  unfold classify.
  destruct (includes (toLowerCase f) "sleep" && endsWith f ".json");
    [tauto|].
  split; [|discriminate].
  repeat match goal with
         | |- context [if ?c then _ else _] => destruct c
         end; discriminate.
Qed.

(** C6, counterexample: two names that differ only in letter case and
    fall into different branches of the chain. *)
Lemma C6_case_changes_category :
  toLowerCase "UDSFile_2024.json" = toLowerCase "udsfile_2024.json"
  /\ classify "UDSFile_2024.json" = Wellness
  /\ classify "udsfile_2024.json" = UnknownJson.
Proof. repeat split. Qed.

(** The same holds of the extension test and of the earlier revisions. *)
Lemma case_changes_category_elsewhere :
  classify "sleep.json" = Sleep /\ classify "sleep.JSON" = Ignored
  /\ Rev2.classify "sleep.json" = Sleep /\ Rev2.classify "sleep.JSON" = Ignored
  /\ Rev1.classify "sleepData.json" = Sleep
  /\ Rev1.classify "SleepData.json" = Ignored.
Proof. repeat split. Qed.

(** C6, amended: the chain reads a filename only through its lower-case
    form and three case-sensitive tests (the [.json] suffix, [UDSFile_],
    [MetricsMaxMetData_]); two names that differ only in letter case and
    agree on these three tests get the same category. *)
Theorem C6_same_category_up_to_case a b :
  toLowerCase a = toLowerCase b ->
  endsWith a ".json" = endsWith b ".json" ->
  includes a "UDSFile_" = includes b "UDSFile_" ->
  includes a "MetricsMaxMetData_" = includes b "MetricsMaxMetData_" ->
  classify a = classify b.
Proof.
  intros Hl Hj Hu Hm. unfold classify.
  rewrite (activities_test a), (activities_test b), Hl, Hj, Hu, Hm.
  reflexivity.
Qed.

Lemma C6_same_category_up_to_case_witness :
  classify "Garmin_Sleep_01.json" = classify "GARMIN_sleep_01.json".
Proof.
  apply C6_same_category_up_to_case; reflexivity.
Defined.

(** ** The correlation engine *)

Lemma short_or_uneven (E : JSEngine) (x y : list float) :
  List.length x <> List.length y \/ List.length x < 3 ->
  calculateCorrelation E x y = fails_soft.
Proof.
  intros H. unfold calculateCorrelation.
  destruct (Nat.eqb_spec (List.length x) (List.length y)) as [He|He];
    [|reflexivity].
  destruct (Nat.ltb_spec (List.length x) 3) as [Hl|Hl]; [reflexivity|].
  destruct H; [contradiction | lia].
Qed.

(** C7: calculateCorrelation returns r = 0 and pValue = 1 when the lengths
    differ, when there are fewer than 3 points, and when the denominator
    is zero. *)
Theorem C7_fails_soft (E : JSEngine) (x y : list float) :
  List.length x <> List.length y \/ List.length x < 3
  \/ PrimFloat.eqb (denominator x y) 0 = true ->
  calculateCorrelation E x y = fails_soft.
Proof.
  intros [H|[H|H]]; [apply short_or_uneven; tauto ..|].
  unfold calculateCorrelation. rewrite H.
  destruct (_ || _); reflexivity.
Qed.

Lemma C7_fails_soft_witness :
  calculateCorrelation Ref.engine [4; 4; 4]%float [1; 2; 3]%float = fails_soft.
Proof.
  apply C7_fails_soft. right. right. vm_compute. reflexivity.
Defined.

(** Two points are below the minimum, whatever their values. *)
Corollary two_points_fail_soft (E : JSEngine) (x1 x2 y1 y2 : float) :
  calculateCorrelation E [x1; x2] [y1; y2] = fails_soft.
Proof. reflexivity. Qed.

(** The pairs at lag 0 are the elements of [x] and [y] at the same index,
    as far as [dates] reaches. *)
Lemma pairs_from (x y : list float) m :
  List.length x = List.length y -> List.length x <= m ->
  flat_map
    (fun k => match nth_error x k, nth_error y k with
              | Some a, Some b => [(a, b)]
              | _, _ => []
              end) (seq 0 m) = combine x y.
Proof.
  revert y m. induction x as [|a x IH]; intros y m Hl Hm.
  - clear. generalize 0. induction m as [|m IH]; intros s; [reflexivity|].
    simpl. rewrite IH. destruct s; reflexivity.
  - destruct y as [|b y]; [discriminate|]. destruct m as [|m]; [simpl in Hm; lia|].
    simpl in Hl, Hm. rewrite <- cons_seq, <- seq_shift. simpl.
    f_equal. rewrite flat_map_concat_map, map_map, <- flat_map_concat_map.
    apply IH; lia.
Qed.

Lemma laggedPairs_0 x y dates :
  List.length x = List.length y -> List.length x <= List.length dates ->
  laggedPairs x y dates 0 = combine x y.
Proof.
  intros Hl Hm. unfold laggedPairs.
  rewrite Z.sub_0_r, Nat2Z.id. rewrite <- (pairs_from x y (List.length dates) Hl Hm).
  apply flat_map_ext. intros k. unfold element.
  rewrite Z.add_0_l, Z.sub_0_r.
  destruct (Z.ltb_spec (Z.of_nat k) 0); [lia|]. rewrite Nat2Z.id. reflexivity.
Qed.

Lemma combine_fst (x y : list float) :
  List.length x = List.length y -> map fst (combine x y) = x.
Proof.
  revert y. induction x as [|a x IH]; intros [|b y] H; try discriminate;
    [reflexivity|]. simpl. f_equal. apply IH. simpl in H. lia.
Qed.

Lemma combine_snd (x y : list float) :
  List.length x = List.length y -> map snd (combine x y) = y.
Proof.
  revert y. induction x as [|a x IH]; intros [|b y] H; try discriminate;
    [reflexivity|]. simpl. f_equal. apply IH. simpl in H. lia.
Qed.

(** C9, counterexample: at lag 0 the loop runs over [dates], so the lagged
    result differs from the plain one when [dates] is shorter than the
    series, and when [x] is longer than [y]. *)
Lemma C9_lag0_differs :
  calculateLaggedCorrelation Ref.engine [1; 2; 3]%float [1; 2; 3]%float
    ["2024-01-01"; "2024-01-02"] 0
  <> calculateCorrelation Ref.engine [1; 2; 3]%float [1; 2; 3]%float
  /\ calculateLaggedCorrelation Ref.engine [1; 2; 3; 4]%float [1; 2; 3]%float
       ["2024-01-01"; "2024-01-02"; "2024-01-03"; "2024-01-04"] 0
     <> calculateCorrelation Ref.engine [1; 2; 3; 4]%float [1; 2; 3]%float.
Proof.
  split; intros H;
    apply (f_equal (fun c => PrimFloat.eqb (r c) 0)) in H;
    vm_compute in H; discriminate.
Qed.

(** C9, amended: when [x] and [y] have the same length and [dates] has at
    least as many entries, lag 0 gives the result of calculateCorrelation. *)
Theorem C9_lag0_same (E : JSEngine) (x y : list float) (dates : list string) :
  List.length x = List.length y ->
  List.length x <= List.length dates ->
  calculateLaggedCorrelation E x y dates 0 = calculateCorrelation E x y.
Proof.
  intros Hl Hm. unfold calculateLaggedCorrelation.
  rewrite (laggedPairs_0 x y dates Hl Hm).
  rewrite combine_fst, combine_snd by assumption.
  rewrite length_combine, <- Hl, Nat.min_id.
  destruct (Nat.ltb_spec (List.length x) 3) as [H|H]; [|reflexivity].
  symmetry. apply short_or_uneven. right. assumption.
Qed.

Lemma C9_lag0_same_witness :
  calculateLaggedCorrelation Ref.engine [1; 2; 4]%float [2; 4; 9]%float
    ["2024-01-01"; "2024-01-02"; "2024-01-03"] 0
  = calculateCorrelation Ref.engine [1; 2; 4]%float [2; 4; 9]%float.
Proof.
  apply C9_lag0_same; simpl; lia.
Defined.

(** C10: on the series 0.1, 0.2, 0.4 against 1, 2, 4, which are exactly
    proportional, the quotient [r] rounds to a number above 1, the square
    root of a negative number makes [t] NaN, and the pValue that comes out
    of the clamp is NaN: it is not in the interval from 0 to 1. *)
Theorem C10_pValue_NaN (E : JSEngine) :
  pow_of_NaN E ->
  let c := calculateCorrelation E [0.1; 0.2; 0.4]%float [1; 2; 4]%float in
  r c = 0x1.0000000000001p+0%float
  /\ pValue c = PrimFloat.nan
  /\ PrimFloat.leb 0 (pValue c) = false
  /\ PrimFloat.leb (pValue c) 1 = false.
Proof.
  intros H.
  assert (Hp : pValue (calculateCorrelation E [0.1; 0.2; 0.4]%float
                         [1; 2; 4]%float) = PrimFloat.nan).
  { destruct E as [pw dp dobj iso sn on lc]. unfold pow_of_NaN in H.
    simpl in H. pose proof (H (-1)%float eq_refl) as H1.
    vm_compute in H1. vm_compute. rewrite H1. reflexivity. }
  cbv zeta. rewrite Hp. repeat split.
Qed.

Lemma C10_pValue_NaN_witness :
  pValue (calculateCorrelation Ref.engine [0.1; 0.2; 0.4]%float [1; 2; 4]%float)
  = PrimFloat.nan.
Proof.
  exact (proj1 (proj2 (C10_pValue_NaN Ref.engine Ref_pow_of_NaN))).
Defined.

(** The clamp of approximatePValue: comparisons of binary64 numbers. *)

Lemma SFcompare_antisym a b :
  SFcompare a b = option_map CompOpp (SFcompare b a).
Proof.
  destruct a as [sa|sa| |sa ma ea], b as [sb|sb| |sb mb eb]; simpl;
    try reflexivity;
    try (destruct sa; reflexivity); try (destruct sb; reflexivity);
    try (destruct sa, sb; reflexivity).
  rewrite (Z.compare_antisym eb ea), (ZC4 ma mb).
  destruct sa, sb, (eb ?= ea)%Z, (Pos.compare_cont Eq mb ma); reflexivity.
Qed.

Lemma ltb_leb a b : PrimFloat.ltb a b = true -> PrimFloat.leb a b = true.
Proof.
  rewrite FloatAxioms.ltb_spec, FloatAxioms.leb_spec. unfold SFltb, SFleb.
  destruct (SFcompare _ _) as [[]|]; congruence.
Qed.

Lemma is_nan_false a : PrimFloat.is_nan a = false -> Prim2SF a <> S754_nan.
Proof.
  unfold PrimFloat.is_nan. rewrite FloatAxioms.eqb_spec. intros H N.
  rewrite N in H. discriminate.
Qed.

Lemma not_ltb_leb a b :
  PrimFloat.is_nan a = false -> PrimFloat.is_nan b = false ->
  PrimFloat.ltb b a = false -> PrimFloat.leb a b = true.
Proof.
  intros Na Nb. apply is_nan_false in Na, Nb.
  rewrite FloatAxioms.ltb_spec, FloatAxioms.leb_spec. unfold SFltb, SFleb.
  rewrite (SFcompare_antisym (Prim2SF a) (Prim2SF b)).
  destruct (SFcompare (Prim2SF b) (Prim2SF a)) as [[]|] eqn:C; simpl;
    try congruence.
  destruct (Prim2SF a), (Prim2SF b); simpl in C; congruence.
Qed.

(** [Math.min(1, Math.max(0, v))] is in the interval from 0 to 1 for
    every number [v], and NaN when [v] is NaN. *)
Lemma clamp_range (v : float) :
  let c := Math_min 1 (Math_max 0 v) in
  if PrimFloat.is_nan v then c = PrimFloat.nan
  else PrimFloat.leb 0 c = true /\ PrimFloat.leb c 1 = true.
Proof.
  unfold Math_min, Math_max. destruct (PrimFloat.is_nan v) eqn:Nv.
  - reflexivity.
  - change (PrimFloat.is_nan 0 || false) with false.
    change (PrimFloat.get_sign 0) with false. cbv iota.
    destruct (PrimFloat.ltb 0 v) eqn:L0.
    + rewrite Nv. change (PrimFloat.is_nan 1 || false) with false.
      change (PrimFloat.get_sign 1) with false. cbv iota.
      destruct (PrimFloat.ltb 1 v) eqn:L1; [split; reflexivity|].
      assert (R : PrimFloat.leb 0 v = true /\ PrimFloat.leb v 1 = true).
      { split; [apply ltb_leb; assumption|].
        apply not_ltb_leb; [assumption | reflexivity | assumption]. }
      destruct (PrimFloat.ltb v 1); assumption.
    + destruct (PrimFloat.ltb v 0); split; reflexivity.
Qed.

(** Whatever the series, the pValue of calculateCorrelation is in the
    interval from 0 to 1 or is NaN: NaN is all that the clamp lets
    through. *)
Lemma pValue_in_range_or_NaN (E : JSEngine) (x y : list float) :
  let p := pValue (calculateCorrelation E x y) in
  p = PrimFloat.nan
  \/ (PrimFloat.leb 0 p = true /\ PrimFloat.leb p 1 = true).
Proof.
  unfold calculateCorrelation.
  destruct (_ || _); [right; split; reflexivity|].
  destruct (PrimFloat.eqb _ _); [right; split; reflexivity|].
  unfold approximatePValue. cbv zeta. simpl pValue.
  match goal with
  | |- context [Math_max 0 ?v] =>
      pose proof (clamp_range v) as H; cbv zeta in H;
      destruct (PrimFloat.is_nan v); [left | right]; exact H
  end.
Qed.

(** ** The sort *)

Section SortFacts.

Context {A : Type} (cmp : A -> A -> completion (option Z)).

Lemma insert_perm x l l' :
  insert cmp x l = Normal l' -> Permutation (x :: l) l'.
Proof.
  revert l'. induction l as [|y l IH]; simpl; intros l' H.
  - injection H as <-. reflexivity.
  - inv_bind H. destruct (after a).
    + inv_bind H. injection H as <-.
      rewrite perm_swap. apply perm_skip. auto.
    + injection H as <-. reflexivity.
Qed.

Lemma sort_perm l l' : sort cmp l = Normal l' -> Permutation l l'.
Proof.
  revert l'. induction l as [|x l IH]; simpl; intros l' H.
  - injection H as <-. reflexivity.
  - inv_bind H. rewrite (IH _ Ha). apply insert_perm. assumption.
Qed.

(** The comparator never runs on a list of fewer than two elements. *)
Lemma sort_short l : List.length l <= 1 -> sort cmp l = Normal l.
Proof.
  destruct l as [|x [|y l]]; simpl; intros H; try reflexivity; lia.
Qed.

(** A comparator that answers NaN or 0 on every pair leaves the list as
    it is: the sort is stable. *)
Lemma insert_ties x l :
  (forall y, In y l -> exists c, cmp x y = Normal c /\ after c = false) ->
  insert cmp x l = Normal (x :: l).
Proof.
  destruct l as [|y l]; simpl; intros H; [reflexivity|].
  destruct (H y (or_introl eq_refl)) as (c & -> & Hc). simpl.
  rewrite Hc. reflexivity.
Qed.

Lemma sort_ties l :
  (forall x y, In x l -> In y l ->
     exists c, cmp x y = Normal c /\ after c = false) ->
  sort cmp l = Normal l.
Proof.
  induction l as [|x l IH]; simpl; intros H; [reflexivity|].
  rewrite IH by (intros; apply H; right; assumption). simpl.
  apply insert_ties. intros y Hy. apply H; [left; reflexivity | right; assumption].
Qed.

(** With a comparator that decides a transitive, total order on the
    elements of the list, the sort returns the list in that order. *)
Context (le : A -> A -> Prop).
Hypothesis le_trans : forall a b c, le a b -> le b c -> le a c.

Local Abbreviation decides l :=
  (forall a b, In a l -> In b l ->
     exists c, cmp a b = Normal c /\ (if after c then le b a else le a b)).

Lemma insert_sorted x l :
  decides (x :: l) -> StronglySorted le l ->
  exists l', insert cmp x l = Normal l' /\ StronglySorted le l'.
Proof.
  induction l as [|y l IH]; simpl; intros D S.
  - eexists. split; [reflexivity|]. repeat constructor.
  - destruct (D x y) as (c & Hc & Hle); [left; reflexivity | right; left; reflexivity|].
    rewrite Hc. simpl. inversion S as [|? ? S' F]; subst.
    destruct (after c).
    + destruct IH as (l' & Hi & Sl'); [|assumption|].
      { intros a b Ha Hb. apply D; simpl in *; tauto. }
      rewrite Hi. simpl. eexists. split; [reflexivity|].
      constructor; [assumption|].
      apply (Permutation_Forall (insert_perm _ _ _ Hi)).
      constructor; assumption.
    + eexists. split; [reflexivity|]. constructor; [assumption|].
      constructor; [assumption|].
      apply Forall_impl with (2 := F). intros z. apply le_trans. assumption.
Qed.

Lemma sort_sorted l :
  decides l ->
  exists l', sort cmp l = Normal l' /\ Permutation l l' /\ StronglySorted le l'.
Proof.
  induction l as [|x l IH]; simpl; intros D.
  - eexists. repeat split; constructor.
  - destruct IH as (s & Hs & P & S).
    { intros a b Ha Hb. apply D; right; assumption. }
    rewrite Hs. simpl.
    destruct (insert_sorted x s) as (l' & Hi & Sl'); [|assumption|].
    { intros a b Ha Hb. apply D.
      - destruct Ha as [<-|Ha]; [left; reflexivity|].
        right. apply (Permutation_in _ (Permutation_sym P)). assumption.
      - destruct Hb as [<-|Hb]; [left; reflexivity|].
        right. apply (Permutation_in _ (Permutation_sym P)). assumption. }
    exists l'. repeat split; [assumption| |assumption].
    rewrite <- (insert_perm _ _ _ Hi). apply perm_skip. assumption.
Qed.

End SortFacts.

(** ** The extractors *)

Lemma returns_Normal {A : Type} (a : A) : returns (Normal a).
Proof. exists a. reflexivity. Qed.

Lemma filterM_returns p l :
  (forall x, In x l -> returns (p x)) -> returns (filterM p l).
Proof.
  induction l as [|x l IH]; simpl; intros H; [apply returns_Normal|].
  destruct (H x (or_introl eq_refl)) as [b ->]. simpl.
  destruct IH as [k ->]; [intros; apply H; right; assumption|].
  apply returns_Normal.
Qed.

Lemma mapM_returns {A B : Type} (f : A -> completion B) l :
  (forall x, In x l -> returns (f x)) -> returns (mapM f l).
Proof.
  induction l as [|x l IH]; simpl; intros H; [apply returns_Normal|].
  destruct (H x (or_introl eq_refl)) as [b ->]. simpl.
  destruct IH as [k ->]; [intros; apply H; right; assumption|].
  apply returns_Normal.
Qed.

Lemma mapM_cons {A B : Type} (f : A -> completion B) x l out :
  mapM f (x :: l) = Normal out ->
  exists y k, f x = Normal y /\ mapM f l = Normal k /\ out = y :: k.
Proof.
  simpl. intros H. inv_bind H. inv_bind H. injection H as <-. eauto.
Qed.

Lemma object_shaped_cases v :
  object_shaped v = true -> (exists l, v = VArr l) \/ (exists ps, v = VObj ps).
Proof.
  unfold object_shaped. destruct v; simpl; rewrite ?andb_false_r;
    try discriminate; eauto.
Qed.

Lemma get_object_shaped v k :
  object_shaped v = true -> returns (get v k).
Proof.
  intros H. destruct (object_shaped_cases v H) as [[l ->]|[ps ->]];
    apply returns_Normal.
Qed.

Lemma first_array_prop_returns data names :
  object_shaped data = true -> returns (first_array_prop data names).
Proof.
  intros H. induction names as [|n names IH]; simpl; [apply returns_Normal|].
  destruct (get_object_shaped data n H) as [v ->]. simpl.
  destruct v; try assumption. apply returns_Normal.
Qed.

(** parseSleepData returns on every payload, with object-shaped records. *)
Lemma parseSleepData_total data :
  exists l, parseSleepData data = Normal l
            /\ Forall (fun v => object_shaped v = true) l.
Proof.
  assert (F : forall items,
             exists l, filterM (fun item => Normal (object_shaped item)) items
                       = Normal l
                       /\ Forall (fun v => object_shaped v = true) l).
  { intros items. rewrite filterM_pure. eexists. split; [reflexivity|].
    apply Forall_forall. intros v Hv. apply filter_In in Hv. tauto. }
  unfold parseSleepData. destruct data; try apply F;
    match goal with
    | |- context [if object_shaped ?d then _ else _] =>
        destruct (object_shaped d) eqn:H
    end;
    try (destruct (first_array_prop_returns _
                     ["sleepData"; "data"; "records"; "items"] H) as [o ->];
         simpl; destruct o; [apply F|]);
    eexists; (split; [reflexivity|constructor]).
Qed.

Lemma has_volume_returns item : returns (has_volume item).
Proof.
  unfold has_volume. destruct (object_shaped item) eqn:H; [|apply returns_Normal].
  destruct (get_object_shaped item "valueInML" H) as [v ->]. apply returns_Normal.
Qed.

Lemma is_activity_returns item : returns (is_activity item).
Proof.
  unfold is_activity. destruct (object_shaped item) eqn:H; [|apply returns_Normal].
  destruct (get_object_shaped item "activityType" H) as [v ->]. simpl.
  destruct (truthy v); [|apply returns_Normal].
  destruct (get_object_shaped item "startTimeGMT" H) as [w ->]. apply returns_Normal.
Qed.

(** In the second revision every extractor returns on every payload. *)
Lemma Rev2_extractors_total data :
  returns (parseSleepData data) /\ returns (Rev2.parseDated data)
  /\ returns (Rev2.parseHydrationData data)
  /\ returns (Rev2.parseActivities data).
Proof.
  repeat split.
  - destruct (parseSleepData_total data) as (l & -> & _). apply returns_Normal.
  - unfold Rev2.parseDated. destruct (object_shaped data) eqn:H;
      [|apply returns_Normal].
    destruct (get_object_shaped data "calendarDate" H) as [v ->].
    apply returns_Normal.
  - destruct data; try apply returns_Normal.
    apply filterM_returns. intros; apply has_volume_returns.
  - unfold Rev2.parseActivities.
    destruct data;
      try (apply filterM_returns; intros; apply is_activity_returns);
      match goal with
      | |- context [if object_shaped ?d then _ else _] =>
          destruct (object_shaped d) eqn:H
      end; try apply returns_Normal;
      destruct (first_array_prop_returns _
                  ["summarizedActivities"; "activities"; "data"; "records"] H)
        as [o ->];
      simpl; destruct o; try apply returns_Normal;
      apply filterM_returns; intros; apply is_activity_returns.
Qed.

(** C1: in the current revision four of the five extractors throw on
    payloads that JSON.parse can produce: an array that holds [null], a
    hydration record without a calendar date, a day whose aggregator list
    holds [null].  Only parseSleepData returns on every payload. *)
Theorem C1_extractors_throw (E : JSEngine) :
  parseActivities E (VArr [VNull]) = Throw TypeError
  /\ parseHydrationData E (VArr [VObj [("valueInML", VNum 250)]])
     = Throw RangeError
  /\ parseMetricsData (VArr [VNull]) = Throw TypeError
  /\ parseWellnessData E
       (VObj [("calendarDate", VStr "2024-01-01");
              ("allDayStress", VObj [("aggregatorList", VArr [VNull])])])
     = Throw TypeError
  /\ forall data, returns (parseSleepData data).
Proof.
  repeat split.
  intros data. destruct (parseSleepData_total data) as (l & -> & _).
  apply returns_Normal.
Qed.

(** ** The aggregator *)

Lemma filter_all {A : Type} (p : A -> bool) l :
  Forall (fun v => p v = true) l -> filter p l = l.
Proof.
  induction 1 as [|x l Hx _ IH]; simpl; [reflexivity|].
  rewrite Hx, IH. reflexivity.
Qed.

Lemma sort_returns {A : Type} (cmp : A -> A -> completion (option Z)) l :
  (forall a b, In a l -> In b l -> returns (cmp a b)) ->
  exists l', sort cmp l = Normal l' /\ Permutation l l'.
Proof.
  intros H.
  destruct (sort_sorted cmp (fun _ _ => True) (fun _ _ _ _ _ => I) l)
    as (l' & Hs & P & _).
  - intros a b Ha Hb. destruct (H a b Ha Hb) as [c ->].
    exists c. split; [reflexivity|]. destruct (after c); exact I.
  - eauto.
Qed.

Lemma by_date_primitive E k a b :
  has_primitive k a -> has_primitive k b -> returns (by_date E k a b).
Proof.
  intros (fa & Ha & Pa) (fb & Hb & Pb). unfold by_date.
  rewrite Ha, Hb. simpl.
  destruct fa; try discriminate; destruct fb; try discriminate;
    apply returns_Normal.
Qed.

Lemma sort_export_sleep_only E k records :
  Forall (has_primitive "sleepStartTimestampGMT") records ->
  exists s,
    sort_export E k
      {| sleepData := records; wellnessData := []; hydrationData := [];
         activities := []; metricsData := [] |}
    = Normal {| sleepData := s; wellnessData := []; hydrationData := [];
                activities := []; metricsData := [] |}
    /\ Permutation records s.
Proof.
  intros F. unfold sort_export. simpl.
  destruct (sort_returns (by_date E "sleepStartTimestampGMT") records)
    as (s & -> & P).
  - intros a b Ha Hb. rewrite Forall_forall in F.
    apply by_date_primitive; auto.
  - exists s. split; [reflexivity | assumption].
Qed.

(** C2: an archive of one sleep file with N object-shaped records and one
    file that is not JSON, in either order.  The export holds the N
    records and nothing throws, but the file that is not JSON leaves the
    loop through [continue], before [processedFiles] is incremented: the
    callback is called once, with 1/2, and never with 1. *)
Theorem C2_sleep_file_and_corrupt_file (E : JSEngine)
    (sleepName otherName : string) (records : list value)
    (files : list entry) :
  classify sleepName = Sleep ->
  Forall (fun v => object_shaped v = true) records ->
  Forall (has_primitive "sleepStartTimestampGMT") records ->
  files = [file sleepName (VArr records); corrupt otherName]
  \/ files = [corrupt otherName; file sleepName (VArr records)] ->
  exists r,
    parseGarminData E files = (Normal r, [0.5%float])
    /\ Permutation records (sleepData r)
    /\ List.length (sleepData r) = List.length records.
Proof.
  intros Hc Ho Hp Hf.
  destruct (sort_export_sleep_only E "startTimeGmt" records Hp) as (s & Hs & P).
  exists {| sleepData := s; wellnessData := []; hydrationData := [];
            activities := []; metricsData := [] |}.
  split; [|split; [assumption | symmetry; apply Permutation_length; assumption]].
  destruct Hf as [-> | ->]; unfold parseGarminData; simpl;
    unfold step; simpl; unfold absorb; rewrite Hc; simpl;
    rewrite filterM_pure, (filter_all _ _ Ho); simpl;
    unfold count; simpl; rewrite Hs; reflexivity.
Qed.

Lemma C2_sleep_file_and_corrupt_file_witness :
  exists r,
    parseGarminData Ref.engine
      [file "2024_sleepData.json"
         (VArr [VObj [("sleepStartTimestampGMT", VStr "2024-01-02T22:10:00.000Z")];
                VObj [("sleepStartTimestampGMT", VStr "2024-01-01T23:05:00.000Z")]]);
       corrupt "README.txt"]
    = (Normal r, [0.5%float])
    /\ Permutation
         [VObj [("sleepStartTimestampGMT", VStr "2024-01-02T22:10:00.000Z")];
          VObj [("sleepStartTimestampGMT", VStr "2024-01-01T23:05:00.000Z")]]
         (sleepData r)
    /\ List.length (sleepData r) = 2.
Proof.
  apply (C2_sleep_file_and_corrupt_file Ref.engine "2024_sleepData.json"
           "README.txt").
  - reflexivity.
  - repeat constructor.
  - repeat constructor; eexists; (split; [reflexivity | reflexivity]).
  - left. reflexivity.
Defined.

(** The oldest revision parsed inside the one [try]: the same archive
    reports 1/2 and then 1. *)
Lemma Rev1_counts_corrupt_file :
  snd (Rev1.parseGarminData Ref.engine
         [file "2024_sleepData.json" (VArr [VObj []]); corrupt "README.txt"])
  = [0.5%float; 1%float].
Proof. reflexivity. Qed.

Lemma lookup_absent k ps :
  ~ In k (map fst ps) -> lookup k ps = VUndefined.
Proof.
  induction ps as [|[k' v] ps IH]; simpl; intros H; [reflexivity|].
  destruct (String.eqb_spec k k') as [->|]; [|apply IH]; tauto.
Qed.

(** An object literal has the keys that it is written with. *)
Lemma object_literal_keys E src fields v :
  object_literal E src fields = Normal v ->
  exists ps, v = VObj ps /\ map fst ps = map fst fields.
Proof.
  unfold object_literal. intros H. inv_bind H. injection H as <-.
  exists a. split; [reflexivity|].
  apply mapM_Normal in Ha.
  induction Ha as [|kf p fields ps Hp _ IH]; [reflexivity|].
  inv_bind Hp. injection Hp as <-. simpl. f_equal. assumption.
Qed.

Lemma export_activities_no_Gmt E item acts :
  export_activities E item = Normal acts ->
  Forall (fun a => get a "startTimeGmt" = Normal VUndefined) acts.
Proof.
  unfold export_activities. intros H. inv_bind H.
  destruct a; try (injection H as <-; constructor).
  apply mapM_Normal in H. clear Ha.
  induction H as [|x a items0 acts Hx _ IH]; [constructor|].
  constructor; [|assumption].
  destruct (object_literal_keys _ _ _ _ Hx) as (ps & -> & Hk).
  simpl. f_equal. apply lookup_absent. rewrite Hk. simpl.
  intros H. repeat (destruct H as [H|H]; [discriminate|]). assumption.
Qed.

(** The comparator of the activities reads [startTimeGmt]; the records
    made from a summarized export have [startTimeGMT] and no
    [startTimeGmt], the comparator answers NaN on every pair, and the
    sort leaves them in the order of extraction. *)
Lemma activities_keep_extraction_order E acts :
  Forall (fun a => get a "startTimeGmt" = Normal VUndefined) acts ->
  sort (by_date E "startTimeGmt") acts = Normal acts.
Proof.
  intros F. apply sort_ties. intros x y Hx Hy. rewrite Forall_forall in F.
  unfold by_date. rewrite (F x Hx), (F y Hy). simpl.
  exists None. split; reflexivity.
Qed.

(** Records that all have a valid date under [k] are returned by the sort
    in ascending order of that date, earlier records first on a tie. *)
Lemma dated_records_are_sorted E k l :
  Forall (fun v => exists t, time_of E k v t) l ->
  exists l',
    sort (by_date E k) l = Normal l' /\ Permutation l l'
    /\ StronglySorted (not_later E k) l'.
Proof.
  intros F. apply sort_sorted.
  - intros a b c (ta & tb & (fa & Ga & Da) & (fb & Gb & Db) & L1)
                 (tb' & tc & (fb' & Gb' & Db') & Tc & L2).
    rewrite Gb in Gb'. injection Gb' as <-. rewrite Db in Db'.
    injection Db' as <-. exists ta, tc.
    split; [exists fa; auto | split; [assumption | lia]].
  - intros a b Ha Hb. rewrite Forall_forall in F.
    destruct (F a Ha) as (ta & fa & Ga & Da).
    destruct (F b Hb) as (tb & fb & Gb & Db).
    exists (Some (ta - tb)%Z). unfold by_date.
    rewrite Ga. simpl. rewrite Da. simpl. rewrite Gb. simpl. rewrite Db. simpl.
    split; [reflexivity|].
    destruct (Z.ltb_spec 0 (ta - tb)).
    + exists tb, ta. split; [exists fb; auto | split; [exists fa; auto | lia]].
    + exists ta, tb. split; [exists fa; auto | split; [exists fb; auto | lia]].
Qed.

(** C3: a summarized export with a run on 2 January listed before a ride
    on 1 January.  The export returns them in that order: the activities
    are not sorted by their start time. *)
Theorem C3_activities_not_sorted :
  exists run ride r,
    parseGarminData Ref.engine activities_archive = (Normal r, [1%float])
    /\ activities r = [run; ride]
    /\ get run "startTimeGMT" = Normal (VStr "2024-01-02T00:00:00.000Z")
    /\ get ride "startTimeGMT" = Normal (VStr "2024-01-01T00:00:00.000Z")
    /\ by_date Ref.engine "startTimeGMT" run ride = Normal (Some 86400000%Z).
Proof.
  do 3 eexists. split; [vm_compute; reflexivity|].
  repeat split.
Qed.

(** The second revision compared the activities on [startTimeGMT] and
    sorted a bare list of them; the current revision leaves the same list
    as it is. *)
Lemma Rev2_sorts_activities :
  let later := VObj [("activityType", VStr "running");
                     ("startTimeGMT", VStr "2024-01-02T07:00:00.000Z")] in
  let earlier := VObj [("activityType", VStr "cycling");
                       ("startTimeGMT", VStr "2024-01-01T07:00:00.000Z")] in
  let files := [file "jo_0_summarizedActivities.json" (VArr [later; earlier])] in
  (exists r, fst (Rev2.parseGarminData Ref.engine files) = Normal r
             /\ activities r = [earlier; later])
  /\ (exists r, fst (parseGarminData Ref.engine files) = Normal r
                /\ activities r = [later; earlier]).
Proof.
  split; eexists; (split; [vm_compute; reflexivity | reflexivity]).
Qed.

(** ** What the stored records are known to have *)

Lemma truthy_not_nullish v : truthy v = true -> nullish v = false.
Proof. destruct v; simpl; congruence. Qed.

Lemma Date_ISO_string E v out : Date_ISO E v = Normal out -> exists s, out = VStr s.
Proof.
  unfold Date_ISO. intros H. inv_bind H.
  destruct a; [injection H as <-; eauto | discriminate].
Qed.

Lemma parseWellnessData_Some E rec w :
  parseWellnessData E rec = Normal (Some w) ->
  exists d, get rec "calendarDate" = Normal d /\ truthy d = true
            /\ get w "calendarDate" = Normal d.
Proof.
  unfold parseWellnessData. destruct (object_shaped rec); [|discriminate].
  intros H. invert_bind H as d Hd. destruct (truthy d) eqn:T; [|discriminate].
  invert_bind H as o Ho. injection H as <-. exists d. repeat split; try assumption.
  unfold object_literal in Ho. invert_bind Ho as ps Hps. injection Ho as <-.
  unfold wellness_fields in Hps.
  apply mapM_cons in Hps. destruct Hps as (p1 & k1 & H1 & Hps & ->).
  apply mapM_cons in Hps. destruct Hps as (p2 & k2 & H2 & _ & ->).
  invert_bind H1 as v1 Hv1. injection H1 as <-.
  invert_bind H2 as v2 Hv2. injection H2 as <-.
  simpl in Hv2. rewrite Hd in Hv2. injection Hv2 as <-.
  destruct rec; try discriminate; reflexivity.
Qed.

Lemma push_wellness_checked E records acc :
  Forall (has_truthy "calendarDate") acc ->
  Forall (has_truthy "calendarDate") (fst (push_wellness E records acc)).
Proof.
  revert acc. induction records as [|rec records IH]; simpl; intros acc F;
    [assumption|].
  destruct (parseWellnessData E rec) as [[w|]|e] eqn:H; simpl; auto.
  apply IH. apply Forall_app. split; [assumption|]. constructor; [|constructor].
  destruct (parseWellnessData_Some _ _ _ H) as (d & _ & T & G).
  exists d. split; assumption.
Qed.

Lemma has_volume_true item :
  has_volume item = Normal true -> has_defined "valueInML" item.
Proof.
  unfold has_volume. destruct (object_shaped item); [|discriminate].
  intros H. invert_bind H as v Hv. injection H as H. exists v. split; [assumption|].
  destruct (is_undefined v); [discriminate | reflexivity].
Qed.

Lemma parseHydrationData_checked E data l :
  parseHydrationData E data = Normal l -> Forall (has_defined "valueInML") l.
Proof.
  unfold parseHydrationData. intros H.
  destruct data; try (injection H as <-; constructor).
  invert_bind H as kept Hk. apply filterM_Normal in Hk. destruct Hk as [F _].
  apply mapM_Normal in H.
  induction H as [|item out kept l Hi _ IH]; [constructor|].
  inversion F as [|? ? Hv F']; subst. constructor; [|auto].
  destruct (has_volume_true _ Hv) as (v & Hg & Hd).
  unfold object_literal in Hi. invert_bind Hi as ps Hps. injection Hi as <-.
  unfold hydration_fields in Hps.
  apply mapM_cons in Hps. destruct Hps as (p1 & k1 & H1 & Hps & ->).
  apply mapM_cons in Hps. destruct Hps as (p2 & k2 & H2 & _ & ->).
  invert_bind H1 as v1 Hv1. injection H1 as <-.
  invert_bind H2 as v2 Hv2. injection H2 as <-.
  simpl in Hv2. rewrite Hg in Hv2. injection Hv2 as <-.
  exists v. split; [reflexivity | assumption].
Qed.

Lemma is_activity_true item :
  is_activity item = Normal true -> has_value "startTimeGMT" item.
Proof.
  unfold is_activity. destruct (object_shaped item); [|discriminate].
  intros H. invert_bind H as t Ht. destruct (truthy t); [|discriminate].
  invert_bind H as s Hs. injection H as H. exists s. split; [assumption|].
  apply truthy_not_nullish. assumption.
Qed.

Lemma filter_activities_checked items l :
  filterM is_activity items = Normal l -> Forall (has_value "startTimeGMT") l.
Proof.
  intros H. apply filterM_Normal in H. destruct H as [F _].
  apply Forall_impl with (2 := F). apply is_activity_true.
Qed.

Lemma export_activities_checked E item acts :
  export_activities E item = Normal acts ->
  Forall (has_value "startTimeGMT") acts.
Proof.
  unfold export_activities. intros H. inv_bind H.
  destruct a; try (injection H as <-; constructor).
  apply mapM_Normal in H. clear Ha.
  induction H as [|x a items0 acts Hx _ IH]; [constructor|].
  constructor; [|assumption].
  unfold object_literal in Hx. invert_bind Hx as ps Hps. injection Hx as <-.
  unfold activity_fields in Hps.
  apply mapM_cons in Hps. destruct Hps as (p1 & k1 & H1 & Hps & ->).
  apply mapM_cons in Hps. destruct Hps as (p2 & k2 & H2 & _ & ->).
  invert_bind H1 as v1 Hv1. injection H1 as <-.
  invert_bind H2 as v2 Hv2. injection H2 as <-.
  simpl in Hv2. invert_bind Hv2 as g Hg. invert_bind Hv2 as c Hc.
  destruct (Date_ISO_string _ _ _ Hv2) as [s ->].
  exists (VStr s). split; reflexivity.
Qed.

Lemma flattenM_Forall (P : value -> Prop) f l out :
  (forall x a, f x = Normal a -> Forall P a) ->
  flattenM f l = Normal out -> Forall P out.
Proof.
  intros Hf. revert out. induction l as [|x l IH]; simpl; intros out H.
  - injection H as <-. constructor.
  - inv_bind H. inv_bind H. injection H as <-.
    apply Forall_app. split; eauto.
Qed.

Lemma parseActivities_checked E data l :
  parseActivities E data = Normal l -> Forall (has_value "startTimeGMT") l.
Proof.
  unfold parseActivities. intros H.
  destruct data as [| | | | |[|first rest]|];
    try (destruct (object_shaped _); [|injection H as <-; constructor];
         inv_bind H; destruct a;
         [eapply filter_activities_checked; eassumption
         |injection H as <-; constructor]).
  - injection H as <-. constructor.
  - inv_bind H. destruct (truthy a).
    + eapply flattenM_Forall; [|eassumption].
      intros x acts. apply export_activities_checked.
    + eapply filter_activities_checked; eassumption.
Qed.

Lemma lookup_set_prop k v ps : lookup k (set_prop k v ps) = v.
Proof.
  induction ps as [|[k' v'] ps IH]; simpl.
  - rewrite String.eqb_refl. reflexivity.
  - destruct (String.eqb_spec k k') as [->|N]; simpl.
    + rewrite String.eqb_refl. reflexivity.
    + destruct (String.eqb_spec k k'); [contradiction | assumption].
Qed.

Lemma parseMetricsData_Some data m :
  parseMetricsData data = Normal (Some m) -> has_truthy "calendarDate" m.
Proof.
  unfold parseMetricsData. destruct (object_shaped data); [|discriminate].
  intros H. invert_bind H as c Hc. invert_bind H as d Hd. destruct (truthy d) eqn:T.
  - rewrite Hc in H. simpl in H. rewrite Hd in H. simpl in H.
    injection H as <-. exists d. split; [|assumption].
    simpl. rewrite lookup_set_prop. reflexivity.
  - destruct data as [| | | | |[|first rest]|]; try discriminate.
    invert_bind H as c0 Hc0. destruct (truthy c0) eqn:T1; [|discriminate].
    injection H as <-. exists c0. split; assumption.
Qed.

Lemma absorb_checked E r filename data :
  checked r -> checked (fst (absorb E r filename data)).
Proof.
  intros (Hs & Hw & Hh & Ha & Hm). unfold absorb.
  destruct (classify filename).
  - destruct (parseSleepData_total data) as (l & -> & F).
    repeat split; simpl; try assumption. apply Forall_app. split; assumption.
  - destruct data; try (repeat split; assumption).
    pose proof (push_wellness_checked E items _ Hw) as F.
    destruct (push_wellness E items (wellnessData r)) as [w c].
    repeat split; assumption.
  - destruct (parseHydrationData E data) as [l|e] eqn:H;
      [|repeat split; assumption].
    repeat split; simpl; try assumption. apply Forall_app. split; [assumption|].
    eapply parseHydrationData_checked; eassumption.
  - destruct (parseActivities E data) as [l|e] eqn:H;
      [|repeat split; assumption].
    repeat split; simpl; try assumption. apply Forall_app. split; [assumption|].
    eapply parseActivities_checked; eassumption.
  - destruct (object_shaped data); [|repeat split; assumption].
    destruct (parseMetricsData data) as [[m|]|e] eqn:H;
      try (repeat split; assumption).
    repeat split; simpl; try assumption. apply Forall_app. split; [assumption|].
    constructor; [|constructor]. eapply parseMetricsData_Some; eassumption.
  - repeat split; assumption.
  - repeat split; assumption.
Qed.

Lemma loop_checked E total files st :
  checked (result st) ->
  checked (result (fold_left (step E total) files st)).
Proof.
  revert st. induction files as [|f files IH]; simpl; intros st H; [assumption|].
  apply IH. unfold step. destruct (dir f); [assumption|].
  destruct (content f); simpl; try assumption.
  apply absorb_checked. assumption.
Qed.

Lemma sort_export_perm E k r r' :
  sort_export E k r = Normal r' ->
  Permutation (sleepData r) (sleepData r')
  /\ Permutation (wellnessData r) (wellnessData r')
  /\ Permutation (hydrationData r) (hydrationData r')
  /\ Permutation (activities r) (activities r')
  /\ Permutation (metricsData r) (metricsData r').
Proof.
  unfold sort_export. intros H. do 5 inv_bind H. injection H as <-. simpl.
  repeat split; eapply sort_perm; eassumption.
Qed.

Lemma checked_perm r r' :
  Permutation (sleepData r) (sleepData r')
  /\ Permutation (wellnessData r) (wellnessData r')
  /\ Permutation (hydrationData r) (hydrationData r')
  /\ Permutation (activities r) (activities r')
  /\ Permutation (metricsData r) (metricsData r') ->
  checked r -> checked r'.
Proof.
  intros (Ps & Pw & Ph & Pa & Pm) (Hs & Hw & Hh & Ha & Hm).
  repeat split; eapply Permutation_Forall; eassumption.
Qed.

(** C4, counterexample: a sleep record without a start time, a wellness
    day whose calendar date is the string n/a, and a hydration record
    without a calendar date are all stored. *)
Lemma C4_undated_records_are_stored :
  exists r,
    fst (parseGarminData Ref.engine undated_archive) = Normal r
    /\ List.length (sleepData r) = 1
    /\ List.length (wellnessData r) = 1
    /\ List.length (hydrationData r) = 1
    /\ ~ Forall (dated Ref.engine "sleepStartTimestampGMT") (sleepData r)
    /\ ~ Forall (dated Ref.engine "calendarDate") (wellnessData r)
    /\ ~ Forall (dated Ref.engine "calendarDate") (hydrationData r)
    /\ ~ all_dated Ref.engine r.
Proof.
  eexists. split; [vm_compute; reflexivity|].
  assert (Hs : ~ Forall (dated Ref.engine "sleepStartTimestampGMT")
                 [VObj [("deepSleepSeconds", VNum 5400)]]).
  { intros F. inversion F as [|? ? (f & t & Hg & Hn & _) _]; subst.
    injection Hg as <-. discriminate. }
  repeat split; try assumption.
  - intros F. inversion F as [|? ? (f & t & Hg & _ & Hd) _]; subst.
    injection Hg as <-. discriminate.
  - intros F. inversion F as [|? ? (f & t & Hg & Hn & _) _]; subst.
    injection Hg as <-. discriminate.
  - intros (F & _). exact (Hs F).
Qed.

Lemma Date_ISO_made E v out :
  Date_ISO E v = Normal out -> exists t, out = VStr (Date_toISOString E t).
Proof.
  unfold Date_ISO. intros H. invert_bind H as t Ht.
  destruct t as [ms|]; [injection H as <-; eauto | discriminate].
Qed.

Lemma parseHydrationData_vetted E data l :
  parseHydrationData E data = Normal l ->
  Forall (fun v => has_defined "valueInML" v /\ has_time E "timestampGMT" v) l.
Proof.
  unfold parseHydrationData. intros H.
  destruct data; try (injection H as <-; constructor).
  invert_bind H as kept Hk. apply filterM_Normal in Hk. destruct Hk as [F _].
  apply mapM_Normal in H.
  induction H as [|item out kept l Hi _ IH]; [constructor|].
  inversion F as [|? ? Hv F']; subst. constructor; [|auto].
  destruct (has_volume_true _ Hv) as (v & Hg & Hd).
  unfold object_literal in Hi. invert_bind Hi as ps Hps. injection Hi as <-.
  unfold hydration_fields in Hps.
  apply mapM_cons in Hps. destruct Hps as (p1 & k1 & H1 & Hps & ->).
  apply mapM_cons in Hps. destruct Hps as (p2 & k2 & H2 & Hps & ->).
  apply mapM_cons in Hps. destruct Hps as (p3 & k3 & H3 & _ & ->).
  invert_bind H1 as v1 Hv1. injection H1 as <-.
  invert_bind H2 as v2 Hv2. injection H2 as <-.
  invert_bind H3 as v3 Hv3. injection H3 as <-.
  simpl in Hv2. rewrite Hg in Hv2. injection Hv2 as <-.
  split; [exists v; split; [reflexivity | assumption]|].
  exists v3. split; [reflexivity|].
  simpl in Hv3. invert_bind Hv3 as own Hown. unfold js_or in Hv3.
  destruct (truthy own) eqn:T.
  - injection Hv3 as <-. left. assumption.
  - invert_bind Hv3 as c Hc. right. eapply Date_ISO_made. eassumption.
Qed.

Lemma is_activity_timed E item :
  is_activity item = Normal true -> has_time E "startTimeGMT" item.
Proof.
  unfold is_activity. destruct (object_shaped item); [|discriminate].
  intros H. invert_bind H as t Ht. destruct (truthy t); [|discriminate].
  invert_bind H as s Hs. injection H as H. exists s. split; [assumption|].
  left. assumption.
Qed.

Lemma filter_activities_vetted E items l :
  filterM is_activity items = Normal l -> Forall (has_time E "startTimeGMT") l.
Proof.
  intros H. apply filterM_Normal in H. destruct H as [F _].
  apply Forall_impl with (2 := F). apply is_activity_timed.
Qed.

Lemma export_activities_vetted E item acts :
  export_activities E item = Normal acts ->
  Forall (has_time E "startTimeGMT") acts.
Proof.
  unfold export_activities. intros H. inv_bind H.
  destruct a; try (injection H as <-; constructor).
  apply mapM_Normal in H. clear Ha.
  induction H as [|x a items0 acts Hx _ IH]; [constructor|].
  constructor; [|assumption].
  unfold object_literal in Hx. invert_bind Hx as ps Hps. injection Hx as <-.
  unfold activity_fields in Hps.
  apply mapM_cons in Hps. destruct Hps as (p1 & k1 & H1 & Hps & ->).
  apply mapM_cons in Hps. destruct Hps as (p2 & k2 & H2 & _ & ->).
  invert_bind H1 as v1 Hv1. injection H1 as <-.
  invert_bind H2 as v2 Hv2. injection H2 as <-.
  simpl in Hv2. invert_bind Hv2 as g Hg. invert_bind Hv2 as c Hc.
  destruct (Date_ISO_made _ _ _ Hv2) as [t ->].
  exists (VStr (Date_toISOString E t)). split; [reflexivity|]. right. eauto.
Qed.

Lemma parseActivities_vetted E data l :
  parseActivities E data = Normal l -> Forall (has_time E "startTimeGMT") l.
Proof.
  unfold parseActivities. intros H.
  destruct data as [| | | | |[|first rest]|];
    try (destruct (object_shaped _); [|injection H as <-; constructor];
         inv_bind H; destruct a;
         [eapply filter_activities_vetted; eassumption
         |injection H as <-; constructor]).
  - injection H as <-. constructor.
  - inv_bind H. destruct (truthy a).
    + eapply flattenM_Forall; [|eassumption].
      intros x acts. apply export_activities_vetted.
    + eapply filter_activities_vetted; eassumption.
Qed.

Lemma absorb_vetted E r filename data :
  vetted E r -> vetted E (fst (absorb E r filename data)).
Proof.
  intros (Hs & Hw & Hh & Ha & Hm). unfold absorb.
  destruct (classify filename).
  - destruct (parseSleepData_total data) as (l & -> & F).
    repeat split; simpl; try assumption. apply Forall_app. split; assumption.
  - destruct data; try (repeat split; assumption).
    pose proof (push_wellness_checked E items _ Hw) as F.
    destruct (push_wellness E items (wellnessData r)) as [w c].
    repeat split; assumption.
  - destruct (parseHydrationData E data) as [l|e] eqn:H;
      [|repeat split; assumption].
    repeat split; simpl; try assumption. apply Forall_app. split; [assumption|].
    eapply parseHydrationData_vetted; eassumption.
  - destruct (parseActivities E data) as [l|e] eqn:H;
      [|repeat split; assumption].
    repeat split; simpl; try assumption. apply Forall_app. split; [assumption|].
    eapply parseActivities_vetted; eassumption.
  - destruct (object_shaped data); [|repeat split; assumption].
    destruct (parseMetricsData data) as [[m|]|e] eqn:H;
      try (repeat split; assumption).
    repeat split; simpl; try assumption. apply Forall_app. split; [assumption|].
    constructor; [|constructor]. eapply parseMetricsData_Some; eassumption.
  - repeat split; assumption.
  - repeat split; assumption.
Qed.

Lemma loop_vetted E total files st :
  vetted E (result st) ->
  vetted E (result (fold_left (step E total) files st)).
Proof.
  revert st. induction files as [|f files IH]; simpl; intros st H; [assumption|].
  apply IH. unfold step. destruct (dir f); [assumption|].
  destruct (content f); simpl; try assumption.
  apply absorb_vetted. assumption.
Qed.

Lemma vetted_perm E r r' :
  Permutation (sleepData r) (sleepData r')
  /\ Permutation (wellnessData r) (wellnessData r')
  /\ Permutation (hydrationData r) (hydrationData r')
  /\ Permutation (activities r) (activities r')
  /\ Permutation (metricsData r) (metricsData r') ->
  vetted E r -> vetted E r'.
Proof.
  intros (Ps & Pw & Ph & Pa & Pm) (Hs & Hw & Hh & Ha & Hm).
  repeat split; eapply Permutation_Forall; eassumption.
Qed.

(** C4, amended: whenever parseGarminData returns, every stored sleep
    record is a non-null object, every stored wellness and metrics record
    has a truthy calendarDate, every stored hydration record has a
    defined valueInML and a timestampGMT that is truthy or the string
    toISOString made of a valid date, and every stored activity has a
    startTimeGMT that is truthy or the string toISOString made of a valid
    date. *)
Theorem C4_stored_records_are_checked (E : JSEngine) (files : list entry)
    (r : GarminDataExport) :
  fst (parseGarminData E files) = Normal r -> vetted E r.
Proof.
  unfold parseGarminData. simpl. intros H.
  apply sort_export_perm in H.
  apply (vetted_perm _ _ _ H).
  apply loop_vetted. repeat split; constructor.
Qed.

Lemma C4_stored_records_are_checked_witness :
  exists r,
    fst (parseGarminData Ref.engine (activities_archive ++ undated_archive))
    = Normal r
    /\ List.length (activities r) = 2
    /\ List.length (hydrationData r) = 1
    /\ vetted Ref.engine r.
Proof.
  eexists. split; [vm_compute; reflexivity|]. split; [reflexivity|].
  split; [reflexivity|].
  apply (C4_stored_records_are_checked Ref.engine
           (activities_archive ++ undated_archive)).
  vm_compute. reflexivity.
Defined.

(** ** Wellness payloads that are lists *)

Lemma opt_get_returns v k : returns (opt_get v k).
Proof. destruct v; apply returns_Normal. Qed.

Lemma find_total_returns aggs :
  forallb (fun a => negb (nullish a)) aggs = true ->
  exists agg, find_total aggs = Normal agg.
Proof.
  induction aggs as [|a aggs IH]; simpl; intros H; [eauto|].
  apply andb_true_iff in H. destruct H as [Ha H].
  destruct a; try discriminate; simpl; auto.
  destruct (lookup "type" props); auto.
  destruct (String.eqb s "TOTAL"); eauto.
Qed.

Lemma stress_total_returns ps k :
  stress_shaped (VObj ps) = true -> returns (stress_total (VObj ps) k).
Proof.
  unfold stress_shaped, stress_total, aggregator_list. simpl.
  destruct (lookup "allDayStress" ps) as [| |b|n|s|l|qs]; simpl;
    try (intros _; apply returns_Normal).
  destruct (lookup "aggregatorList" qs) as [| |b|n|s|aggs|rs]; simpl;
    try discriminate; try (intros _; apply returns_Normal).
  intros H. destruct (find_total_returns aggs H) as [agg ->]. simpl.
  apply opt_get_returns.
Qed.

Lemma object_literal_wellness E ps :
  stress_shaped (VObj ps) = true ->
  returns (object_literal E (VObj ps) wellness_fields).
Proof.
  intros H. unfold object_literal.
  destruct (mapM_returns
              (fun kf => v <- eval_field E (VObj ps) (snd kf) ;; Normal (fst kf, v))
              wellness_fields) as [out ->]; [|apply returns_Normal].
  intros [k f] Hin.
  assert (R : returns (eval_field E (VObj ps) f)).
  { unfold wellness_fields, copy in Hin. simpl in Hin.
    repeat (destruct Hin as [Hin|Hin];
            [injection Hin as <- <-;
             first [apply returns_Normal | apply stress_total_returns; assumption]|]).
    contradiction. }
  simpl. destruct R as [v ->]. apply returns_Normal.
Qed.

(** A day of the expected shape is kept exactly when it carries a
    calendar date, and the record made of it has that date. *)
Lemma parseWellnessData_day E rec :
  stress_shaped rec = true ->
  if carries_date rec
  then exists day, parseWellnessData E rec = Normal (Some day)
                   /\ get day "calendarDate" = get rec "calendarDate"
  else parseWellnessData E rec = Normal None.
Proof.
  intros H. destruct (carries_date rec) eqn:C.
  - destruct rec; try discriminate. simpl in C.
    destruct (object_literal_wellness E props H) as [day Hd].
    exists day. assert (P : parseWellnessData E (VObj props) = Normal (Some day)).
    { unfold parseWellnessData. simpl. rewrite C, Hd. reflexivity. }
    split; [assumption|].
    destruct (parseWellnessData_Some _ _ _ P) as (d & -> & _ & ->). reflexivity.
  - unfold parseWellnessData. destruct (object_shaped rec) eqn:O; [|reflexivity].
    destruct (object_shaped_cases _ O) as [[l ->]|[ps ->]]; simpl; [reflexivity|].
    simpl in C. rewrite C. reflexivity.
Qed.

Lemma push_wellness_days E records acc :
  Forall (fun v => stress_shaped v = true) records ->
  exists days,
    push_wellness E records acc = (acc ++ days, Normal tt)
    /\ Forall2 (fun rec day =>
                  parseWellnessData E rec = Normal (Some day)
                  /\ get day "calendarDate" = get rec "calendarDate")
               (filter carries_date records) days.
Proof.
  intros F. revert acc. induction F as [|rec records Hr _ IH]; intros acc.
  - exists []. rewrite app_nil_r. split; [reflexivity | constructor].
  - simpl. pose proof (parseWellnessData_day E rec Hr) as D.
    destruct (carries_date rec).
    + destruct D as (day & P & G). rewrite P.
      destruct (IH (acc ++ [day])) as (days & -> & F2).
      exists (day :: days). rewrite <- app_assoc. split; [reflexivity|].
      constructor; [split|]; assumption.
    + rewrite D. apply IH.
Qed.

(** X17: a wellness payload that is a list of per-day objects whose
    stress aggregates, where a day has them, are a list without null
    entries.  The loop over the list adds one record for every element
    that carries a calendar date, in the order of the list and with that
    date; nothing is thrown and the other collections stay as they
    are. *)
Theorem X17_dated_days_are_extracted (E : JSEngine) (r : GarminDataExport)
    (filename : string) (records : list value) :
  classify filename = Wellness ->
  Forall (fun v => stress_shaped v = true) records ->
  exists days,
    absorb E r filename (VArr records)
    = ({| sleepData := sleepData r; wellnessData := wellnessData r ++ days;
          hydrationData := hydrationData r; activities := activities r;
          metricsData := metricsData r |}, Normal tt)
    /\ List.length days = List.length (filter carries_date records)
    /\ Forall2 (fun rec day =>
                  parseWellnessData E rec = Normal (Some day)
                  /\ get day "calendarDate" = get rec "calendarDate")
               (filter carries_date records) days.
Proof.
  intros Hc F. unfold absorb. rewrite Hc.
  destruct (push_wellness_days E records (wellnessData r) F) as (days & -> & F2).
  exists days. split; [reflexivity|]. split; [|assumption].
  symmetry. eapply Forall2_length. eassumption.
Qed.

Lemma X17_dated_days_are_extracted_witness :
  exists days,
    absorb Ref.engine empty_export "UDSFile_2024-01-01_2024-04-10.json"
      (VArr [VObj [("calendarDate", VStr "2024-01-01"); ("totalSteps", VNum 8000)];
             VObj [("totalSteps", VNum 10)];
             VObj [("calendarDate", VStr "2024-01-02");
                   ("allDayStress",
                    VObj [("aggregatorList",
                           VArr [VObj [("type", VStr "AWAKE")];
                                 VObj [("type", VStr "TOTAL");
                                       ("averageStressLevel", VNum 31)]])])]])
    = ({| sleepData := []; wellnessData := [] ++ days; hydrationData := [];
          activities := []; metricsData := [] |}, Normal tt)
    /\ List.length days = 2.
Proof.
  destruct (X17_dated_days_are_extracted Ref.engine empty_export
              "UDSFile_2024-01-01_2024-04-10.json"
              [VObj [("calendarDate", VStr "2024-01-01"); ("totalSteps", VNum 8000)];
               VObj [("totalSteps", VNum 10)];
               VObj [("calendarDate", VStr "2024-01-02");
                     ("allDayStress",
                      VObj [("aggregatorList",
                             VArr [VObj [("type", VStr "AWAKE")];
                                   VObj [("type", VStr "TOTAL");
                                         ("averageStressLevel", VNum 31)]])])]]
              eq_refl) as (days & H & L & _).
  - repeat constructor.
  - exists days. split; assumption.
Defined.

(** The second revision passed the list itself to parseWellnessData and
    kept nothing of it. *)
Lemma Rev2_wellness_list_ignored r records :
  Rev2.absorb r "UDSFile_2024.json" (VArr records) = (r, Normal tt).
Proof. reflexivity. Qed.

(** ** The alignment of two series *)

Lemma update_keys key f m k :
  In k (map fst (update key f m)) <-> k = key \/ In k (map fst m).
Proof.
  induction m as [|[k' s] m IH]; simpl.
  - intuition.
  - destruct (String.eqb_spec k' key) as [->|N]; simpl; [intuition|].
    rewrite IH. intuition.
Qed.

Lemma update_NoDup key f m :
  NoDup (map fst m) -> NoDup (map fst (update key f m)).
Proof.
  induction m as [|[k' s] m IH]; simpl; intros H.
  - constructor; [intros []|constructor].
  - inversion H as [|? ? Hn Hd]; subst.
    destruct (String.eqb_spec k' key) as [->|N]; simpl; [assumption|].
    constructor; [|auto].
    rewrite update_keys. intros [->|Hin]; [congruence|contradiction].
Qed.

Lemma update_Forall (Q : string * slot -> Prop) key f m :
  Forall Q m ->
  (forall s, Q (key, s) \/ s = empty_slot -> Q (key, f s)) ->
  Forall Q (update key f m).
Proof.
  intros F Hf. induction F as [|[k' s] m Hq F IH]; simpl.
  - constructor; [|constructor]. apply Hf. right. reflexivity.
  - destruct (String.eqb_spec k' key) as [->|N]; constructor; auto.
Qed.

Lemma Number_throws E v e :
  Number_ E v = Throw e -> is_primitive v = false.
Proof. destruct v; simpl; intros H; try discriminate; reflexivity. Qed.

Section Fill.

Context (E : JSEngine) (data1 data2 : list DataPoint) (key1 key2 : string).

(** What holds of the map while it is filled: the dates are distinct,
    they are dates of the two series, and a value is only written for a
    date on which the series is defined. *)
Local Abbreviation sound m :=
  (NoDup (map fst m)
   /\ incl (map fst m) (map date (data1 ++ data2))
   /\ Forall (fun ks : string * slot =>
                (value1 (snd ks) <> None -> defined_on key1 data1 (fst ks))
                /\ (value2 (snd ks) <> None -> defined_on key2 data2 (fst ks)))
             m).

Lemma fill1_sound data m :
  incl data data1 -> sound m ->
  match fill E set_value1 key1 data m with
  | Normal m' => sound m'
  | Throw _ => exists p, In p data1 /\ is_primitive (metric p key1) = false
  end.
Proof.
  revert m. induction data as [|p data IH]; simpl; intros m I S; [assumption|].
  assert (Ip : In p data1) by (apply I; left; reflexivity).
  assert (I' : incl data data1) by (intros q Hq; apply I; right; assumption).
  destruct (nullish (metric p key1)) eqn:N; [apply IH; assumption|].
  destruct (Number_ E (metric p key1)) as [n|e] eqn:Hn; simpl.
  - apply IH; [assumption|]. destruct S as (D & K & F). repeat split.
    + apply update_NoDup. assumption.
    + intros k Hk. apply update_keys in Hk. destruct Hk as [->|Hk]; [|auto].
      apply in_map. apply in_or_app. left. assumption.
    + apply update_Forall; [assumption|]. intros s [[H1 H2]| ->]; simpl.
      * split; [intros _; exists p; auto | assumption].
      * split; [intros _; exists p; auto | congruence].
  - exists p. split; [assumption|]. eapply Number_throws. eassumption.
Qed.

Lemma fill2_sound data m :
  incl data data2 -> sound m ->
  match fill E set_value2 key2 data m with
  | Normal m' => sound m'
  | Throw _ => exists p, In p data2 /\ is_primitive (metric p key2) = false
  end.
Proof.
  revert m. induction data as [|p data IH]; simpl; intros m I S; [assumption|].
  assert (Ip : In p data2) by (apply I; left; reflexivity).
  assert (I' : incl data data2) by (intros q Hq; apply I; right; assumption).
  destruct (nullish (metric p key2)) eqn:N; [apply IH; assumption|].
  destruct (Number_ E (metric p key2)) as [n|e] eqn:Hn; simpl.
  - apply IH; [assumption|]. destruct S as (D & K & F). repeat split.
    + apply update_NoDup. assumption.
    + intros k Hk. apply update_keys in Hk. destruct Hk as [->|Hk]; [|auto].
      apply in_map. apply in_or_app. right. assumption.
    + apply update_Forall; [assumption|]. intros s [[H1 H2]| ->]; simpl.
      * split; [assumption | intros _; exists p; auto].
      * split; [congruence | intros _; exists p; auto].
  - exists p. split; [assumption|]. eapply Number_throws. eassumption.
Qed.

End Fill.

Lemma aligned_lengths m x y dates :
  aligned m = (x, y, dates) ->
  List.length x = List.length dates /\ List.length y = List.length dates.
Proof.
  revert x y dates. induction m as [|[k s] m IH]; simpl; intros x y dates H.
  - injection H as <- <- <-. split; reflexivity.
  - destruct (aligned m) as [[x' y'] d']. destruct (IH _ _ _ eq_refl) as [Lx Ly].
    destruct (value1 s), (value2 s); injection H as <- <- <-; simpl; auto.
Qed.

Lemma aligned_In m x y dates d :
  aligned m = (x, y, dates) -> In d dates ->
  exists s, In (d, s) m /\ value1 s <> None /\ value2 s <> None.
Proof.
  revert x y dates. induction m as [|[k s] m IH]; simpl; intros x y dates H Hd.
  - injection H as <- <- <-. contradiction.
  - destruct (aligned m) as [[x' y'] d'].
    assert (R : In d d' -> exists s0, In (d, s0) ((k, s) :: m)
                                     /\ value1 s0 <> None /\ value2 s0 <> None).
    { intros Hin. destruct (IH _ _ _ eq_refl Hin) as (s0 & H0 & V).
      exists s0. split; [right; assumption | assumption]. }
    destruct (value1 s) eqn:V1, (value2 s) eqn:V2; injection H as <- <- <-;
      auto.
    destruct Hd as [<-|Hd]; [|auto].
    exists s. rewrite V1, V2. repeat split; [left; reflexivity | discriminate ..].
Qed.

Lemma aligned_NoDup m x y dates :
  aligned m = (x, y, dates) -> NoDup (map fst m) -> NoDup dates.
Proof.
  revert x y dates. induction m as [|[k s] m IH]; simpl; intros x y dates H D.
  - injection H as <- <- <-. constructor.
  - inversion D as [|? ? Hn D']; subst.
    destruct (aligned m) as [[x' y'] d'] eqn:A.
    pose proof (IH _ _ _ eq_refl D') as Nd.
    destruct (value1 s), (value2 s); injection H as <- <- <-; try assumption.
    constructor; [|assumption]. intros Hd.
    destruct (aligned_In _ _ _ _ _ A Hd) as (s0 & Hin & _).
    apply Hn. apply (in_map fst) in Hin. assumption.
Qed.

Lemma aligned_sorted (R : string -> string -> Prop) m x y dates :
  aligned m = (x, y, dates) ->
  StronglySorted (fun a b : string * slot => R (fst a) (fst b)) m ->
  StronglySorted R dates.
Proof.
  revert x y dates. induction m as [|[k s] m IH]; simpl; intros x y dates H S.
  - injection H as <- <- <-. constructor.
  - inversion S as [|? ? S' F]; subst.
    destruct (aligned m) as [[x' y'] d'] eqn:A.
    pose proof (IH _ _ _ eq_refl S') as Sd.
    destruct (value1 s), (value2 s); injection H as <- <- <-; try assumption.
    constructor; [assumption|]. apply Forall_forall. intros d Hd.
    destruct (aligned_In _ _ _ _ _ A Hd) as (s0 & Hin & _).
    rewrite Forall_forall in F. exact (F _ Hin).
Qed.

Lemma not_after_trans a b c :
  String.compare a b <> Gt -> String.compare b c <> Gt ->
  String.compare a c <> Gt.
Proof.
  intros H1 H2.
  destruct (String.compare a b) eqn:Hab; [| |congruence].
  - apply String.compare_eq_iff in Hab. subst. assumption.
  - destruct (String.compare b c) eqn:Hbc; [| |congruence].
    + apply String.compare_eq_iff in Hbc. subst. rewrite Hab. discriminate.
    + apply String_as_OT.cmp_lt in Hab, Hbc.
      pose proof (String_as_OT.lt_trans _ _ _ Hab Hbc) as Hac.
      apply String_as_OT.cmp_lt in Hac. unfold String_as_OT.cmp in Hac.
      rewrite Hac. discriminate.
Qed.

(** Distinct keys in ascending order are in strictly ascending order. *)
Lemma strictly_sorted (m : list (string * slot)) :
  NoDup (map fst m) ->
  StronglySorted (fun a b => String.compare (fst a) (fst b) <> Gt) m ->
  StronglySorted (fun a b => lex_lt (fst a) (fst b)) m.
Proof.
  induction m as [|[k s] m IH]; simpl; intros D S; [constructor|].
  inversion D as [|? ? Hn D']; subst. inversion S as [|? ? S' F]; subst.
  constructor; [auto|].
  apply Forall_forall. intros [k' s'] Hin. rewrite Forall_forall in F.
  specialize (F _ Hin). simpl in *. unfold lex_lt.
  destruct (String.compare k k') eqn:C; [|reflexivity|congruence].
  apply String.compare_eq_iff in C. subst. exfalso. apply Hn.
  apply (in_map fst) in Hin. assumption.
Qed.

(** C8, counterexample: with month names in mixed case the dates come
    out in the order of the collation, feb before Jan, which is not the
    ascending order of the code units; and a metric value that is an
    object whose own toString is not a function makes Number() throw. *)
Lemma C8_not_lexical_and_throws :
  alignDataForCorrelation Ref.engine
    [point "2024-Jan-05" "steps" (VNum 9000);
     point "2024-feb-01" "steps" (VNum 4000)]
    [point "2024-Jan-05" "sleep" (VNum 7);
     point "2024-feb-01" "sleep" (VNum 6)]
    "steps" "sleep"
  = Normal ([4000; 9000]%float, [6; 7]%float, ["2024-feb-01"; "2024-Jan-05"])
  /\ ~ lex_lt "2024-feb-01" "2024-Jan-05"
  /\ alignDataForCorrelation Ref.engine
       [point "2024-01-01" "steps" (VObj [("toString", VNum 1)])] []
       "steps" "sleep"
     = Throw TypeError.
Proof.
  repeat split. intros H. discriminate H.
Qed.

(** C8, amended: alignDataForCorrelation either throws, because Number()
    was given a metric value that is an array or an object, or returns
    three sequences of equal length, without duplicate dates, each date
    having a value that is neither undefined nor null under its key in
    both series; and when localeCompare orders the dates of the two
    series as their code units do, the dates are strictly ascending in
    lexical order. *)
Theorem C8_aligned_series (E : JSEngine) (data1 data2 : list DataPoint)
    (metric1Key metric2Key : string) :
  match alignDataForCorrelation E data1 data2 metric1Key metric2Key with
  | Normal (x, y, dates) =>
      List.length x = List.length dates
      /\ List.length y = List.length dates
      /\ NoDup dates
      /\ Forall (fun d => defined_on metric1Key data1 d
                          /\ defined_on metric2Key data2 d) dates
      /\ (collates_as_code_units E (map date (data1 ++ data2)) ->
          StronglySorted lex_lt dates)
  | Throw _ =>
      exists p,
        (In p data1 /\ is_primitive (metric p metric1Key) = false)
        \/ (In p data2 /\ is_primitive (metric p metric2Key) = false)
  end.
Proof.
  unfold alignDataForCorrelation.
  pose proof (fill1_sound E data1 data2 metric1Key metric2Key data1 []
                (incl_refl _)) as H1.
  destruct (fill E set_value1 metric1Key data1 []) as [m1|e]; simpl.
  2:{ destruct H1 as [p Hp].
      { repeat split; [constructor | intros k [] | constructor]. }
      exists p. left. assumption. }
  assert (S1 : NoDup (map fst m1)
               /\ incl (map fst m1) (map date (data1 ++ data2))
               /\ Forall (fun ks : string * slot =>
                    (value1 (snd ks) <> None ->
                     defined_on metric1Key data1 (fst ks))
                    /\ (value2 (snd ks) <> None ->
                        defined_on metric2Key data2 (fst ks))) m1).
  { apply H1. repeat split; [constructor | intros k [] | constructor]. }
  clear H1.
  pose proof (fill2_sound E data1 data2 metric1Key metric2Key data2 m1
                (incl_refl _) S1) as H2.
  destruct (fill E set_value2 metric2Key data2 m1) as [m2|e]; simpl.
  2:{ destruct H2 as [p Hp]. exists p. right. assumption. }
  destruct H2 as (D & K & F).
  destruct (sort_returns
              (fun a b : string * slot =>
                 Normal (Some (localeCompare E (fst a) (fst b)))) m2)
    as (sorted & Hs & P).
  { intros a b _ _. apply returns_Normal. }
  rewrite Hs. simpl. destruct (aligned sorted) as [[x y] dates] eqn:A.
  destruct (aligned_lengths _ _ _ _ A) as [Lx Ly].
  assert (Dk : NoDup (map fst sorted))
    by (apply (Permutation_NoDup (Permutation_map fst P)); assumption).
  repeat split; try assumption.
  - eapply aligned_NoDup; eassumption.
  - apply Forall_forall. intros d Hd.
    destruct (aligned_In _ _ _ _ _ A Hd) as (s & Hin & V1 & V2).
    apply (Permutation_in _ (Permutation_sym P)) in Hin.
    rewrite Forall_forall in F. destruct (F _ Hin) as [F1 F2]. simpl in *.
    split; auto.
  - intros C.
    destruct (sort_sorted
                (fun a b : string * slot =>
                   Normal (Some (localeCompare E (fst a) (fst b))))
                (fun a b => String.compare (fst a) (fst b) <> Gt)
                (fun a b c => not_after_trans (fst a) (fst b) (fst c)) m2)
      as (sorted' & Hs' & _ & S).
    { intros a b Ha Hb. eexists. split; [reflexivity|]. simpl.
      rewrite C by (apply K; apply in_map; assumption).
      destruct (String.compare (fst a) (fst b)) eqn:Hc; try congruence.
      rewrite String.compare_antisym, Hc. discriminate. }
    rewrite Hs in Hs'. injection Hs' as <-.
    apply (aligned_sorted lex_lt _ _ _ _ A). apply strictly_sorted; assumption.
Qed.

Lemma C8_aligned_series_witness :
  alignDataForCorrelation Ref.engine
    [point "2024-01-03" "steps" (VNum 9000);
     point "2024-01-01" "steps" (VNum 4000);
     point "2024-01-02" "steps" VNull]
    [point "2024-01-01" "sleep" (VNum 7);
     point "2024-01-02" "sleep" (VNum 8);
     point "2024-01-03" "sleep" (VNum 6)]
    "steps" "sleep"
  = Normal ([4000; 9000]%float, [7; 6]%float, ["2024-01-01"; "2024-01-03"])
  /\ StronglySorted lex_lt ["2024-01-01"; "2024-01-03"].
Proof.
  split; [reflexivity|].
  assert (H := C8_aligned_series Ref.engine
    [point "2024-01-03" "steps" (VNum 9000);
     point "2024-01-01" "steps" (VNum 4000);
     point "2024-01-02" "steps" VNull]
    [point "2024-01-01" "sleep" (VNum 7);
     point "2024-01-02" "sleep" (VNum 8);
     point "2024-01-03" "sleep" (VNum 6)]
    "steps" "sleep").
  simpl in H. apply (proj2 (proj2 (proj2 (proj2 H)))).
  intros a b Ha Hb. simpl in Ha, Hb.
  repeat (destruct Ha as [<-|Ha]; [|]); try contradiction;
    repeat (destruct Hb as [<-|Hb]; [|]); try contradiction; reflexivity.
Defined.

(** * Further properties of the parser *)

Lemma get_prop v k : nullish v = false -> get v k = Normal (prop v k).
Proof. destruct v; simpl; intros H; try discriminate; reflexivity. Qed.

Lemma has_volume_keeps item : has_volume item = Normal (keeps_volume item).
Proof.
  unfold has_volume, object_shaped.
  destruct item; simpl; rewrite ?andb_false_r; reflexivity.
Qed.

Lemma filterM_bool (p : value -> completion bool) (q : value -> bool) l :
  (forall x, p x = Normal (q x)) -> filterM p l = Normal (filter q l).
Proof.
  intros H. induction l as [|x l IH]; simpl; [reflexivity|].
  rewrite H, IH. reflexivity.
Qed.

Lemma mapM_throws {A B : Type} (f : A -> completion B) l e :
  mapM f l = Throw e -> exists x, In x l /\ f x = Throw e.
Proof.
  induction l as [|x l IH]; simpl; [discriminate|].
  destruct (f x) as [y|e'] eqn:Hx; simpl.
  - destruct (mapM f l) as [r|e'']; simpl; [discriminate|].
    intros H. injection H as ->. destruct IH as (z & Hz & Hf); [reflexivity|].
    exists z. split; [right; assumption | assumption].
  - intros H. injection H as ->. exists x. split; [left; reflexivity | assumption].
Qed.

(** The literal of a hydration record, on a kept element. *)
Lemma hydration_literal E ps :
  object_literal E (VObj ps) hydration_fields
  = (ts <- js_or (lookup "timestampGMT" ps)
             (Date_ISO E (lookup "calendarDate" ps)) ;;
     Normal (VObj [("calendarDate", lookup "calendarDate" ps);
                   ("valueInML", lookup "valueInML" ps);
                   ("timestampGMT", ts)])).
Proof.
  unfold object_literal, hydration_fields. simpl.
  destruct (js_or _ _); reflexivity.
Qed.

(** X1: parseHydrationData on a list.  When it returns, there is one
    record for every element that is an object with a defined valueInML,
    in the order of the list; the record has the three properties
    calendarDate, valueInML and timestampGMT, the first two copied, and a
    timestampGMT that is neither undefined nor null: the element's own
    when that is truthy.  When it throws, some kept element has no truthy
    timestampGMT and a calendarDate of which no ISO string can be made. *)
Theorem X1_hydration_records (E : JSEngine) (items : list value) :
  match parseHydrationData E (VArr items) with
  | Normal l =>
      Forall2
        (fun item rec =>
           exists ts,
             rec = VObj [("calendarDate", prop item "calendarDate");
                         ("valueInML", prop item "valueInML");
                         ("timestampGMT", ts)]
             /\ nullish ts = false
             /\ (truthy (prop item "timestampGMT") = true ->
                 ts = prop item "timestampGMT"))
        (filter keeps_volume items) l
  | Throw e =>
      exists item,
        In item items /\ keeps_volume item = true
        /\ truthy (prop item "timestampGMT") = false
        /\ Date_ISO E (prop item "calendarDate") = Throw e
  end.
Proof.
  unfold parseHydrationData.
  rewrite (filterM_bool has_volume keeps_volume items has_volume_keeps). simpl.
  destruct (mapM _ (filter keeps_volume items)) as [l|e] eqn:H.
  - apply mapM_Normal in H.
    induction H as [|item rec kept l Hi _ IH]; constructor; [|assumption].
    destruct item; try discriminate. rewrite hydration_literal in Hi.
    invert_bind Hi as ts Hts. injection Hi as <-. exists ts. simpl.
    unfold js_or in Hts. destruct (truthy (lookup "timestampGMT" props)) eqn:T.
    + injection Hts as <-. repeat split. apply truthy_not_nullish. assumption.
    + destruct (Date_ISO_string _ _ _ Hts) as [s ->].
      repeat split. discriminate.
  - apply mapM_throws in H. destruct H as (item & Hin & Hi).
    apply filter_In in Hin. destruct Hin as [Hin Hk].
    exists item. repeat split; try assumption;
      destruct item; try discriminate; rewrite hydration_literal in Hi;
      simpl; unfold js_or in Hi;
      destruct (truthy (lookup "timestampGMT" props)); try discriminate;
      [reflexivity|].
    destruct (Date_ISO E (lookup "calendarDate" props)); [discriminate|].
    assumption.
Qed.

Lemma find_total_passes pre total post :
  forallb passed_over pre = true ->
  prop total "type" = VStr "TOTAL" ->
  find_total (pre ++ total :: post) = Normal total.
Proof.
  intros Hp Ht. induction pre as [|a pre IH]; simpl.
  - destruct total; try discriminate. simpl in *. rewrite Ht. reflexivity.
  - simpl in Hp. apply andb_true_iff in Hp. destruct Hp as [Ha Hp].
    unfold passed_over in Ha. apply andb_true_iff in Ha. destruct Ha as [Hn Hs].
    apply negb_true_iff in Hn. rewrite (get_prop _ _ Hn). simpl.
    destruct (prop a "type"); auto.
    apply negb_true_iff in Hs. rewrite Hs. auto.
Qed.

Lemma find_total_none aggs :
  forallb passed_over aggs = true -> find_total aggs = Normal VUndefined.
Proof.
  induction aggs as [|a aggs IH]; simpl; intros Hp; [reflexivity|].
  apply andb_true_iff in Hp. destruct Hp as [Ha Hp].
  unfold passed_over in Ha. apply andb_true_iff in Ha. destruct Ha as [Hn Hs].
  apply negb_true_iff in Hn. rewrite (get_prop _ _ Hn). simpl.
  destruct (prop a "type"); auto.
  apply negb_true_iff in Hs. rewrite Hs. auto.
Qed.

(** The record that parseWellnessData makes of a day whose whole-day
    aggregate is [total] ([undefined] when there is none). *)
Lemma wellness_record E ps total :
  truthy (lookup "calendarDate" ps) = true ->
  (forall k, stress_total (VObj ps) k = opt_get total k) ->
  nullish total = true \/ (exists t, total = VObj t) ->
  exists day,
    parseWellnessData E (VObj ps) = Normal (Some (VObj day))
    /\ map fst day = map fst wellness_fields
    /\ Forall (fun ks => lookup (fst ks) day = prop total (snd ks)) stress_keys
    /\ Forall (fun k => lookup k day = lookup k ps)
         ["userProfilePK"; "calendarDate"; "totalSteps"; "totalKilocalories";
          "bmrKilocalories"; "wellnessKilocalories"; "activeKilocalories";
          "floorsAscended"; "floorsDescended"; "floorsAscendedInMeters";
          "floorsDescendedInMeters"; "minHeartRate"; "maxHeartRate";
          "restingHeartRate"; "lastSevenDaysAvgRestingHeartRate"; "source";
          "stressPercentage"; "restStressPercentage";
          "activityStressPercentage"; "uncategorizedStressPercentage";
          "lowStressPercentage"; "mediumStressPercentage";
          "highStressPercentage"; "stressQualifier";
          "measurableAwakeDuration"; "measurableAsleepDuration";
          "lastSyncTimestampGMT"; "allDayStress"; "bodyBattery"].
Proof.
  intros Hd Hs Ht.
  assert (Ho : forall k, opt_get total k = Normal (prop total k)).
  { intros k. destruct Ht as [Hn|[t ->]]; [|reflexivity].
    destruct total; try discriminate; reflexivity. }
  unfold parseWellnessData. simpl. rewrite Hd.
  unfold object_literal, wellness_fields, copy.
  cbn -[stress_total]. rewrite !Hs, !Ho. cbn.
  eexists. split; [reflexivity|]. split; [reflexivity|].
  split; repeat constructor.
Qed.

(** X2: a day without a list of stress aggregates (no allDayStress, or no
    aggregatorList in it) that carries a calendar date is extracted, the
    ten stress figures of the record are undefined, and the other
    properties are those of the day. *)
Theorem X2_wellness_without_stress (E : JSEngine) (ps : list (string * value)) :
  truthy (lookup "calendarDate" ps) = true ->
  nullish (aggregator_list (VObj ps)) = true ->
  exists day,
    parseWellnessData E (VObj ps) = Normal (Some (VObj day))
    /\ Forall (fun ks => lookup (fst ks) day = VUndefined) stress_keys
    /\ lookup "calendarDate" day = lookup "calendarDate" ps
    /\ lookup "totalSteps" day = lookup "totalSteps" ps
    /\ lookup "restingHeartRate" day = lookup "restingHeartRate" ps
    /\ lookup "bodyBattery" day = lookup "bodyBattery" ps.
Proof.
  intros Hd Hn.
  destruct (wellness_record E ps VUndefined Hd) as (day & Hp & _ & Fs & Fc).
  - intros k. unfold stress_total, aggregator_list in *. simpl in *.
    destruct (lookup "allDayStress" ps); simpl; try reflexivity.
    simpl in Hn. destruct (lookup "aggregatorList" props); try discriminate;
      reflexivity.
  - left. reflexivity.
  - exists day. split; [assumption|]. split; [exact Fs|].
    rewrite Forall_forall in Fc. repeat split; apply Fc; simpl; tauto.
Qed.

Lemma X2_wellness_without_stress_witness :
  exists day,
    parseWellnessData Ref.engine
      (VObj [("calendarDate", VStr "2024-03-05"); ("totalSteps", VNum 7312);
             ("allDayStress", VObj [("calendarDate", VStr "2024-03-05")])])
    = Normal (Some (VObj day))
    /\ lookup "averageStressLevel" day = VUndefined
    /\ lookup "totalSteps" day = VNum 7312.
Proof.
  destruct (X2_wellness_without_stress Ref.engine
              [("calendarDate", VStr "2024-03-05"); ("totalSteps", VNum 7312);
               ("allDayStress", VObj [("calendarDate", VStr "2024-03-05")])]
              eq_refl eq_refl) as (day & H & Fs & _ & Ht & _).
  exists day. split; [assumption|]. split; [|assumption].
  inversion Fs; assumption.
Defined.

(** X3: the stress figures of a day are read from the first aggregate
    tagged TOTAL, wherever it stands in the list: the aggregates before
    it must not be null, the ones after it are not looked at. *)
Theorem X3_wellness_total_aggregate (E : JSEngine)
    (ps t : list (string * value)) (pre post : list value) :
  truthy (lookup "calendarDate" ps) = true ->
  aggregator_list (VObj ps) = VArr (pre ++ VObj t :: post) ->
  forallb passed_over pre = true ->
  lookup "type" t = VStr "TOTAL" ->
  exists day,
    parseWellnessData E (VObj ps) = Normal (Some (VObj day))
    /\ Forall (fun ks => lookup (fst ks) day = lookup (snd ks) t) stress_keys.
Proof.
  intros Hd Ha Hp Ht.
  destruct (wellness_record E ps (VObj t) Hd) as (day & H & _ & Fs & _).
  - intros k. unfold stress_total, aggregator_list in *. simpl in *.
    destruct (lookup "allDayStress" ps); try discriminate. simpl.
    rewrite Ha. rewrite (find_total_passes pre (VObj t) post Hp Ht). reflexivity.
  - right. eauto.
  - exists day. split; assumption.
Qed.

Lemma X3_wellness_total_aggregate_witness :
  exists day,
    parseWellnessData Ref.engine
      (VObj [("calendarDate", VStr "2024-03-05");
             ("allDayStress",
              VObj [("aggregatorList",
                     VArr [VObj [("type", VStr "AWAKE");
                                 ("averageStressLevel", VNum 40)];
                           VObj [("type", VStr "TOTAL");
                                 ("averageStressLevel", VNum 31);
                                 ("restDuration", VNum 600)];
                           VNull])])])
    = Normal (Some (VObj day))
    /\ lookup "averageStressLevel" day = VNum 31
    /\ lookup "restStressDuration" day = VNum 600.
Proof.
  destruct (X3_wellness_total_aggregate Ref.engine
              [("calendarDate", VStr "2024-03-05");
               ("allDayStress",
                VObj [("aggregatorList",
                       VArr [VObj [("type", VStr "AWAKE");
                                   ("averageStressLevel", VNum 40)];
                             VObj [("type", VStr "TOTAL");
                                   ("averageStressLevel", VNum 31);
                                   ("restDuration", VNum 600)];
                             VNull])])]
              [("type", VStr "TOTAL"); ("averageStressLevel", VNum 31);
               ("restDuration", VNum 600)]
              [VObj [("type", VStr "AWAKE"); ("averageStressLevel", VNum 40)]]
              [VNull] eq_refl eq_refl eq_refl eq_refl) as (day & H & Fs).
  exists day. split; [assumption|].
  rewrite Forall_forall in Fs.
  split; [apply (Fs ("averageStressLevel", "averageStressLevel"))
         | apply (Fs ("restStressDuration", "restDuration"))]; simpl; tauto.
Defined.

Lemma lookup_set_prop_other k k' v ps :
  k' <> k -> lookup k' (set_prop k v ps) = lookup k' ps.
Proof.
  intros N. induction ps as [|[k0 v0] ps IH]; simpl.
  - destruct (String.eqb_spec k' k); [contradiction | reflexivity].
  - destruct (String.eqb_spec k k0) as [->|N0]; simpl.
    + destruct (String.eqb_spec k' k0); [contradiction | reflexivity].
    + destruct (String.eqb_spec k' k0); [reflexivity | assumption].
Qed.

(** X4: parseMetricsData on an object.  The object is kept exactly when
    its calendarDate or its metricsDate is truthy; the record has the
    first of the two that is truthy as calendarDate and every other
    property as the object has it. *)
Theorem X4_metrics_date_fallback (ps : list (string * value)) :
  let d := if truthy (lookup "calendarDate" ps)
           then lookup "calendarDate" ps else lookup "metricsDate" ps in
  if truthy d
  then exists rec,
         parseMetricsData (VObj ps) = Normal (Some (VObj rec))
         /\ lookup "calendarDate" rec = d
         /\ forall k, k <> "calendarDate" -> lookup k rec = lookup k ps
  else parseMetricsData (VObj ps) = Normal None.
Proof.
  cbv zeta. unfold parseMetricsData, js_or. simpl.
  destruct (truthy (lookup "calendarDate" ps)) eqn:Tc; simpl.
  - rewrite Tc. eexists. split; [reflexivity|].
    split; [apply lookup_set_prop | intros k N; apply lookup_set_prop_other; assumption].
  - destruct (truthy (lookup "metricsDate" ps)) eqn:Tm; [|reflexivity].
    eexists. split; [reflexivity|].
    split; [apply lookup_set_prop | intros k N; apply lookup_set_prop_other; assumption].
Qed.

Lemma flattenM_Forall2 (R : value -> value -> Prop) f g l out :
  (forall x a, f x = Normal a -> Forall2 R (g x) a) ->
  flattenM f l = Normal out -> Forall2 R (flat_map g l) out.
Proof.
  intros Hf. revert out. induction l as [|x l IH]; simpl; intros out H.
  - injection H as <-. constructor.
  - inv_bind H. inv_bind H. injection H as <-.
    apply Forall2_app; eauto.
Qed.

(** X5: parseActivities on a summarized export, a list whose first
    element has a truthy summarizedActivitiesExport.  When it returns,
    the result has one record for every activity nested in the wrappers
    of the list, in order, each made by the literal of the activity with
    the 37 properties of an Activity; elements of the list that are
    themselves activities are not looked at. *)
Theorem X5_summarized_export_is_flattened (E : JSEngine)
    (first : value) (rest l : list value) :
  truthy (prop first "summarizedActivitiesExport") = true ->
  parseActivities E (VArr (first :: rest)) = Normal l ->
  Forall2
    (fun activity rec =>
       object_literal E activity activity_fields = Normal rec
       /\ exists ps, rec = VObj ps /\ map fst ps = map fst activity_fields)
    (flat_map export_list (first :: rest)) l
  /\ List.length l = List.length (flat_map export_list (first :: rest)).
Proof.
  intros Ht H. unfold parseActivities in H.
  assert (Hn : nullish first = false) by (destruct first; try discriminate; reflexivity).
  rewrite (get_prop _ _ Hn) in H. simpl in H. rewrite Ht in H.
  assert (F : Forall2
    (fun activity rec =>
       object_literal E activity activity_fields = Normal rec
       /\ exists ps, rec = VObj ps /\ map fst ps = map fst activity_fields)
    (flat_map export_list (first :: rest)) l).
  { eapply flattenM_Forall2; [|exact H].
    intros x a Hx. unfold export_activities in Hx. invert_bind Hx as v Hv.
    assert (Hx' : nullish x = false) by (destruct x; try discriminate; reflexivity).
    rewrite (get_prop _ _ Hx') in Hv. injection Hv as <-.
    unfold export_list.
    destruct (prop x "summarizedActivitiesExport");
      try (injection Hx as <-; constructor).
    apply mapM_Normal in Hx.
    apply Forall2_impl with (2 := Hx). intros activity rec Hr.
    split; [assumption|]. eapply object_literal_keys. eassumption. }
  split; [assumption|]. symmetry. eapply Forall2_length. eassumption.
Qed.

Lemma X5_summarized_export_is_flattened_witness :
  exists l,
    parseActivities Ref.engine
      (VArr [VObj [("summarizedActivitiesExport", VArr [run_on_jan_2])];
             ride_on_jan_1;
             VObj [("summarizedActivitiesExport", VArr [ride_on_jan_1])]])
    = Normal l
    /\ List.length l = 2.
Proof.
  eexists. split; [vm_compute; reflexivity|].
  apply (X5_summarized_export_is_flattened Ref.engine
           (VObj [("summarizedActivitiesExport", VArr [run_on_jan_2])])
           [ride_on_jan_1;
            VObj [("summarizedActivitiesExport", VArr [ride_on_jan_1])]]);
    [reflexivity | vm_compute; reflexivity].
Defined.

(** * Further properties of the aggregator *)

Lemma step_unrecognised E total st f :
  unrecognised f = true -> result (step E total st f) = result st.
Proof.
  unfold unrecognised, step. destruct (dir f); simpl; [reflexivity|].
  destruct (content f); try reflexivity.
  unfold absorb. destruct (classify (name f)); try discriminate; reflexivity.
Qed.

Lemma loop_unrecognised E total files st :
  forallb unrecognised files = true ->
  result (fold_left (step E total) files st) = result st.
Proof.
  revert st. induction files as [|f files IH]; simpl; intros st H; [reflexivity|].
  apply andb_true_iff in H. destruct H as [Hf H].
  rewrite IH by assumption. apply step_unrecognised. assumption.
Qed.

(** X6: an archive in which every entry is a directory, cannot be read,
    is not JSON, or has a name that no branch of the chain takes: the
    promise resolves with the empty export, and nothing is thrown. *)
Theorem X6_nothing_recognised (E : JSEngine) (files : list entry) :
  forallb unrecognised files = true ->
  fst (parseGarminData E files) = Normal empty_export.
Proof.
  intros H. unfold parseGarminData. simpl.
  rewrite (loop_unrecognised E _ files initial H). reflexivity.
Qed.

Lemma X6_nothing_recognised_witness :
  fst (parseGarminData Ref.engine
         [{| name := "DI_CONNECT/"; dir := true; content := Unreadable |};
          corrupt "DI_CONNECT/readme.txt";
          file "DI_CONNECT/user_profile.json" (VObj [("userName", VStr "jo")]);
          {| name := "DI_CONNECT/broken.bin"; dir := false;
             content := Unreadable |}])
  = Normal empty_export.
Proof.
  apply X6_nothing_recognised. reflexivity.
Defined.

Lemma step_progress E total st f :
  let st' := step E total st f in
  if counted f
  then processedFiles st' = S (processedFiles st)
       /\ progress st' = progress st
            ++ [PrimFloat.div (float_of_nat (S (processedFiles st)))
                              (float_of_nat total)]
  else processedFiles st' = processedFiles st /\ progress st' = progress st.
Proof.
  unfold counted, step. destruct (dir f); simpl; [tauto|].
  destruct (content f); simpl; tauto.
Qed.

Lemma loop_progress E total files st :
  progress (fold_left (step E total) files st)
  = progress st
    ++ map (fun i => PrimFloat.div (float_of_nat i) (float_of_nat total))
           (seq (S (processedFiles st)) (List.length (filter counted files))).
Proof.
  revert st. induction files as [|f files IH]; simpl; intros st.
  - rewrite app_nil_r. reflexivity.
  - rewrite IH. pose proof (step_progress E total st f) as H. cbv zeta in H.
    destruct (counted f); destruct H as [-> ->]; [|reflexivity].
    simpl. rewrite <- app_assoc. reflexivity.
Qed.

(** X7: the values passed to onProgress are 1/n, 2/n, ..., m/n, where n
    is the number of entries of the archive, directories included, and m
    the number of entries that are not a directory and whose text is
    JSON or cannot be read.  So the last value is n/n only when the
    archive has no directory and no text that is not JSON. *)
Theorem X7_progress_values (E : JSEngine) (files : list entry) :
  snd (parseGarminData E files)
  = map (fun i => PrimFloat.div (float_of_nat i)
                                (float_of_nat (List.length files)))
        (seq 1 (List.length (filter counted files))).
Proof.
  unfold parseGarminData. simpl.
  rewrite (loop_progress E (List.length files) files initial). reflexivity.
Qed.

(** Every record that the loop gathers can be read: it is neither
    [undefined] nor [null]. *)
Lemma checked_records r :
  checked r -> Forall (fun v => nullish v = false) (records r).
Proof.
  intros (Hs & Hw & Hh & Ha & Hm). unfold records.
  repeat (apply Forall_app; split).
  - apply Forall_impl with (2 := Hs). intros v H.
    destruct (object_shaped_cases v H) as [[l ->]|[ps ->]]; reflexivity.
  - apply Forall_impl with (2 := Hw). intros v (f & H & _).
    destruct v; try discriminate; reflexivity.
  - apply Forall_impl with (2 := Hh). intros v (f & H & _).
    destruct v; try discriminate; reflexivity.
  - apply Forall_impl with (2 := Ha). intros v (f & H & _).
    destruct v; try discriminate; reflexivity.
  - apply Forall_impl with (2 := Hm). intros v (f & H & _).
    destruct v; try discriminate; reflexivity.
Qed.

Lemma insert_throws {A : Type} (cmp : A -> A -> completion (option Z)) x l e :
  insert cmp x l = Throw e -> exists y, In y l /\ cmp x y = Throw e.
Proof.
  induction l as [|y l IH]; simpl; [discriminate|].
  destruct (cmp x y) as [c|e'] eqn:Hc; simpl.
  - destruct (after c); [|discriminate].
    destruct (insert cmp x l) as [r|e'']; simpl; [discriminate|].
    intros H. injection H as ->. destruct IH as (z & Hz & Ht); [reflexivity|].
    exists z. split; [right; assumption | assumption].
  - intros H. injection H as ->. exists y. split; [left; reflexivity | assumption].
Qed.

Lemma sort_throws {A : Type} (cmp : A -> A -> completion (option Z)) l e :
  sort cmp l = Throw e ->
  exists x y, In x l /\ In y l /\ cmp x y = Throw e.
Proof.
  induction l as [|x l IH]; simpl; [discriminate|].
  destruct (sort cmp l) as [s|e'] eqn:Hs; simpl.
  - intros H. apply insert_throws in H. destruct H as (y & Hy & Ht).
    exists x, y. repeat split; [left; reflexivity | right | assumption].
    apply (Permutation_in _ (Permutation_sym (sort_perm _ _ _ Hs))). assumption.
  - intros H. injection H as ->. destruct IH as (a & b & Ha & Hb & Ht);
      [reflexivity|].
    exists a, b. repeat split; [right; assumption | right; assumption | assumption].
Qed.

Lemma by_date_throws E k a b e :
  nullish a = false -> nullish b = false ->
  by_date E k a b = Throw e ->
  exists v, (v = a \/ v = b) /\ is_primitive (prop v k) = false
            /\ Date_of_object E (prop v k) = Throw e.
Proof.
  intros Ha Hb. unfold by_date.
  rewrite (get_prop _ _ Ha), (get_prop _ _ Hb). simpl.
  destruct (new_Date E (prop a k)) as [ta|ea] eqn:Da; simpl.
  - destruct (new_Date E (prop b k)) as [tb|eb] eqn:Db; simpl; [discriminate|].
    intros H. injection H as ->. exists b. split; [right; reflexivity|].
    destruct (prop b k); try discriminate; split; auto.
  - intros H. injection H as ->. exists a. split; [left; reflexivity|].
    destruct (prop a k); try discriminate; split; auto.
Qed.

Lemma sort_date_throws E k l e :
  Forall (fun v => nullish v = false) l ->
  sort (by_date E k) l = Throw e ->
  exists v, In v l /\ is_primitive (prop v k) = false
            /\ Date_of_object E (prop v k) = Throw e.
Proof.
  intros F H. apply sort_throws in H. destruct H as (a & b & Ha & Hb & Ht).
  rewrite Forall_forall in F.
  apply by_date_throws in Ht; [|apply F; assumption ..].
  destruct Ht as (v & [-> | ->] & Hp & Hd); eauto.
Qed.

Lemma sort_date_compared E k l e :
  Forall (fun v => nullish v = false) l ->
  sort (by_date E k) l = Throw e ->
  exists v, In (k, v) (map (pair k) l) /\ is_primitive (prop v k) = false
            /\ Date_of_object E (prop v k) = Throw e.
Proof.
  intros F H. destruct (sort_date_throws E k l e F H) as (v & Hin & Hp & Hd).
  exists v. split; [apply in_map; assumption | split; assumption].
Qed.

(** X8: parseGarminData rejects only from its five sorts.  When it
    rejects with an error, one of the gathered records holds, under the
    property that the comparator of its collection reads
    (sleepStartTimestampGMT for sleep, calendarDate for wellness,
    hydration and metrics, startTimeGmt for the activities), an array or
    an object whose conversion to a date throws that error; no file of
    the archive, whatever it holds, makes it reject in another way. *)
Theorem X8_only_a_date_conversion_throws (E : JSEngine) (files : list entry)
    (e : error) :
  fst (parseGarminData E files) = Throw e ->
  exists k v,
    In (k, v)
       (compared (result (fold_left (step E (List.length files)) files initial)))
    /\ is_primitive (prop v k) = false
    /\ Date_of_object E (prop v k) = Throw e.
Proof.
  unfold parseGarminData. simpl.
  set (r0 := result (fold_left (step E (List.length files)) files initial)).
  assert (C : checked r0).
  { apply loop_checked. repeat split; constructor. }
  pose proof (checked_records r0 C) as F. unfold records in F.
  repeat rewrite Forall_app in F. destruct F as (Fs & Fw & Fh & Fa & Fm).
  unfold sort_export, compared. intros H.
  destruct (sort (by_date E "sleepStartTimestampGMT") (sleepData r0)) eqn:S1;
    simpl in H;
    [|injection H as ->; apply sort_date_compared in S1; [|assumption];
      destruct S1 as (v & Hin & Hp & Hd); exists "sleepStartTimestampGMT", v;
      repeat split; try assumption; repeat (apply in_or_app; auto)].
  destruct (sort (by_date E "calendarDate") (wellnessData r0)) eqn:S2;
    simpl in H;
    [|injection H as ->; apply sort_date_compared in S2; [|assumption];
      destruct S2 as (v & Hin & Hp & Hd); exists "calendarDate", v;
      repeat split; try assumption; apply in_or_app; right;
      apply in_or_app; auto].
  destruct (sort (by_date E "calendarDate") (hydrationData r0)) eqn:S3;
    simpl in H;
    [|injection H as ->; apply sort_date_compared in S3; [|assumption];
      destruct S3 as (v & Hin & Hp & Hd); exists "calendarDate", v;
      repeat split; try assumption; do 2 (apply in_or_app; right);
      apply in_or_app; auto].
  destruct (sort (by_date E "startTimeGmt") (activities r0)) eqn:S4;
    simpl in H;
    [|injection H as ->; apply sort_date_compared in S4; [|assumption];
      destruct S4 as (v & Hin & Hp & Hd); exists "startTimeGmt", v;
      repeat split; try assumption; do 3 (apply in_or_app; right);
      apply in_or_app; auto].
  destruct (sort (by_date E "calendarDate") (metricsData r0)) eqn:S5;
    simpl in H; [discriminate|].
  injection H as ->. apply sort_date_compared in S5; [|assumption].
  destruct S5 as (v & Hin & Hp & Hd). exists "calendarDate", v.
  repeat split; try assumption. do 4 (apply in_or_app; right). assumption.
Qed.

Lemma X8_only_a_date_conversion_throws_witness :
  fst (parseGarminData Ref.engine
         [file "jo_0_summarizedActivities.json"
            (VArr [VObj [("activityType", VStr "running");
                         ("startTimeGMT", VStr "2024-01-02T07:00:00.000Z");
                         ("startTimeGmt", VObj [("toString", VNum 1)])];
                   VObj [("activityType", VStr "cycling");
                         ("startTimeGMT", VStr "2024-01-01T07:00:00.000Z")]])])
  = Throw TypeError
  /\ exists k v,
       In (k, v)
          (compared (result (fold_left
             (step Ref.engine 1)
             [file "jo_0_summarizedActivities.json"
                (VArr [VObj [("activityType", VStr "running");
                             ("startTimeGMT", VStr "2024-01-02T07:00:00.000Z");
                             ("startTimeGmt", VObj [("toString", VNum 1)])];
                       VObj [("activityType", VStr "cycling");
                             ("startTimeGMT", VStr "2024-01-01T07:00:00.000Z")]])]
             initial)))
       /\ is_primitive (prop v k) = false
       /\ Date_of_object Ref.engine (prop v k) = Throw TypeError.
Proof.
  split; [vm_compute; reflexivity|].
  apply (X8_only_a_date_conversion_throws Ref.engine
           [file "jo_0_summarizedActivities.json"
              (VArr [VObj [("activityType", VStr "running");
                           ("startTimeGMT", VStr "2024-01-02T07:00:00.000Z");
                           ("startTimeGmt", VObj [("toString", VNum 1)])];
                     VObj [("activityType", VStr "cycling");
                           ("startTimeGMT", VStr "2024-01-01T07:00:00.000Z")]])]).
  vm_compute. reflexivity.
Defined.

Lemma sorted_output E k l l' :
  sort (by_date E k) l = Normal l' ->
  Forall (fun v => exists t, time_of E k v t) l' ->
  StronglySorted (not_later E k) l'.
Proof.
  intros H F.
  assert (Fl : Forall (fun v => exists t, time_of E k v t) l).
  { apply (Permutation_Forall (Permutation_sym (sort_perm _ _ _ H))). assumption. }
  destruct (dated_records_are_sorted E k l Fl) as (l'' & Hs & _ & S).
  rewrite H in Hs. injection Hs as <-. assumption.
Qed.

(** X9: in the export that parseGarminData returns, a sleep, wellness,
    hydration or metrics collection whose records all have a temporal
    field that parses as a date is in ascending order of that date. *)
Theorem X9_dated_collections_are_sorted (E : JSEngine) (files : list entry)
    (r : GarminDataExport) :
  fst (parseGarminData E files) = Normal r ->
  (Forall (fun v => exists t, time_of E "sleepStartTimestampGMT" v t)
          (sleepData r) ->
   StronglySorted (not_later E "sleepStartTimestampGMT") (sleepData r))
  /\ (Forall (fun v => exists t, time_of E "calendarDate" v t) (wellnessData r) ->
      StronglySorted (not_later E "calendarDate") (wellnessData r))
  /\ (Forall (fun v => exists t, time_of E "calendarDate" v t) (hydrationData r) ->
      StronglySorted (not_later E "calendarDate") (hydrationData r))
  /\ (Forall (fun v => exists t, time_of E "calendarDate" v t) (metricsData r) ->
      StronglySorted (not_later E "calendarDate") (metricsData r)).
Proof.
  unfold parseGarminData. simpl. unfold sort_export. intros H.
  invert_bind H as s Hs. invert_bind H as w Hw. invert_bind H as h Hh.
  invert_bind H as a Ha. invert_bind H as m Hm. injection H as <-. simpl.
  repeat split; intros F; eapply sorted_output; eassumption.
Qed.

Lemma X9_dated_collections_are_sorted_witness :
  exists r,
    fst (parseGarminData Ref.engine
           [file "UDSFile_2024-01-01_2024-04-10.json"
              (VArr [VObj [("calendarDate", VStr "2024-01-03")];
                     VObj [("calendarDate", VStr "2024-01-01")];
                     VObj [("calendarDate", VStr "2024-01-02")]])])
    = Normal r
    /\ List.length (wellnessData r) = 3
    /\ StronglySorted (not_later Ref.engine "calendarDate") (wellnessData r).
Proof.
  eexists. split; [vm_compute; reflexivity|]. split; [reflexivity|].
  refine (proj1 (proj2 (X9_dated_collections_are_sorted Ref.engine
           [file "UDSFile_2024-01-01_2024-04-10.json"
              (VArr [VObj [("calendarDate", VStr "2024-01-03")];
                     VObj [("calendarDate", VStr "2024-01-01")];
                     VObj [("calendarDate", VStr "2024-01-02")]])] _ _)) _).
  - vm_compute. reflexivity.
  - repeat constructor; eexists; eexists; (split; [reflexivity|]);
      vm_compute; reflexivity.
Defined.

(** X10: processZipFile on an archive that loads but in which nothing is
    recognised: onDataLoaded is not called, the error is the one for an
    export without records, and the progress shown is 0, 20, and then
    20 + 0.8 * i/n for each entry that is counted; 100 is never shown. *)
Theorem X10_upload_without_data (E : JSEngine) (files : list entry) :
  forallb unrecognised files = true ->
  processZipFile E (Some files)
  = {| loaded := None;
       failed := Some NoData;
       uploadProgress :=
         [0; 20]%float
         ++ map (fun i =>
                   PrimFloat.add 20
                     (PrimFloat.mul
                        (PrimFloat.div (float_of_nat i)
                                       (float_of_nat (List.length files)))
                        0.8))
                (seq 1 (List.length (filter counted files))) |}.
Proof.
  intros H. unfold processZipFile.
  rewrite (surjective_pairing (parseGarminData E files)) at 1.
  unfold parseGarminData at 1. simpl fst.
  rewrite (loop_unrecognised E _ files initial H). simpl.
  unfold parseGarminData. simpl snd.
  rewrite (loop_progress E (List.length files) files initial). simpl.
  rewrite map_map. reflexivity.
Qed.

Lemma X10_upload_without_data_witness :
  processZipFile Ref.engine
    (Some [corrupt "notes.txt";
           file "user_profile.json" (VObj [("userName", VStr "jo")])])
  = {| loaded := None; failed := Some NoData;
       uploadProgress := [0; 20; 20.4]%float |}.
Proof.
  apply (X10_upload_without_data Ref.engine
           [corrupt "notes.txt";
            file "user_profile.json" (VObj [("userName", VStr "jo")])]).
  reflexivity.
Defined.

(** * Further properties of the correlation engine *)

Lemma SFcompare_refl a : a <> S754_nan -> SFcompare a a = Some Eq.
Proof.
  destruct a as [s|s| |s m e]; simpl; intros H; try congruence.
  - destruct s; reflexivity.
  - rewrite Z.compare_refl.
    change (PosDef.Pos.compare_cont Eq m m) with (Pos.compare m m).
    rewrite Pos.compare_refl. destruct s; reflexivity.
Qed.

Lemma is_nan_true a : Prim2SF a = S754_nan -> PrimFloat.is_nan a = true.
Proof.
  intros H. unfold PrimFloat.is_nan. rewrite FloatAxioms.eqb_spec, H. reflexivity.
Qed.

Lemma not_nan_is_nan a : Prim2SF a <> S754_nan -> PrimFloat.is_nan a = false.
Proof.
  intros H. unfold PrimFloat.is_nan. rewrite FloatAxioms.eqb_spec.
  unfold SFeqb. rewrite (SFcompare_refl _ H). reflexivity.
Qed.

(** A comparison with NaN is false. *)
Lemma leb_numbers a b :
  PrimFloat.leb a b = true ->
  PrimFloat.is_nan a = false /\ PrimFloat.is_nan b = false.
Proof.
  rewrite FloatAxioms.leb_spec. unfold SFleb. intros H.
  split; apply not_nan_is_nan; intros N; rewrite N in H;
    [|destruct (Prim2SF a)]; discriminate.
Qed.

Lemma abs_nan a :
  PrimFloat.is_nan (PrimFloat.abs a) = false -> PrimFloat.is_nan a = false.
Proof.
  intros H. apply not_nan_is_nan. intros N. apply is_nan_false in H.
  apply H. rewrite FloatAxioms.abs_spec, N. reflexivity.
Qed.

(** X11: findStrongestCorrelations returns a rearrangement of the entries
    that meet both thresholds: every entry returned has |correlation| at
    least the threshold and pValue at most its threshold, every entry of
    the input that does is returned, as often as it occurs, and no entry
    whose correlation or pValue is NaN is ever returned. *)
Theorem X11_strongest_correlations
    (correlations : list Ranked.CorrelationResult)
    (threshold pValueThreshold : float) :
  exists out,
    findStrongestCorrelations correlations threshold pValueThreshold
    = Normal out
    /\ Permutation (filter (strong_enough threshold pValueThreshold) correlations)
                   out
    /\ Forall (fun c =>
                 PrimFloat.leb threshold (PrimFloat.abs (Ranked.correlation c))
                 = true
                 /\ PrimFloat.leb (Ranked.pValue c) pValueThreshold = true
                 /\ PrimFloat.is_nan (Ranked.correlation c) = false
                 /\ PrimFloat.is_nan (Ranked.pValue c) = false) out.
Proof.
  unfold findStrongestCorrelations.
  destruct (sort_returns
              (fun a b : Ranked.CorrelationResult =>
                 Normal (comparator_result
                           (PrimFloat.sub (PrimFloat.abs (Ranked.correlation b))
                                          (PrimFloat.abs (Ranked.correlation a)))))
              (filter (strong_enough threshold pValueThreshold) correlations))
    as (out & Hs & P).
  { intros a b _ _. apply returns_Normal. }
  exists out. split; [assumption|]. split; [assumption|].
  apply (Permutation_Forall P). apply Forall_forall. intros c Hc.
  apply filter_In in Hc. destruct Hc as [_ Hc]. unfold strong_enough in Hc.
  apply andb_true_iff in Hc. destruct Hc as [H1 H2].
  repeat split; try assumption.
  - apply abs_nan. apply (leb_numbers _ _ H1).
  - apply (leb_numbers _ _ H2).
Qed.

Lemma mul_comm (a b : float) : PrimFloat.mul a b = PrimFloat.mul b a.
Proof.
  apply Prim2SF_inj. rewrite !FloatAxioms.mul_spec. unfold SF64mul, SFmul.
  destruct (Prim2SF a) as [sa|sa| |sa ma ea], (Prim2SF b) as [sb|sb| |sb mb eb];
    try reflexivity; rewrite (xorb_comm sa sb); try reflexivity.
  rewrite (Pos.mul_comm ma mb), (Z.add_comm ea eb). reflexivity.
Qed.

Lemma nth_middle_float (l l' : list float) a :
  nth (List.length l) (l ++ a :: l') PrimFloat.nan = a.
Proof. induction l; simpl; auto. Qed.

Lemma sumXY_comm (px py x y : list float) acc :
  List.length px = List.length py -> List.length x = List.length y ->
  reduce_from (fun total xi i =>
                 PrimFloat.add total (PrimFloat.mul xi (at_index (py ++ y) i)))
              (List.length px) x acc
  = reduce_from (fun total yi i =>
                   PrimFloat.add total (PrimFloat.mul yi (at_index (px ++ x) i)))
                (List.length py) y acc.
Proof.
  revert px py y acc. induction x as [|a x IH]; intros px py [|b y] acc Hp Hl;
    try discriminate; [reflexivity|].
  cbn [reduce_from].
  assert (Hb : at_index (py ++ b :: y) (List.length px) = b)
    by (rewrite Hp; apply nth_middle_float).
  assert (Ha : at_index (px ++ a :: x) (List.length py) = a)
    by (rewrite <- Hp; apply nth_middle_float).
  rewrite Ha, Hb, (mul_comm b a).
  specialize (IH (px ++ [a]) (py ++ [b]) y
                 (PrimFloat.add acc (PrimFloat.mul a b))).
  rewrite !length_app, <- !app_assoc in IH. simpl in IH.
  rewrite !Nat.add_1_r in IH. apply IH; [lia | simpl in Hl; lia].
Qed.

(** X12: calculateCorrelation is symmetric: the two series can be
    exchanged without changing r or pValue, bit for bit. *)
Theorem X12_correlation_is_symmetric (E : JSEngine) (x y : list float) :
  calculateCorrelation E x y = calculateCorrelation E y x.
Proof.
  unfold calculateCorrelation.
  destruct (Nat.eqb_spec (List.length x) (List.length y)) as [Hl|Hl].
  - rewrite <- Hl, Nat.eqb_refl.
    destruct (List.length x <? 3)%nat eqn:L; [reflexivity|]. simpl.
    assert (Hd : denominator x y = denominator y x).
    { unfold denominator. rewrite <- Hl. f_equal. apply mul_comm. }
    assert (Hn : numerator x y = numerator y x).
    { unfold numerator. rewrite <- Hl. unfold reduce.
      rewrite (sumXY_comm [] [] x y _ eq_refl Hl). simpl.
      f_equal. apply mul_comm. }
    rewrite Hd, Hn. reflexivity.
  - destruct (Nat.eqb_spec (List.length y) (List.length x)); [congruence|].
    reflexivity.
Qed.

Lemma flat_map_ext_in {A B : Type} (f g : A -> list B) l :
  (forall a, In a l -> f a = g a) -> flat_map f l = flat_map g l.
Proof.
  induction l as [|a l IH]; simpl; intros H; [reflexivity|].
  rewrite (H a (or_introl eq_refl)), IH; [reflexivity|].
  intros b Hb. apply H. right. assumption.
Qed.

Lemma nth_error_skipn {A : Type} (l : list A) k j :
  nth_error (skipn k l) j = nth_error l (k + j).
Proof.
  revert l. induction k as [|k IH]; intros l; [reflexivity|].
  destruct l as [|a l]; simpl; [destruct j; reflexivity | apply IH].
Qed.

(** The pairs at a lag of [k] days, for series as long as [dates]: the
    elements of [x] against the elements of [y] that are [k] places
    later. *)
Lemma laggedPairs_shift (x y : list float) (dates : list string) (k : nat) :
  List.length x = List.length dates -> List.length y = List.length dates ->
  laggedPairs x y dates (Z.of_nat k)
  = combine (firstn (List.length x - k) x) (skipn k y).
Proof.
  intros Hx Hy. unfold laggedPairs.
  replace (Z.to_nat (Z.of_nat (List.length dates) - Z.of_nat k))
    with (List.length x - k) by lia.
  rewrite <- (pairs_from (firstn (List.length x - k) x) (skipn k y)
                (List.length x - k)).
  - apply flat_map_ext_in. intros j Hj. apply in_seq in Hj. unfold element.
    replace (Z.of_nat k + Z.of_nat j - Z.of_nat k)%Z with (Z.of_nat j) by lia.
    destruct (Z.ltb_spec (Z.of_nat j) 0); [lia|].
    destruct (Z.ltb_spec (Z.of_nat k + Z.of_nat j) 0); [lia|].
    rewrite Nat2Z.id, <- Nat2Z.inj_add, Nat2Z.id, nth_error_skipn.
    rewrite nth_error_firstn.
    destruct (Nat.ltb_spec j (List.length x - k)); [reflexivity | lia].
  - rewrite length_firstn, length_skipn. lia.
  - rewrite length_firstn. lia.
Qed.

(** X13: for series as long as [dates] and a lag of [k] days, the lagged
    correlation is the correlation of the first n - k values of [x] with
    the last n - k values of [y]; with fewer than three such pairs, in
    particular when the lag is n - 2 or more, it is r = 0, pValue = 1. *)
Theorem X13_lagged_correlation_shifts (E : JSEngine) (x y : list float)
    (dates : list string) (k : nat) :
  List.length x = List.length dates ->
  List.length y = List.length dates ->
  calculateLaggedCorrelation E x y dates (Z.of_nat k)
  = if (List.length x - k <? 3)%nat then fails_soft
    else calculateCorrelation E (firstn (List.length x - k) x) (skipn k y).
Proof.
  intros Hx Hy. unfold calculateLaggedCorrelation.
  rewrite (laggedPairs_shift x y dates k Hx Hy).
  assert (Hl : List.length (firstn (List.length x - k) x)
               = List.length (skipn k y))
    by (rewrite length_firstn, length_skipn; lia).
  rewrite combine_fst, combine_snd by assumption.
  rewrite length_combine, <- Hl, Nat.min_id, length_firstn.
  replace (Nat.min (List.length x - k) (List.length x))
    with (List.length x - k) by lia.
  reflexivity.
Qed.

Lemma X13_lagged_correlation_shifts_witness :
  calculateLaggedCorrelation Ref.engine
    [1; 2; 4; 8]%float [5; 3; 6; 9]%float
    ["2024-01-01"; "2024-01-02"; "2024-01-03"; "2024-01-04"] 1
  = calculateCorrelation Ref.engine [1; 2; 4]%float [3; 6; 9]%float.
Proof.
  apply (X13_lagged_correlation_shifts Ref.engine
           [1; 2; 4; 8]%float [5; 3; 6; 9]%float
           ["2024-01-01"; "2024-01-02"; "2024-01-03"; "2024-01-04"] 1);
    reflexivity.
Defined.

(** Where an entry of the map comes from after an update. *)
Lemma update_In key f m k s :
  NoDup (map fst m) -> In (k, s) (update key f m) ->
  (k <> key /\ In (k, s) m)
  \/ (k = key
      /\ exists s0, s = f s0 /\ (In (key, s0) m \/ s0 = empty_slot)).
Proof.
  induction m as [|[k' s'] m IH]; simpl; intros D H.
  - destruct H as [H|[]]. injection H as <- <-. right. eauto.
  - inversion D as [|? ? Hn D']; subst.
    destruct (String.eqb_spec k' key) as [->|N]; simpl in H.
    + destruct H as [H|H].
      * injection H as <- <-. right. split; [reflexivity|].
        exists s'. split; [reflexivity|]. left. left. reflexivity.
      * left. split; [|right; assumption].
        intros ->. apply Hn. apply (in_map fst) in H. assumption.
    + destruct H as [H|H].
      * injection H as <- <-. left. split; [assumption | left; reflexivity].
      * destruct (IH D' H) as [[Nk Hi]|[-> (s0 & -> & [Hi| ->])]].
        -- left. split; [assumption | right; assumption].
        -- right. split; [reflexivity|]. exists s0. split; [reflexivity|].
           left. right. assumption.
        -- right. split; [reflexivity|]. exists empty_slot.
           split; [reflexivity|]. right. reflexivity.
Qed.

(** The entry of the updated date, and the entries that stay. *)
Lemma update_written key f m :
  exists s0, In (key, f s0) (update key f m).
Proof.
  induction m as [|[k' s'] m IH]; simpl.
  - exists empty_slot. left. reflexivity.
  - destruct (String.eqb_spec k' key) as [->|N].
    + exists s'. left. reflexivity.
    + destruct IH as [s0 H]. exists s0. right. assumption.
Qed.

Lemma update_stays key f m k s :
  In (k, s) m -> exists s', In (k, s') (update key f m) /\ (s' = s \/ s' = f s).
Proof.
  induction m as [|[k' s'] m IH]; simpl; [intros []|].
  intros [H|H].
  - injection H as -> ->. destruct (String.eqb_spec k key) as [->|N].
    + exists (f s). split; [left; reflexivity | right; reflexivity].
    + exists s. split; [left; reflexivity | left; reflexivity].
  - destruct (String.eqb_spec k' key) as [->|N].
    + exists s. split; [right; assumption | left; reflexivity].
    + destruct (IH H) as (s1 & H1 & Hs). exists s1. split; [right|]; assumption.
Qed.

Lemma fill_NoDup E set key data m m' :
  NoDup (map fst m) -> fill E set key data m = Normal m' ->
  NoDup (map fst m').
Proof.
  revert m. induction data as [|p data IH]; simpl; intros m D H.
  - injection H as <-. assumption.
  - destruct (nullish (metric p key)); [eauto|].
    invert_bind H as n Hn.
    apply (IH _ (update_NoDup (date p) (set n) m D) H).
Qed.

Section FillOne.

(** One of the two loops of alignDataForCorrelation: [written] is the
    property that it sets and [other] the one that it leaves. *)
Context (E : JSEngine) (set : float -> slot -> slot)
        (written other : slot -> option float) (key : string).
Hypothesis written_set : forall n s, written (set n s) = Some n.
Hypothesis other_set : forall n s, other (set n s) = other s.
Hypothesis written_empty : written empty_slot = None.
Hypothesis other_empty : other empty_slot = None.

(** [a] is the number made of the last point of [done] on the date [k]
    that carries a value. *)
Local Abbreviation last_of done k a :=
  (exists pre p post,
     done = pre ++ p :: post /\ date p = k /\ carries key p = true
     /\ Number_ E (metric p key) = Normal a
     /\ Forall (fun q => date q = k -> carries key q = false) post).

Lemma fill_last data done m m' :
  NoDup (map fst m) ->
  (forall k s a, In (k, s) m -> written s = Some a -> last_of done k a) ->
  fill E set key data m = Normal m' ->
  forall k s a, In (k, s) m' -> written s = Some a -> last_of (done ++ data) k a.
Proof.
  revert done m. induction data as [|p data IH]; simpl; intros done m D I H.
  - injection H as <-. rewrite app_nil_r. assumption.
  - replace (done ++ p :: data) with ((done ++ [p]) ++ data)
      by (rewrite <- app_assoc; reflexivity).
    destruct (nullish (metric p key)) eqn:N.
    + apply (IH (done ++ [p]) m D); [|assumption].
      intros k s a Hin Hw.
      destruct (I k s a Hin Hw) as (pre & q & post & -> & Hd & Hc & Hn & F).
      exists pre, q, (post ++ [p]). rewrite <- app_assoc. simpl.
      repeat split; try assumption. apply Forall_app. split; [assumption|].
      constructor; [|constructor]. intros _. unfold carries. rewrite N. reflexivity.
    + invert_bind H as n Hn.
      apply (IH (done ++ [p]) _ (update_NoDup (date p) (set n) m D));
        [|assumption].
      intros k s a Hin Hw.
      destruct (update_In _ _ _ _ _ D Hin) as [[Nk Hi]|[-> (s0 & -> & _)]].
      * destruct (I k s a Hi Hw) as (pre & q & post & -> & Hd & Hc & Hq & F).
        exists pre, q, (post ++ [p]). rewrite <- app_assoc. simpl.
        repeat split; try assumption. apply Forall_app. split; [assumption|].
        constructor; [|constructor]. intros Hp. congruence.
      * rewrite written_set in Hw. injection Hw as <-.
        exists done, p, []. split; [reflexivity|]. split; [reflexivity|].
        split; [unfold carries; rewrite N; reflexivity|].
        split; [assumption | constructor].
Qed.

(** The property that the loop leaves is as it was before the loop, and
    absent on the dates that the loop adds. *)
Lemma fill_other data m m' :
  NoDup (map fst m) ->
  fill E set key data m = Normal m' ->
  forall k s', In (k, s') m' ->
    (exists s, In (k, s) m /\ other s' = other s) \/ other s' = None.
Proof.
  revert m. induction data as [|p data IH]; simpl; intros m D H k s' Hin.
  - injection H as <-. left. eauto.
  - destruct (nullish (metric p key)); [eauto|].
    invert_bind H as n Hn.
    destruct (IH _ (update_NoDup (date p) (set n) m D) H k s' Hin)
      as [(s & Hi & Ho)|Ho];
      [|right; assumption].
    destruct (update_In _ _ _ _ _ D Hi) as [[Nk Hm]|[-> (s0 & -> & [Hm| ->])]].
    + left. eauto.
    + left. exists s0. rewrite Ho, other_set. split; [assumption | reflexivity].
    + right. rewrite Ho, other_set. assumption.
Qed.

(** Every point that carries a value leaves its date in the map with the
    property written, and what was written before stays written. *)
Lemma fill_covers data m m' :
  fill E set key data m = Normal m' ->
  (forall k s, In (k, s) m ->
     exists s', In (k, s') m'
                /\ (written s <> None -> written s' <> None)
                /\ (other s <> None -> other s' <> None))
  /\ (forall p, In p data -> carries key p = true ->
        exists s', In (date p, s') m' /\ written s' <> None).
Proof.
  revert m. induction data as [|p data IH]; simpl; intros m H.
  - injection H as <-. split; [eauto | intros p []].
  - destruct (nullish (metric p key)) eqn:N.
    + destruct (IH m H) as [K C]. split; [assumption|].
      intros q [<-|Hq] Hc; [|auto]. unfold carries in Hc. rewrite N in Hc.
      discriminate.
    + invert_bind H as n Hn. destruct (IH _ H) as [K C]. split.
      * intros k s Hin.
        destruct (update_stays (date p) (set n) m k s Hin) as (s1 & H1 & Hs).
        destruct (K k s1 H1) as (s' & H' & Hw & Ho). exists s'.
        split; [assumption|].
        destruct Hs as [->| ->]; [tauto|].
        rewrite written_set, other_set in *.
        split; [intros _; apply Hw; discriminate | assumption].
      * intros q [<-|Hq] Hc; [|auto].
        destruct (update_written (date p) (set n) m) as [s0 H0].
        destruct (K _ _ H0) as (s' & H' & Hw & _). exists s'.
        split; [assumption|]. apply Hw. rewrite written_set. discriminate.
Qed.

End FillOne.

Lemma aligned_triples m x y dates d a b :
  aligned m = (x, y, dates) ->
  In (d, (a, b)) (combine dates (combine x y)) ->
  exists s, In (d, s) m /\ value1 s = Some a /\ value2 s = Some b.
Proof.
  revert x y dates. induction m as [|[k s] m IH]; simpl; intros x y dates H Hin.
  - injection H as <- <- <-. contradiction.
  - destruct (aligned m) as [[x' y'] d'].
    assert (R : In (d, (a, b)) (combine d' (combine x' y')) ->
                exists s0, In (d, s0) ((k, s) :: m)
                           /\ value1 s0 = Some a /\ value2 s0 = Some b).
    { intros Hi. destruct (IH _ _ _ eq_refl Hi) as (s0 & H0 & V).
      exists s0. split; [right; assumption | assumption]. }
    destruct (value1 s) eqn:V1, (value2 s) eqn:V2; injection H as <- <- <-;
      auto.
    destruct Hin as [Hin|Hin]; [|auto]. injection Hin as <- <- <-.
    exists s. split; [left; reflexivity | split; assumption].
Qed.

Lemma aligned_complete m x y dates d s :
  aligned m = (x, y, dates) -> In (d, s) m ->
  value1 s <> None -> value2 s <> None -> In d dates.
Proof.
  revert x y dates. induction m as [|[k s0] m IH]; simpl;
    intros x y dates H Hin V1 V2; [contradiction|].
  destruct (aligned m) as [[x' y'] d'].
  destruct Hin as [Hin|Hin].
  - injection Hin as -> ->.
    destruct (value1 s); [|congruence]. destruct (value2 s); [|congruence].
    injection H as <- <- <-. left. reflexivity.
  - pose proof (IH _ _ _ eq_refl Hin V1 V2) as Hd.
    destruct (value1 s0), (value2 s0); injection H as <- <- <-;
      try assumption. right. assumption.
Qed.

Lemma unique_slot (m : list (string * slot)) k s s' :
  NoDup (map fst m) -> In (k, s) m -> In (k, s') m -> s = s'.
Proof.
  induction m as [|[k0 s0] m IH]; simpl; intros D H H'; [contradiction|].
  inversion D as [|? ? Hn D']; subst.
  destruct H as [H|H], H' as [H'|H'].
  - congruence.
  - injection H as -> ->. exfalso. apply Hn.
    apply (in_map fst) in H'. assumption.
  - injection H' as -> ->. exfalso. apply Hn.
    apply (in_map fst) in H. assumption.
  - auto.
Qed.

(** The two loops and the sort of alignDataForCorrelation, when it
    returns: the maps after each loop and the sorted entries. *)
Lemma align_stages E data1 data2 key1 key2 x y dates :
  alignDataForCorrelation E data1 data2 key1 key2 = Normal (x, y, dates) ->
  exists m1 m2 sorted,
    fill E set_value1 key1 data1 [] = Normal m1
    /\ fill E set_value2 key2 data2 m1 = Normal m2
    /\ Permutation m2 sorted
    /\ NoDup (map fst m1) /\ NoDup (map fst m2)
    /\ aligned sorted = (x, y, dates).
Proof.
  unfold alignDataForCorrelation. intros H.
  invert_bind H as m1 H1. invert_bind H as m2 H2. invert_bind H as sorted Hs.
  injection H as H. exists m1, m2, sorted.
  assert (D1 : NoDup (map fst m1))
    by (apply (fill_NoDup _ _ _ _ [] _ (NoDup_nil _) H1)).
  repeat split; try assumption.
  - eapply sort_perm. eassumption.
  - apply (fill_NoDup _ _ _ _ _ _ D1 H2).
Qed.

(** X14: when a date occurs more than once in a series, the value that
    alignDataForCorrelation pairs is the one of the last point of that
    date that carries a value: each returned x (and y) is Number() of
    that value. *)
Theorem X14_last_value_of_a_date_wins (E : JSEngine)
    (data1 data2 : list DataPoint) (metric1Key metric2Key : string)
    (x y : list float) (dates : list string) :
  alignDataForCorrelation E data1 data2 metric1Key metric2Key
  = Normal (x, y, dates) ->
  forall d a b,
    In (d, (a, b)) (combine dates (combine x y)) ->
    last_value E metric1Key data1 d a /\ last_value E metric2Key data2 d b.
Proof.
  intros H d a b Hin.
  destruct (align_stages _ _ _ _ _ _ _ _ H)
    as (m1 & m2 & sorted & H1 & H2 & P & D1 & D2 & A).
  destruct (aligned_triples _ _ _ _ _ _ _ A Hin) as (s & Hs & V1 & V2).
  apply (Permutation_in _ (Permutation_sym P)) in Hs.
  split.
  - destruct (fill_other E set_value2 value1 metric2Key
                (fun n s => eq_refl) eq_refl data2 m1 m2 D1 H2 d s Hs)
      as [(s1 & Hs1 & Ho)|Ho]; [|congruence].
    rewrite V1 in Ho. symmetry in Ho.
    apply (fill_last E set_value1 value1 metric1Key (fun n s => eq_refl)
             data1 [] [] m1 (NoDup_nil _)) with (s := s1);
      [intros ? ? ? [] | assumption ..].
  - apply (fill_last E set_value2 value2 metric2Key (fun n s => eq_refl)
             data2 [] m1 m2 D1) with (s := s); try assumption.
    intros k s1 c Hs1 Hw.
    destruct (fill_other E set_value1 value2 metric1Key (fun n s => eq_refl)
                eq_refl data1 [] m1 (NoDup_nil _) H1 k s1 Hs1)
      as [(s0 & [] & _)|Ho]. congruence.
Qed.

Lemma X14_last_value_of_a_date_wins_witness :
  last_value Ref.engine "steps"
    [point "2024-01-01" "steps" (VNum 100);
     point "2024-01-01" "steps" (VNum 4000);
     point "2024-01-01" "steps" VNull]
    "2024-01-01" 4000%float.
Proof.
  refine (proj1 (X14_last_value_of_a_date_wins Ref.engine
    [point "2024-01-01" "steps" (VNum 100);
     point "2024-01-01" "steps" (VNum 4000);
     point "2024-01-01" "steps" VNull]
    [point "2024-01-01" "sleep" (VNum 7)]
    "steps" "sleep" [4000%float] [7%float] ["2024-01-01"] eq_refl
    "2024-01-01" 4000%float 7%float _)).
  left. reflexivity.
Defined.

(** X15: alignDataForCorrelation leaves no common date out: when it
    returns, every date on which both series have a point whose value
    under its key is neither undefined nor null is among the returned
    dates. *)
Theorem X15_no_common_date_is_left_out (E : JSEngine)
    (data1 data2 : list DataPoint) (metric1Key metric2Key : string)
    (x y : list float) (dates : list string) :
  alignDataForCorrelation E data1 data2 metric1Key metric2Key
  = Normal (x, y, dates) ->
  forall d,
    defined_on metric1Key data1 d -> defined_on metric2Key data2 d ->
    In d dates.
Proof.
  intros H d (p1 & Hp1 & Hd1 & Hc1) (p2 & Hp2 & Hd2 & Hc2).
  destruct (align_stages _ _ _ _ _ _ _ _ H)
    as (m1 & m2 & sorted & H1 & H2 & P & D1 & D2 & A).
  destruct (fill_covers E set_value1 value1 value2 metric1Key
              (fun n s => eq_refl) (fun n s => eq_refl) data1 [] m1 H1)
    as [_ C1].
  destruct (C1 p1 Hp1) as (s1 & Hs1 & W1);
    [unfold carries; rewrite Hc1; reflexivity|].
  destruct (fill_covers E set_value2 value2 value1 metric2Key
              (fun n s => eq_refl) (fun n s => eq_refl) data2 m1 m2 H2)
    as [K2 C2].
  destruct (C2 p2 Hp2) as (s2 & Hs2 & W2);
    [unfold carries; rewrite Hc2; reflexivity|].
  destruct (K2 _ _ Hs1) as (s' & Hs' & _ & O2).
  rewrite Hd1 in Hs'. rewrite Hd2 in Hs2.
  rewrite (unique_slot m2 d s' s2 D2 Hs' Hs2) in O2.
  apply (aligned_complete sorted x y dates d s2 A);
    [apply (Permutation_in _ P); assumption | auto | assumption].
Qed.

Lemma X15_no_common_date_is_left_out_witness :
  alignDataForCorrelation Ref.engine
    [point "2024-01-01" "steps" (VNum 1);
     point "2024-01-02" "steps" (VNum 2)]
    [point "2024-01-02" "sleep" (VNum 7);
     point "2024-01-03" "sleep" VNull]
    "steps" "sleep"
  = Normal ([2%float], [7%float], ["2024-01-02"])
  /\ In "2024-01-02" ["2024-01-02"].
Proof.
  assert (H : alignDataForCorrelation Ref.engine
                [point "2024-01-01" "steps" (VNum 1);
                 point "2024-01-02" "steps" (VNum 2)]
                [point "2024-01-02" "sleep" (VNum 7);
                 point "2024-01-03" "sleep" VNull]
                "steps" "sleep"
              = Normal ([2%float], [7%float], ["2024-01-02"]))
    by (vm_compute; reflexivity).
  split; [exact H|].
  apply (X15_no_common_date_is_left_out _ _ _ _ _ _ _ _ H).
  - exists (point "2024-01-02" "steps" (VNum 2)).
    split; [right; left; reflexivity | split; reflexivity].
  - exists (point "2024-01-02" "sleep" (VNum 7)).
    split; [left; reflexivity | split; reflexivity].
Defined.

(** ** parseActivities on a list that is not a summarized export *)

Lemma is_activity_listed item :
  is_activity item = Normal (listed_activity item).
Proof.
  unfold is_activity, listed_activity, object_shaped.
  destruct item as [| | b | n | str | items | ps]; simpl;
    rewrite ?andb_false_r; try reflexivity.
  destruct (truthy (lookup "activityType" ps)); reflexivity.
Qed.

(** X16: on a non-empty array whose first element is neither null nor
    undefined and has no truthy summarizedActivitiesExport,
    parseActivities does not throw and returns, in their order, the
    elements that are objects with a truthy activityType and a truthy
    startTimeGMT, unchanged; it is there what the first text of the file
    returns. *)
Theorem X16_activities_without_export (E : JSEngine)
    (first : value) (rest : list value) :
  nullish first = false ->
  truthy (prop first "summarizedActivitiesExport") = false ->
  parseActivities E (VArr (first :: rest))
  = Normal (filter listed_activity (first :: rest))
  /\ Rev2.parseActivities (VArr (first :: rest))
     = parseActivities E (VArr (first :: rest)).
Proof.
  intros N T.
  assert (R : filterM is_activity (first :: rest)
              = Normal (filter listed_activity (first :: rest)))
    by (apply filterM_bool; apply is_activity_listed).
  assert (P : parseActivities E (VArr (first :: rest))
              = Normal (filter listed_activity (first :: rest))).
  { unfold parseActivities. rewrite (get_prop _ _ N). unfold bind at 1.
    rewrite T. exact R. }
  split; [exact P|]. rewrite P. exact R.
Qed.

Lemma X16_activities_without_export_witness :
  parseActivities Ref.engine
    (VArr [VObj [("activityType", VStr "running");
                 ("startTimeGMT", VStr "2024-01-02T07:00:00.000Z")];
           VNull;
           VObj [("activityType", VStr "cycling")]])
  = Normal [VObj [("activityType", VStr "running");
                  ("startTimeGMT", VStr "2024-01-02T07:00:00.000Z")]].
Proof.
  exact (proj1 (X16_activities_without_export Ref.engine
    (VObj [("activityType", VStr "running");
           ("startTimeGMT", VStr "2024-01-02T07:00:00.000Z")])
    [VNull; VObj [("activityType", VStr "cycling")]]
    eq_refl eq_refl)).
Defined.

(** ** A day with a null stress aggregate *)

Lemma find_total_null pre post :
  forallb passed_over pre = true ->
  find_total (pre ++ VNull :: post) = Throw TypeError.
Proof.
  intros Hp. induction pre as [|a pre IH]; simpl; [reflexivity|].
  simpl in Hp. apply andb_true_iff in Hp. destruct Hp as [Ha Hp].
  unfold passed_over in Ha. apply andb_true_iff in Ha. destruct Ha as [Hn Hs].
  apply negb_true_iff in Hn. rewrite (get_prop _ _ Hn). simpl.
  destruct (prop a "type"); auto.
  apply negb_true_iff in Hs. rewrite Hs. auto.
Qed.

Lemma parseWellnessData_null_aggregate E ps pre post :
  truthy (lookup "calendarDate" ps) = true ->
  aggregator_list (VObj ps) = VArr (pre ++ VNull :: post) ->
  forallb passed_over pre = true ->
  parseWellnessData E (VObj ps) = Throw TypeError.
Proof.
  intros Hd Ha Hp.
  assert (Hs : forall k, stress_total (VObj ps) k = Throw TypeError).
  { intros k. unfold stress_total. simpl in *.
    destruct (lookup "allDayStress" ps) as [| |b|n|str|l|qs]; try discriminate.
    simpl. rewrite Ha. rewrite (find_total_null _ _ Hp). reflexivity. }
  unfold parseWellnessData. simpl. rewrite Hd.
  unfold object_literal, wellness_fields, copy.
  cbn -[stress_total]. rewrite Hs. reflexivity.
Qed.

Lemma push_wellness_until E before bad others acc :
  Forall (fun v => stress_shaped v = true) before ->
  parseWellnessData E bad = Throw TypeError ->
  exists days,
    push_wellness E (before ++ bad :: others) acc
    = (acc ++ days, Throw TypeError)
    /\ Forall2 (fun rec day =>
                  parseWellnessData E rec = Normal (Some day)
                  /\ get day "calendarDate" = get rec "calendarDate")
               (filter carries_date before) days.
Proof.
  intros F Hb. revert acc. induction F as [|rec before Hr _ IH]; intros acc.
  - exists []. simpl. rewrite Hb, app_nil_r. split; [reflexivity | constructor].
  - simpl. pose proof (parseWellnessData_day E rec Hr) as D.
    destruct (carries_date rec).
    + destruct D as (day & P & G). rewrite P.
      destruct (IH (acc ++ [day])) as (days & -> & F2).
      exists (day :: days). rewrite <- app_assoc. split; [reflexivity|].
      constructor; [split|]; assumption.
    + rewrite D. apply IH.
Qed.

(** C5: a wellness list in which a day that carries a calendar date has
    [null] in its list of stress aggregates, before any aggregate tagged
    TOTAL.  The callback of [find] reads [agg.type] of [null]: the
    TypeError leaves [forEach], and only the dated days that stand before
    that day are stored.  The day itself and every day after it, dated or
    not, are not extracted. *)
Theorem C5_days_after_a_null_aggregate_are_lost (E : JSEngine)
    (r : GarminDataExport) (filename : string)
    (before others : list value) (ps : list (string * value))
    (aggs rest : list value) :
  classify filename = Wellness ->
  Forall (fun v => stress_shaped v = true) before ->
  carries_date (VObj ps) = true ->
  aggregator_list (VObj ps) = VArr (aggs ++ VNull :: rest) ->
  forallb passed_over aggs = true ->
  exists days,
    absorb E r filename (VArr (before ++ VObj ps :: others))
    = ({| sleepData := sleepData r; wellnessData := wellnessData r ++ days;
          hydrationData := hydrationData r; activities := activities r;
          metricsData := metricsData r |}, Throw TypeError)
    /\ List.length days = List.length (filter carries_date before)
    /\ Forall2 (fun rec day =>
                  parseWellnessData E rec = Normal (Some day)
                  /\ get day "calendarDate" = get rec "calendarDate")
               (filter carries_date before) days.
Proof.
  intros Hc F Hd Ha Hp. unfold absorb. rewrite Hc.
  pose proof (parseWellnessData_null_aggregate E ps aggs rest Hd Ha Hp) as Hb.
  destruct (push_wellness_until E before (VObj ps) others (wellnessData r) F Hb)
    as (days & -> & F2).
  exists days. split; [reflexivity|]. split; [|assumption].
  symmetry. eapply Forall2_length. eassumption.
Qed.

Lemma C5_days_after_a_null_aggregate_are_lost_witness :
  (exists r,
     parseGarminData Ref.engine
       [file "DI_CONNECT/DI-Connect-Aggregator/UDSFile_2024.json"
          (VArr [VObj [("calendarDate", VStr "2024-01-01");
                       ("allDayStress",
                        VObj [("aggregatorList", VArr [VNull])])];
                 VObj [("calendarDate", VStr "2024-01-02")]])]
     = (Normal r, [1%float])
     /\ wellnessData r = [])
  /\ exists days,
       absorb Ref.engine empty_export "UDSFile_2024.json"
         (VArr ([] ++ VObj [("calendarDate", VStr "2024-01-01");
                            ("allDayStress",
                             VObj [("aggregatorList", VArr [VNull])])]
                   :: [VObj [("calendarDate", VStr "2024-01-02")]]))
       = ({| sleepData := []; wellnessData := [] ++ days; hydrationData := [];
             activities := []; metricsData := [] |}, Throw TypeError)
       /\ List.length days = 0.
Proof.
  split.
  - eexists. split; [vm_compute; reflexivity | reflexivity].
  - destruct (C5_days_after_a_null_aggregate_are_lost Ref.engine empty_export
                "UDSFile_2024.json" []
                [VObj [("calendarDate", VStr "2024-01-02")]]
                [("calendarDate", VStr "2024-01-01");
                 ("allDayStress", VObj [("aggregatorList", VArr [VNull])])]
                [] [] eq_refl (Forall_nil _) eq_refl eq_refl eq_refl)
      as (days & H & L & _).
    exists days. split; assumption.
Defined.
